(** * Fling Fish WebSocket server: entity store, room handlers and state validator

    A shallow embedding of [schema/PhysicsState.js], [rooms/PhysicsRoom.js]
    and [stateValidator.js].

    Conventions of the embedding.
    - Objects mutated in place by the JavaScript are threaded explicitly: a
      method returns the updated object (and its JavaScript return value, when
      it has one).  A player stays at its position in the players map when it
      is updated, as the object in the [MapSchema] does.
    - [Date.now()] is the argument [now] (integer milliseconds) of the handler
      that reads the clock; every read inside one handler run gives [now].
    - Each [Math.random()] result is an argument of the function that draws it.
    - [room.broadcast] appends to the list of broadcasts a handler returns.
    - Numbers of the room are rationals (the room only adds, subtracts,
      multiplies and compares them); numbers of the validator, which takes a
      square root, are real numbers.  Arithmetic is exact in both: rounding of
      IEEE doubles, NaN and infinities are outside the model.
    - A handler that throws is left at the statement that throws, and what
      it wrote before stays written: see [forEachShapeData], the loop of
      [handleShapeUpdate], which throws on a [null] entry of the batch.
    - Log calls have no effect on the state and are left out. *)

From Stdlib Require Import Ascii String List ZArith QArith Qround Bool Lia Lqa DecimalString.
From Stdlib Require Import Qabs.
From Stdlib Require HexadecimalString.
From Stdlib Require Import Reals Lra.
Import ListNotations.

Open Scope string_scope.
Open Scope Z_scope.

(** ** JavaScript helpers *)

(** A string-valued property used as a condition: [undefined] and the empty
    string are falsy. *)
Definition truthy (s : option string) : bool :=
  match s with
  | Some s => negb (s =? "")%string
  | None => false
  end.

(** Template-literal rendering of an integer. *)
Definition string_of_Z (z : Z) : string := NilZero.string_of_int (Z.to_int z).

Definition Qltb (a b : Q) : bool := negb (Qle_bool b a).

(** A property that is present with the type the handler tests for. *)
Definition isDefined {A} (v : option A) : bool :=
  match v with Some _ => true | None => false end.

(** [array.find(pred)] *)
Definition find {A} := @List.find A.

(** [array.findIndex(pred)], [None] for -1. *)
Fixpoint findIndex {A} (f : A -> bool) (l : list A) : option nat :=
  match l with
  | [] => None
  | a :: r => if f a then Some O else option_map S (findIndex f r)
  end.

(** [array.splice(i, 1)] *)
Fixpoint splice1 {A} (i : nat) (l : list A) : list A :=
  match l, i with
  | [], _ => []
  | _ :: r, O => r
  | a :: r, S i => a :: splice1 i r
  end.

(** The effect of mutating the object returned by [array.find(pred)]. *)
Fixpoint updateFound {A} (f : A -> bool) (g : A -> A) (l : list A) : list A :=
  match l with
  | [] => []
  | a :: r => if f a then g a :: r else a :: updateFound f g r
  end.

(** ** [Map] and [MapSchema]: string keys, iteration in insertion order *)

Module JsMap.
Section WithValue.
Context {V : Type}.

Definition t := list (string * V).

Definition empty : t := [].

Fixpoint get (m : t) (k : string) : option V :=
  match m with
  | [] => None
  | (k', v) :: r => if (k' =? k)%string then Some v else get r k
  end.

Definition has (m : t) (k : string) : bool :=
  match get m k with Some _ => true | None => false end.

(** An existing key keeps its place; a new key goes last. *)
Fixpoint set (m : t) (k : string) (v : V) : t :=
  match m with
  | [] => [(k, v)]
  | (k', v') :: r =>
      if (k' =? k)%string then (k, v) :: r else (k', v') :: set r k v
  end.

Fixpoint delete (m : t) (k : string) : t :=
  match m with
  | [] => []
  | (k', v') :: r =>
      if (k' =? k)%string then r else (k', v') :: delete r k
  end.

Definition keys (m : t) : list string := map fst m.
Definition values (m : t) : list V := map snd m.
Definition size (m : t) : nat := length m.

(** Keys of a map are pairwise distinct. *)
Definition wf (m : t) : Prop := NoDup (keys m).
End WithValue.
Arguments t V : clear implicits.
End JsMap.

(** ** schema/PhysicsState.js *)

Module Vector.
Record t := mk { x : Q; y : Q }.
Definition new : t := mk 0 0.
End Vector.

Module Shape.
Record t := mk {
  id : string;
  x : Q;
  y : Q;
  angle : Q;
  velocity : Vector.t;
  lastUpdate : Z;
  color : string
}.

(** [new Shape(id, x, y)]; [color] is the result of [generateRandomColor()]. *)
Definition new (id : string) (x y : Q) (now : Z) (color : string) : t :=
  mk id x y 0 Vector.new now color.

(** [this.angle = angle || this.angle]: [undefined] and 0 keep the angle. *)
Definition setPosition (s : t) (x y : Q) (newAngle : option Q) (now : Z) : t :=
  let angle' :=
    match newAngle with
    | Some a => if Qeq_bool a 0 then s.(angle) else a
    | None => s.(angle)
    end in
  mk s.(id) x y angle' s.(velocity) now s.(color).

Definition setVelocity (s : t) (vx vy : Q) : t :=
  mk s.(id) s.(x) s.(y) s.(angle) (Vector.mk vx vy) s.(lastUpdate) s.(color).

Definition setLastUpdate (s : t) (now : Z) : t :=
  mk s.(id) s.(x) s.(y) s.(angle) s.(velocity) now s.(color).

Definition setColor (s : t) (color : string) (now : Z) : t :=
  mk s.(id) s.(x) s.(y) s.(angle) s.(velocity) now color.

Definition hasId (shapeId : string) (s : t) : bool := (s.(id) =? shapeId)%string.
End Shape.

Module Player.
Record t := mk {
  id : string;
  shapes : list Shape.t;
  disconnected : bool;
  lastActivity : Z
}.

Definition new (id : string) (now : Z) : t := mk id [] false now.

Definition setShapes (p : t) (shapes : list Shape.t) : t :=
  mk p.(id) shapes p.(disconnected) p.(lastActivity).

Definition setLastActivity (p : t) (now : Z) : t :=
  mk p.(id) p.(shapes) p.(disconnected) now.

Definition addShape (p : t) (shape : Shape.t) (now : Z) : t :=
  mk p.(id) (p.(shapes) ++ [shape]) p.(disconnected) now.

Definition removeShape (p : t) (shapeId : string) (now : Z) : t * bool :=
  match findIndex (Shape.hasId shapeId) p.(shapes) with
  | Some index =>
      (mk p.(id) (splice1 index p.(shapes)) p.(disconnected) now, true)
  | None => (p, false)
  end.

Definition setConnectionStatus (p : t) (connected : bool) (now : Z) : t :=
  mk p.(id) p.(shapes) (negb connected) now.
End Player.

Module PhysicsState.
Record t := mk {
  players : JsMap.t Player.t;
  serverTime : Z;
  boundaryWidth : Q;
  boundaryHeight : Q
}.

Definition new (now : Z) : t := mk JsMap.empty now 2400 1800.

Definition setPlayers (st : t) (players : JsMap.t Player.t) : t :=
  mk players st.(serverTime) st.(boundaryWidth) st.(boundaryHeight).

Definition setServerTime (st : t) (now : Z) : t :=
  mk st.(players) now st.(boundaryWidth) st.(boundaryHeight).

Definition createPlayer (st : t) (playerId : string) (now : Z) : t * Player.t :=
  match JsMap.get st.(players) playerId with
  | Some player => (st, player)
  | None =>
      let player := Player.new playerId now in
      (setPlayers st (JsMap.set st.(players) playerId player), player)
  end.

Definition getPlayer (st : t) (playerId : string) : option Player.t :=
  JsMap.get st.(players) playerId.

Definition removePlayer (st : t) (playerId : string) : t * bool :=
  if JsMap.has st.(players) playerId
  then (setPlayers st (JsMap.delete st.(players) playerId), true)
  else (st, false).

Definition markPlayerConnected (st : t) (playerId : string) (connected : bool)
    (now : Z) : t * bool :=
  match JsMap.get st.(players) playerId with
  | Some player =>
      (setPlayers st (JsMap.set st.(players) playerId
                        (Player.setConnectionStatus player connected now)),
       true)
  | None => (st, false)
  end.

(** [`${playerId}_${Date.now()}_${Math.floor(Math.random() * 1000)}`] *)
Definition freshShapeId (playerId : string) (now : Z) (r : Q) : string :=
  playerId ++ "_" ++ string_of_Z now ++ "_" ++ string_of_Z (Qfloor (r * 1000)).

(** [rId] and [rX] are the draws of [Math.random()] for the id and for x. *)
Definition createShapeForPlayer (st : t) (playerId : string)
    (customShapeId : option string) (now : Z) (rId rX : Q) (color : string)
    : t * option Shape.t :=
  match JsMap.get st.(players) playerId with
  | None => (st, None)
  | Some player =>
      let shapeId :=
        match customShapeId with
        | Some c => if truthy customShapeId then c else freshShapeId playerId now rId
        | None => freshShapeId playerId now rId
        end in
      let x := (rX * (st.(boundaryWidth) - 100) + 50)%Q in
      let y := (st.(boundaryHeight) - 50)%Q in
      let shape := Shape.new shapeId x y now color in
      (setPlayers st (JsMap.set st.(players) playerId (Player.addShape player shape now)),
       Some shape)
  end.

Definition isInactive (maxInactiveTime now : Z) (p : Player.t) : bool :=
  p.(Player.disconnected) && (maxInactiveTime <? now - p.(Player.lastActivity)).

Definition playersToRemove (st : t) (maxInactiveTime now : Z) : list string :=
  map fst (filter (fun kv => isInactive maxInactiveTime now (snd kv)) st.(players)).

Definition cleanupInactivePlayers (st : t) (maxInactiveTime now : Z) : t * nat :=
  let toRemove := playersToRemove st maxInactiveTime now in
  (fold_left (fun st id => fst (removePlayer st id)) toRemove st,
   length toRemove).
End PhysicsState.

(** ** rooms/PhysicsRoom.js *)

Record Client := { sessionId : string }.

(** [options] of [onJoin]. *)
Record JoinOptions := { playerId : option string }.

(** The [action] object of a [physics_action] message.  A field that is
    [undefined], or fails the handler's [typeof] test, is [None]; a velocity
    object, when present, carries two numbers. *)
Module Action.
Record t := mk {
  type : option string;
  shapeId : option string;
  x : option Q;
  y : option Q;
  angle : option Q;
  velocity : option Vector.t
}.
End Action.

(** One entry of the [shapes] array of a [shape_update] message that is not
    [null] or [undefined]; a property is [None] when it is missing or not of
    the type [validateShapeData] tests for.  The array itself is a list of
    [option ShapeData.t], [None] standing for a [null] or [undefined] entry. *)
Module ShapeData.
Record t := mk {
  id : option string;
  x : option Q;
  y : option Q;
  angle : option Q;
  velocity : option Vector.t
}.
End ShapeData.

(** What [this.broadcast] sends.  [timestamp] is the field added to the
    action; [except] is the session excluded from the fan-out. *)
Inductive Broadcast :=
| physics_action (playerId shapeId : string) (action : Action.t)
    (timestamp : Z) (except : option string)
| block_color_changed (playerId color : string)
| player_removed (playerId : string).

Module PhysicsRoom.
Definition MAX_SHAPES_PER_PLAYER : nat := 5.

Record t := mk {
  state : PhysicsState.t;
  playerIdToSessionId : JsMap.t string;
  sessionIdToPlayerId : JsMap.t string;
  lastActivityTime : Z
}.

(** The constructor followed by [onCreate]. *)
Definition new (now : Z) : t :=
  mk (PhysicsState.new now) JsMap.empty JsMap.empty now.

Definition setState (room : t) (st : PhysicsState.t) : t :=
  mk st room.(playerIdToSessionId) room.(sessionIdToPlayerId) room.(lastActivityTime).

Definition setLastActivityTime (room : t) (now : Z) : t :=
  mk room.(state) room.(playerIdToSessionId) room.(sessionIdToPlayerId) now.

(** [playerIdToSessionId.set(playerId, sessionId)] and
    [sessionIdToPlayerId.set(sessionId, playerId)]. *)
Definition bind (room : t) (playerId sessionId : string) : t :=
  mk room.(state)
     (JsMap.set room.(playerIdToSessionId) playerId sessionId)
     (JsMap.set room.(sessionIdToPlayerId) sessionId playerId)
     room.(lastActivityTime).

Definition unbind (room : t) (playerId sessionId : string) : t :=
  mk room.(state)
     (JsMap.delete room.(playerIdToSessionId) playerId)
     (JsMap.delete room.(sessionIdToPlayerId) sessionId)
     room.(lastActivityTime).

(** Writes a player the handler has mutated back at its key. *)
Definition putPlayer (room : t) (playerId : string) (player : Player.t) : t :=
  setState room
    (PhysicsState.setPlayers room.(state)
       (JsMap.set room.(state).(PhysicsState.players) playerId player)).

(** [sessionIdToPlayerId.get(client.sessionId)], [None] when the result is
    falsy. *)
Definition resolve (room : t) (client : Client) : option string :=
  match JsMap.get room.(sessionIdToPlayerId) client.(sessionId) with
  | Some playerId => if truthy (Some playerId) then Some playerId else None
  | None => None
  end.

(** [for (let i = 1; i < shapes.length; i++) removeShape(shapes[i].id)];
    the array shrinks while [i] grows, [fuel] bounds the iterations. *)
Fixpoint removeExtras (fuel i : nat) (player : Player.t) (now : Z) : Player.t :=
  match fuel with
  | O => player
  | S fuel =>
      match nth_error player.(Player.shapes) i with
      | Some shape =>
          removeExtras fuel (S i)
            (fst (Player.removeShape player shape.(Shape.id) now)) now
      | None => player
      end
  end.

(** [while (shapes.length > 0) removeShape(shapes[0].id)] *)
Fixpoint removeAllShapes (fuel : nat) (player : Player.t) (now : Z) : Player.t :=
  match fuel with
  | O => player
  | S fuel =>
      match player.(Player.shapes) with
      | shape :: _ =>
          removeAllShapes fuel
            (fst (Player.removeShape player shape.(Shape.id) now)) now
      | [] => player
      end
  end.

(** [rId], [rX] and [color] are what [createShapeForPlayer] draws when the
    join creates a shape. *)
Definition onJoin (room : t) (client : Client) (options : JoinOptions)
    (now : Z) (rId rX : Q) (color : string) : t :=
  let room := setLastActivityTime room now in
  let provided := truthy options.(playerId) in
  let playerId :=
    match options.(playerId) with
    | Some p => if provided then p else client.(sessionId)
    | None => client.(sessionId)
    end in
  match (if provided then PhysicsState.getPlayer room.(state) playerId else None) with
  | Some _ =>
      (* reconnection *)
      let st := fst (PhysicsState.markPlayerConnected room.(state) playerId true now) in
      let room := bind (setState room st) playerId client.(sessionId) in
      match PhysicsState.getPlayer room.(state) playerId with
      | Some existingPlayer =>
          let n := length existingPlayer.(Player.shapes) in
          if (n =? 0)%nat then
            setState room
              (fst (PhysicsState.createShapeForPlayer room.(state) playerId None
                      now rId rX color))
          else if (1 <? n)%nat then
            putPlayer room playerId (removeExtras n 1 existingPlayer now)
          else room
      | None => room
      end
  | None =>
      let '(st, player) := PhysicsState.createPlayer room.(state) playerId now in
      let room := bind (setState room st) playerId client.(sessionId) in
      if (length player.(Player.shapes) =? 0)%nat then
        setState room
          (fst (PhysicsState.createShapeForPlayer room.(state) playerId None
                  now rId rX color))
      else room
  end.

Definition onLeave (room : t) (client : Client) (consented : bool) (now : Z)
    : t * list Broadcast :=
  let room := setLastActivityTime room now in
  match resolve room client with
  | None => (room, [])
  | Some playerId =>
      let room :=
        match PhysicsState.getPlayer room.(state) playerId with
        | Some player =>
            let player :=
              removeAllShapes (length player.(Player.shapes)) player now in
            let room := putPlayer room playerId player in
            setState room (fst (PhysicsState.removePlayer room.(state) playerId))
        | None => room
        end in
      (unbind room playerId client.(sessionId), [player_removed playerId])
  end.

(** The simulation tick; it makes no call to [broadcast]. *)
Definition update (room : t) (now : Z) : t * list Broadcast :=
  let st := PhysicsState.setServerTime room.(state) now in
  if Z.rem st.(PhysicsState.serverTime) 10000 <? 16
  then (setState room (fst (PhysicsState.cleanupInactivePlayers st 300000 now)), [])
  else (setState room st, []).

Definition validateShapeData (shapeData : ShapeData.t) : bool :=
  truthy shapeData.(ShapeData.id)
  && isDefined shapeData.(ShapeData.x)
  && isDefined shapeData.(ShapeData.y)
  && isDefined shapeData.(ShapeData.angle)
  && isDefined shapeData.(ShapeData.velocity).

(** [isWithinBounds] of [handleShapeUpdate], [threshold = 200]. *)
Definition isWithinBounds (st : PhysicsState.t) (x y : Q) : bool :=
  let threshold : Q := 200%Q in
  Qle_bool (- threshold) x
  && Qle_bool x (st.(PhysicsState.boundaryWidth) + threshold)
  && Qle_bool (- threshold) y
  && Qle_bool y (st.(PhysicsState.boundaryHeight) + threshold).

(** The body of [message.shapes.forEach] in [handleShapeUpdate], on the
    shapes of the sending player. *)
Definition applyShapeData (st : PhysicsState.t) (now : Z)
    (shapes : list Shape.t) (shapeData : ShapeData.t) : list Shape.t :=
  if negb (validateShapeData shapeData) then shapes
  else
    match shapeData.(ShapeData.id), shapeData.(ShapeData.x), shapeData.(ShapeData.y),
          shapeData.(ShapeData.velocity) with
    | Some id, Some x, Some y, Some v =>
        match find (Shape.hasId id) shapes with
        | Some _ =>
            if isWithinBounds st x y then
              updateFound (Shape.hasId id)
                (fun existingShape =>
                   Shape.setLastUpdate
                     (Shape.setVelocity
                        (Shape.setPosition existingShape x y
                           shapeData.(ShapeData.angle) now)
                        v.(Vector.x) v.(Vector.y))
                     now)
                shapes
            else shapes
        | None => shapes
        end
    | _, _, _, _ => shapes
    end.

(** [message.shapes.forEach] of [handleShapeUpdate] on the shapes of the
    sending player.  An entry of the array is [None] when it is [null] or
    [undefined]: [validateShapeData] then throws at [shapeData.id], so the
    entries after it are not visited; what the entries before it did to the
    shapes stays.  The boolean tells whether the loop threw. *)
Fixpoint forEachShapeData (st : PhysicsState.t) (now : Z)
    (batch : list (option ShapeData.t)) (shapes : list Shape.t)
    : list Shape.t * bool :=
  match batch with
  | [] => (shapes, false)
  | None :: _ => (shapes, true)
  | Some shapeData :: rest =>
      forEachShapeData st now rest (applyShapeData st now shapes shapeData)
  end.

(** [shapes] is [None] when [message.shapes] is missing or not an array.
    When the loop throws, the handler is left before the statement that
    stamps [player.lastActivity]. *)
Definition handleShapeUpdate (room : t) (client : Client)
    (shapes : option (list (option ShapeData.t))) (now : Z) : t * list Broadcast :=
  match shapes with
  | None => (room, [])
  | Some shapes =>
      match resolve room client with
      | None => (room, [])
      | Some playerId =>
          match PhysicsState.getPlayer room.(state) playerId with
          | None => (room, [])
          | Some player =>
              let (shapes', thrown) :=
                forEachShapeData room.(state) now shapes player.(Player.shapes) in
              let player' := Player.setShapes player shapes' in
              (putPlayer room playerId
                 (if thrown then player' else Player.setLastActivity player' now),
               [])
          end
      end
  end.

(** [belongsToAnotherPlayer] of [handlePhysicsAction]. *)
Definition belongsToAnotherPlayer (st : PhysicsState.t) (playerId shapeId : string)
    : bool :=
  existsb
    (fun kv =>
       negb (fst kv =? playerId)%string
       && existsb (Shape.hasId shapeId) (snd kv).(Player.shapes))
    st.(PhysicsState.players).

(** [action] is [None] when [message.action] is missing. *)
Definition handlePhysicsAction (room : t) (client : Client)
    (action : option Action.t) (now : Z) : t * list Broadcast :=
  match action with
  | None => (room, [])
  | Some action =>
      match action.(Action.type), action.(Action.shapeId) with
      | Some type, Some shapeId =>
          if negb (truthy (Some type)) || negb (truthy (Some shapeId))
          then (room, [])
          else
            match resolve room client with
            | None => (room, [])
            | Some playerId =>
                match PhysicsState.getPlayer room.(state) playerId with
                | None => (room, [])
                | Some player =>
                    match find (Shape.hasId shapeId) player.(Player.shapes) with
                    | None =>
                        if belongsToAnotherPlayer room.(state) playerId shapeId
                        then (room, [])
                        else (room, [])
                    | Some _ =>
                        let accept (mutate : Shape.t -> Shape.t) :=
                          let shapes' :=
                            updateFound (Shape.hasId shapeId) mutate
                              player.(Player.shapes) in
                          (putPlayer room playerId
                             (Player.setLastActivity
                                (Player.setShapes player shapes') now),
                           [physics_action playerId shapeId action now
                              (Some client.(sessionId))]) in
                        if (type =? "position")%string then
                          match action.(Action.x), action.(Action.y) with
                          | Some x, Some y =>
                              accept
                                (fun shape =>
                                   let shape :=
                                     Shape.setPosition shape x y
                                       action.(Action.angle) now in
                                   let shape :=
                                     match action.(Action.velocity) with
                                     | Some v =>
                                         Shape.setVelocity shape
                                           v.(Vector.x) v.(Vector.y)
                                     | None => shape
                                     end in
                                   Shape.setLastUpdate shape now)
                          | _, _ => (room, [])
                          end
                        else if (type =? "impulse")%string then
                          match action.(Action.velocity) with
                          | Some v =>
                              accept
                                (fun shape =>
                                   Shape.setLastUpdate
                                     (Shape.setVelocity shape
                                        v.(Vector.x) v.(Vector.y))
                                     now)
                          | None => (room, [])
                          end
                        else (room, [])
                    end
                end
            end
      | _, _ => (room, [])
      end
  end.

(** [rUnique] is the draw for [uniqueId], [rX] and [color] are what
    [createShapeForPlayer] draws; it draws no id, [uniqueId] being given. *)
Definition handleCreateShape (room : t) (client : Client) (now : Z)
    (rUnique rX : Q) (color : string) : t * list Broadcast :=
  match resolve room client with
  | None => (room, [])
  | Some playerId =>
      match PhysicsState.getPlayer room.(state) playerId with
      | None => (room, [])
      | Some player =>
          if (0 <? length player.(Player.shapes))%nat then (room, [])
          else
            let uniqueId := PhysicsState.freshShapeId playerId now rUnique in
            (setState room
               (fst (PhysicsState.createShapeForPlayer room.(state) playerId
                       (Some uniqueId) now rUnique rX color)),
             [])
      end
  end.

(** [shapeId] is [None] when [message.shapeId] is falsy. *)
Definition handleRemoveShape (room : t) (client : Client)
    (shapeId : option string) (now : Z) : t * list Broadcast :=
  match shapeId with
  | None => (room, [])
  | Some shapeId' =>
      if negb (truthy shapeId) then (room, [])
      else
        match resolve room client with
        | None => (room, [])
        | Some playerId =>
            match PhysicsState.getPlayer room.(state) playerId with
            | None => (room, [])
            | Some player =>
                (putPlayer room playerId
                   (fst (Player.removeShape player shapeId' now)),
                 [])
            end
        end
  end.

(** [/^#[0-9A-F]{6}$/i.test(color)] *)
Definition isHexDigit (c : ascii) : bool :=
  let between (lo hi : ascii) := Ascii.leb lo c && Ascii.leb c hi in
  (between "0" "9" || between "a" "f" || between "A" "F")%char.

Definition isHexColor (color : string) : bool :=
  match color with
  | String "#"%char digits =>
      (String.length digits =? 6)%nat
      && forallb isHexDigit (list_ascii_of_string digits)
  | _ => false
  end.

(** [color] is [None] when [message.color] is missing. *)
Definition handleChangeBlockColor (room : t) (client : Client)
    (color : option string) (now : Z) : t * list Broadcast :=
  match color with
  | None => (room, [])
  | Some color' =>
      if negb (truthy color) || negb (isHexColor color') then (room, [])
      else
        match resolve room client with
        | None => (room, [])
        | Some playerId =>
            match PhysicsState.getPlayer room.(state) playerId with
            | None => (room, [])
            | Some player =>
                if (0 <? length player.(Player.shapes))%nat then
                  (putPlayer room playerId
                     (Player.setShapes player
                        (map (fun shape => Shape.setColor shape color' now)
                           player.(Player.shapes))),
                   [block_color_changed playerId color'])
                else (room, [])
            end
        end
  end.

(** [isOutOfBounds] of [checkAndResetOutOfBoundsShapes], [margin = 100]. *)
Definition isOutOfBounds (boundaryWidth boundaryHeight : Q) (shape : Shape.t) : bool :=
  let margin : Q := 100%Q in
  Qltb shape.(Shape.x) (- margin)
  || Qltb (boundaryWidth + margin) shape.(Shape.x)
  || Qltb shape.(Shape.y) (- margin)
  || Qltb (boundaryHeight + margin) shape.(Shape.y).

(** The corrected shape and the broadcast of one out-of-bounds shape;
    [r] is the draw of [Math.random()] for [newX]. *)
Definition resetShape (boundaryWidth boundaryHeight : Q) (now : Z) (r : Q)
    (playerId : string) (shape : Shape.t) : Shape.t * Broadcast :=
  let newX := (r * (boundaryWidth - 200) + 100)%Q in
  let newY := (boundaryHeight - 50)%Q in
  (Shape.setVelocity (Shape.setPosition shape newX newY (Some 0%Q) now) 0 0,
   physics_action playerId shape.(Shape.id)
     (Action.mk (Some "position") None (Some newX) (Some newY) (Some 0%Q)
        (Some (Vector.mk 0 0)))
     now None).

(** [player.shapes.forEach]: [random k] is the [k]-th draw of the tick, the
    result carries the number of draws made so far. *)
Fixpoint resetShapes (boundaryWidth boundaryHeight : Q) (now : Z)
    (random : nat -> Q) (playerId : string) (shapes : list Shape.t) (k : nat)
    : list Shape.t * list Broadcast * nat :=
  match shapes with
  | [] => ([], [], k)
  | shape :: rest =>
      if isOutOfBounds boundaryWidth boundaryHeight shape then
        let '(shape', b) :=
          resetShape boundaryWidth boundaryHeight now (random k) playerId shape in
        let '(rest', bs, k') :=
          resetShapes boundaryWidth boundaryHeight now random playerId rest (S k) in
        (shape' :: rest', b :: bs, k')
      else
        let '(rest', bs, k') :=
          resetShapes boundaryWidth boundaryHeight now random playerId rest k in
        (shape :: rest', bs, k')
  end.

(** [state.players.forEach] *)
Fixpoint resetPlayers (boundaryWidth boundaryHeight : Q) (now : Z)
    (random : nat -> Q) (players : JsMap.t Player.t) (k : nat)
    : JsMap.t Player.t * list Broadcast * nat :=
  match players with
  | [] => ([], [], k)
  | (playerId, player) :: rest =>
      let '(shapes', bs, k') :=
        resetShapes boundaryWidth boundaryHeight now random playerId
          player.(Player.shapes) k in
      let '(rest', bs', k'') :=
        resetPlayers boundaryWidth boundaryHeight now random rest k' in
      ((playerId, Player.setShapes player shapes') :: rest', (bs ++ bs')%list, k'')
  end.

Definition checkAndResetOutOfBoundsShapes (room : t) (now : Z) (random : nat -> Q)
    : t * list Broadcast :=
  let st := room.(state) in
  let '(players', bs, _) :=
    resetPlayers st.(PhysicsState.boundaryWidth) st.(PhysicsState.boundaryHeight)
      now random st.(PhysicsState.players) 0 in
  (setState room (PhysicsState.setPlayers st players'), bs).
End PhysicsRoom.

(** ** stateValidator.js *)

Module StateValidator.
Local Open Scope R_scope.

Definition MAX_VELOCITY : R := 50.
Definition MAX_POSITION_CHANGE : R := 100.

Module Velocity.
Record t := mk { x : R; y : R }.
End Velocity.

(** A shape object as a client submits it; [angle] stands for the
    properties the spread [...shape] carries over untouched. *)
Module ClientShape.
Record t := mk {
  id : string;
  x : R;
  y : R;
  angle : R;
  velocity : Velocity.t
}.
End ClientShape.

Record t := mk {
  playerStates : JsMap.t (list ClientShape.t);
  lastUpdateTime : JsMap.t Z
}.

Definition new : t := mk JsMap.empty JsMap.empty.

(** [prevShapes?.find(s => s.id === shape.id)] *)
Definition findPrev (prevShapes : option (list ClientShape.t)) (shape : ClientShape.t)
    : option ClientShape.t :=
  match prevShapes with
  | Some prevShapes =>
      find (fun s => (s.(ClientShape.id) =? shape.(ClientShape.id))%string) prevShapes
  | None => None
  end.

Definition clampVelocity (v : R) : R :=
  Rmin (Rmax v (- MAX_VELOCITY)) MAX_VELOCITY.

(** The callback of [shapes.map] in [validateUpdate]. *)
Definition validateShape (prevShapes : option (list ClientShape.t)) (deltaTime : R)
    (shape : ClientShape.t) : ClientShape.t :=
  match findPrev prevShapes shape with
  | None => shape
  | Some prevShape =>
      let velocity :=
        Velocity.mk (clampVelocity shape.(ClientShape.velocity).(Velocity.x))
                    (clampVelocity shape.(ClientShape.velocity).(Velocity.y)) in
      let maxDelta := MAX_POSITION_CHANGE * deltaTime in
      let dx := shape.(ClientShape.x) - prevShape.(ClientShape.x) in
      let dy := shape.(ClientShape.y) - prevShape.(ClientShape.y) in
      let distance := sqrt (dx * dx + dy * dy) in
      if Rgt_dec distance maxDelta then
        let scale := maxDelta / distance in
        ClientShape.mk shape.(ClientShape.id)
          (prevShape.(ClientShape.x) + dx * scale)
          (prevShape.(ClientShape.y) + dy * scale)
          shape.(ClientShape.angle) velocity
      else
        ClientShape.mk shape.(ClientShape.id) shape.(ClientShape.x)
          shape.(ClientShape.y) shape.(ClientShape.angle) velocity
  end.

(** [this.lastUpdateTime.get(playerId) || now]: a stored 0 is falsy. *)
Definition lastUpdateOr (v : t) (playerId : string) (now : Z) : Z :=
  match JsMap.get v.(lastUpdateTime) playerId with
  | Some lastUpdate => if (lastUpdate =? 0)%Z then now else lastUpdate
  | None => now
  end.

Definition deltaTime (v : t) (playerId : string) (now : Z) : R :=
  IZR (now - lastUpdateOr v playerId now) / 1000.

Definition validateUpdate (v : t) (playerId : string) (shapes : list ClientShape.t)
    (now : Z) : t * list ClientShape.t :=
  let prevShapes := JsMap.get v.(playerStates) playerId in
  let validatedShapes :=
    map (validateShape prevShapes (deltaTime v playerId now)) shapes in
  (mk (JsMap.set v.(playerStates) playerId validatedShapes)
      (JsMap.set v.(lastUpdateTime) playerId now),
   validatedShapes).

Definition removePlayer (v : t) (playerId : string) : t :=
  mk (JsMap.delete v.(playerStates) playerId)
     (JsMap.delete v.(lastUpdateTime) playerId).

(** [v'] is [v] truncated to the bound: within [-50, 50], the nearer bound
    when [v] is beyond it, [v] itself otherwise. *)
Definition truncated (v v' : R) : Prop :=
  -50 <= v' <= 50
  /\ (50 < v -> v' = 50)
  /\ (v < -50 -> v' = -50)
  /\ (-50 <= v <= 50 -> v' = v).

(** Euclidean distance between two points. *)
Definition dist (x0 y0 x1 y1 : R) : R :=
  sqrt ((x1 - x0) * (x1 - x0) + (y1 - y0) * (y1 - y0)).

(** [(x, y)] lies on the segment from [(x0, y0)] to [(x1, y1)]. *)
Definition onSegment (x0 y0 x1 y1 x y : R) : Prop :=
  exists t : R, 0 <= t <= 1 /\ x = x0 + t * (x1 - x0) /\ y = y0 + t * (y1 - y0).
End StateValidator.

Module ValidatorSample.
Import StateValidator.
Local Open Scope R_scope.

(** The first report of a shape, far faster than the cap. *)
Definition first : ClientShape.t :=
  ClientShape.mk "a1" 0 0 0 (Velocity.mk 1000 (-70)).

(** The validator after that report was taken at time 1000. *)
Definition v1 : StateValidator.t :=
  mk [("alice", [first])] [("alice", 1000%Z)].

(** One second later the shape is reported 500 units away. *)
Definition second : ClientShape.t :=
  ClientShape.mk "a1" 300 400 0 (Velocity.mk 80 (-20)).
End ValidatorSample.

(** ** Notions the statements use *)

(** [player.shapes.some(s => s.id === shapeId)] *)
Definition ownsShape (player : Player.t) (shapeId : string) : bool :=
  existsb (Shape.hasId shapeId) player.(Player.shapes).

(** The ownership invariant of the data model: a shape id is never held by
    two players at once. *)
Definition ownershipInvariant (st : PhysicsState.t) : Prop :=
  forall a b pa pb shapeId,
    a <> b ->
    PhysicsState.getPlayer st a = Some pa ->
    PhysicsState.getPlayer st b = Some pb ->
    ownsShape pa shapeId = true ->
    ownsShape pb shapeId = true ->
    False.

(** The player and shape a broadcast [physics_action] is about. *)
Definition broadcastTarget (b : Broadcast) : option (string * string) :=
  match b with
  | physics_action playerId shapeId _ _ _ => Some (playerId, shapeId)
  | _ => None
  end.

(** The broadcast is a [physics_action] about this shape of this player. *)
Definition isTarget (playerId shapeId : string) (b : Broadcast) : bool :=
  match b with
  | physics_action p s _ _ _ => (p =? playerId)%string && (s =? shapeId)%string
  | _ => false
  end.


(** Every out-of-bounds shape of the store, as (owner key, shape id), in
    iteration order. *)
Definition outOfBoundsTargets (st : PhysicsState.t) : list (string * string) :=
  flat_map
    (fun kv =>
       map (fun s => (fst kv, s.(Shape.id)))
         (filter (PhysicsRoom.isOutOfBounds st.(PhysicsState.boundaryWidth)
                    st.(PhysicsState.boundaryHeight))
            (snd kv).(Player.shapes)))
    st.(PhysicsState.players).

(** The shape ids a player holds, [None] when the store has no such player. *)
Definition shapeIdsOf (room : PhysicsRoom.t) (playerId : string) : option (list string) :=
  option_map (fun p => map Shape.id p.(Player.shapes))
    (PhysicsState.getPlayer room.(PhysicsRoom.state) playerId).

(** The entries of a [shape_update] batch that come before its first [null]
    or [undefined] entry, and whether it has such an entry. *)
Fixpoint beforeNull {A} (batch : list (option A)) : list A :=
  match batch with
  | Some a :: rest => a :: beforeNull rest
  | _ => []
  end.

Definition hasNull {A} (batch : list (option A)) : bool :=
  existsb (fun entry => negb (isDefined entry)) batch.

(** [(playerId, shapeId)] is the player and shape the target [t] names. *)
Definition targetIs (playerId shapeId : string) (t : string * string) : bool :=
  (fst t =? playerId)%string && (snd t =? shapeId)%string.

(** *** Sample runs *)

Module Sample.
Definition s1 : Client := {| sessionId := "s1" |}.
Definition s2 : Client := {| sessionId := "s2" |}.
Definition s3 : Client := {| sessionId := "s3" |}.

(** A room after "alice" joined on session s1 and a client without an
    identity joined on session s2. *)
Definition room1 : PhysicsRoom.t :=
  PhysicsRoom.onJoin (PhysicsRoom.new 1000) s1 {| playerId := Some "alice" |}
    2000 (1 # 2) (1 # 4) "#aabbcc".

Definition room2 : PhysicsRoom.t :=
  PhysicsRoom.onJoin room1 s2 {| playerId := None |} 3000 (1 # 3) (3 # 4) "#112233".
End Sample.

Module CapSample.
Definition shape (n : Z) : Shape.t :=
  Shape.mk ("alice_2000_" ++ string_of_Z n) 500 1750 0 (Vector.mk 0 0) 2000 "#aabbcc".

Definition alice : Player.t :=
  Player.mk "alice" [shape 1; shape 2; shape 3; shape 4; shape 5] false 2000.

(** alice holds five shapes, the cap. *)
Definition room : PhysicsRoom.t :=
  PhysicsRoom.putPlayer Sample.room1 "alice" alice.
End CapSample.

Module BoundarySample.
(** alice reports her shape at x = -150, within the 200 units the update
    handler tolerates. *)
Definition room : PhysicsRoom.t :=
  fst (PhysicsRoom.handleShapeUpdate Sample.room1 Sample.s1
         (Some [Some (ShapeData.mk (Some "alice_2000_500") (Some (-150)%Q)
                        (Some 900%Q) (Some 0%Q) (Some (Vector.mk (-30) 0)))])
         3000).

Definition shape : Shape.t :=
  Shape.mk "alice_2000_500" (-150) 900 0 (Vector.mk (-30) 0) 3000 "#aabbcc".

Definition alice : Player.t := Player.mk "alice" [shape] false 3000.
End BoundarySample.

Module SweepSample.
(** The store of [Sample.room2] after alice was marked disconnected. *)
Definition st : PhysicsState.t :=
  fst (PhysicsState.markPlayerConnected Sample.room2.(PhysicsRoom.state)
         "alice" false 2500).
End SweepSample.

(** ** The rest of the store and of the room *)

(** [getConnectedPlayerCount] and [getDisconnectedPlayerCount] of
    [PhysicsState]: a counter incremented in [players.forEach]. *)
Definition getConnectedPlayerCount (st : PhysicsState.t) : nat :=
  fold_left
    (fun count kv => if negb (snd kv).(Player.disconnected) then S count else count)
    st.(PhysicsState.players) O.

Definition getDisconnectedPlayerCount (st : PhysicsState.t) : nat :=
  fold_left
    (fun count kv => if (snd kv).(Player.disconnected) then S count else count)
    st.(PhysicsState.players) O.

(** What a handler draws from [Math.random()]: the draw for a shape id, the
    draw for x, and the colour [generateRandomColor()] returns. *)
Module Draws.
Record t := mk { rId : Q; rX : Q; color : string }.
End Draws.

(** The messages [onCreate] registers a handler for, each with the payload
    the handler reads. *)
Module Message.
Inductive t :=
| shape_update (shapes : option (list (option ShapeData.t)))
| physics_action (action : option Action.t)
| create_shape
| remove_shape (shapeId : option string)
| change_block_color (color : option string).
End Message.

(** The dispatch [onCreate] sets up with [this.onMessage]. *)
Definition onMessage (room : PhysicsRoom.t) (client : Client) (message : Message.t)
    (now : Z) (draws : Draws.t) : PhysicsRoom.t * list Broadcast :=
  match message with
  | Message.shape_update shapes => PhysicsRoom.handleShapeUpdate room client shapes now
  | Message.physics_action action => PhysicsRoom.handlePhysicsAction room client action now
  | Message.create_shape =>
      PhysicsRoom.handleCreateShape room client now draws.(Draws.rId) draws.(Draws.rX)
        draws.(Draws.color)
  | Message.remove_shape shapeId => PhysicsRoom.handleRemoveShape room client shapeId now
  | Message.change_block_color color =>
      PhysicsRoom.handleChangeBlockColor room client color now
  end.

(** What the framework calls on a room once it is created. *)
Inductive Event :=
| Join (client : Client) (options : JoinOptions) (now : Z) (draws : Draws.t)
| Leave (client : Client) (consented : bool) (now : Z)
| Receive (client : Client) (message : Message.t) (now : Z) (draws : Draws.t)
| SimulationTick (now : Z)
| BoundaryCheck (now : Z) (random : nat -> Q).

Definition step (room : PhysicsRoom.t) (event : Event) : PhysicsRoom.t * list Broadcast :=
  match event with
  | Join client options now draws =>
      (PhysicsRoom.onJoin room client options now draws.(Draws.rId) draws.(Draws.rX)
         draws.(Draws.color), [])
  | Leave client consented now => PhysicsRoom.onLeave room client consented now
  | Receive client message now draws => onMessage room client message now draws
  | SimulationTick now => PhysicsRoom.update room now
  | BoundaryCheck now random =>
      PhysicsRoom.checkAndResetOutOfBoundsShapes room now random
  end.

(** The room after a sequence of events. *)
Definition run (room : PhysicsRoom.t) (events : list Event) : PhysicsRoom.t :=
  fold_left (fun room event => fst (step room event)) events room.


(** A room some sequence of events leads to from a newly created one. *)
Definition reachable (room : PhysicsRoom.t) : Prop :=
  exists now events, run (PhysicsRoom.new now) events = room.

(** [shapeId] has the form [createShapeForPlayer] and [handleCreateShape]
    give the ids of the shapes of [playerId]. *)
Definition namedFor (playerId shapeId : string) : Prop :=
  exists now r, shapeId = PhysicsState.freshShapeId playerId now r.

(** What every room operation keeps true of a player stored under [key]. *)
Definition playerOk (kv : string * Player.t) : Prop :=
  (snd kv).(Player.id) = fst kv
  /\ (length (snd kv).(Player.shapes) <= 1)%nat
  /\ Forall (fun s => namedFor (fst kv) s.(Shape.id)) (snd kv).(Player.shapes)
  /\ (snd kv).(Player.disconnected) = false.

Definition roomInvariant (room : PhysicsRoom.t) : Prop :=
  JsMap.wf room.(PhysicsRoom.state).(PhysicsState.players)
  /\ JsMap.wf room.(PhysicsRoom.sessionIdToPlayerId)
  /\ JsMap.wf room.(PhysicsRoom.playerIdToSessionId)
  /\ Forall playerOk room.(PhysicsRoom.state).(PhysicsState.players).

(** The string holds no underscore. *)
Fixpoint noUnderscore (s : string) : bool :=
  match s with
  | EmptyString => true
  | String c s => negb (Ascii.eqb c "_") && noUnderscore s
  end.

(** The elements at positions 0, 2, 4, ... *)
Fixpoint evens {A} (l : list A) : list A :=
  match l with
  | a :: _ :: rest => a :: evens rest
  | short => short
  end.

(** The elements at positions 1, 3, 5, ... *)
Definition odds {A} (l : list A) : list A := evens (tl l).

(** The player id [onJoin] uses: [options.playerId] when it is truthy, the
    session id otherwise. *)
Definition joinIdentity (client : Client) (options : JoinOptions) : string :=
  match options.(playerId) with
  | Some p => if truthy options.(playerId) then p else client.(sessionId)
  | None => client.(sessionId)
  end.

(** The action fails one of the tests [handlePhysicsAction] makes on the
    message alone: a falsy type or shape id, a type other than "position" and
    "impulse", a position without numeric x and y, an impulse without a
    velocity. *)
Definition isMalformed (action : Action.t) : bool :=
  negb (truthy action.(Action.type))
  || negb (truthy action.(Action.shapeId))
  || match action.(Action.type) with
     | Some type =>
         if (type =? "position")%string then
           negb (isDefined action.(Action.x) && isDefined action.(Action.y))
         else if (type =? "impulse")%string then
           negb (isDefined action.(Action.velocity))
         else true
     | None => true
     end.

(** *** [Shape.generateRandomColor] *)

(** [Math.trunc], as the remainder operator uses it. *)
Definition Qtrunc (q : Q) : Z := if Qle_bool 0 q then Qfloor q else Qceiling q.

(** [a % b] on numbers. *)
Definition Qrem (a b : Q) : Q := (a - b * inject_Z (Qtrunc (a / b)))%Q.

(** [Math.round]: the nearest integer, a half rounding up. *)
Definition round (v : Q) : Z := Qfloor (v + (1 # 2)).

(** [n.toString(16)] of an integer that is not negative. *)
Definition toString16 (n : Z) : string :=
  HexadecimalString.NilZero.string_of_uint (N.to_hex_uint (Z.to_N n)).

(** [s.padStart(2, '0')] *)
Definition padStart2 (s : string) : string :=
  match String.length s with
  | O => "00"
  | S O => "0" ++ s
  | _ => s
  end.

(** The colour of a hue: the body of [generateRandomColor] after the draw. *)
Definition colorOfHue (hue : Z) : string :=
  let h := (inject_Z hue / 60)%Q in
  let s := (8 # 10)%Q in
  let l := (6 # 10)%Q in
  let c := ((1 - Qabs (2 * l - 1)) * s)%Q in
  let x := (c * (1 - Qabs (Qrem h 2 - 1)))%Q in
  let m := (l - c / 2)%Q in
  let '(r, g, b) :=
    if Qle_bool 0 h && Qltb h 1 then (c, x, 0%Q)
    else if Qle_bool 1 h && Qltb h 2 then (x, c, 0%Q)
    else if Qle_bool 2 h && Qltb h 3 then (0%Q, c, x)
    else if Qle_bool 3 h && Qltb h 4 then (0%Q, x, c)
    else if Qle_bool 4 h && Qltb h 5 then (x, 0%Q, c)
    else (c, 0%Q, x) in
  let r := round ((r + m) * 255) in
  let g := round ((g + m) * 255) in
  let b := round ((b + m) * 255) in
  "#" ++ padStart2 (toString16 r) ++ padStart2 (toString16 g)
      ++ padStart2 (toString16 b).

(** [random] is the draw for the hue, [Math.floor(Math.random() * 360)]. *)
Definition generateRandomColor (random : Q) : string :=
  colorOfHue (Qfloor (random * 360)).

Module EmptySample.
(** [Sample.room1] after alice removed her only shape. *)
Definition room : PhysicsRoom.t :=
  fst (PhysicsRoom.handleRemoveShape Sample.room1 Sample.s1 (Some "alice_2000_500") 4000).

Definition alice : Player.t := Player.mk "alice" [] false 4000.
End EmptySample.

Module NullEntrySample.
(** A batch whose second entry is [null]. *)
Definition batch : list (option ShapeData.t) :=
  [Some (ShapeData.mk (Some "alice_2000_500") (Some (-150)%Q) (Some 900%Q) (Some 0%Q)
           (Some (Vector.mk (-30) 0)));
   None;
   Some (ShapeData.mk (Some "alice_2000_500") (Some 10%Q) (Some 20%Q) (Some 0%Q)
           (Some (Vector.mk 0 0)))].
End NullEntrySample.

Module ReachSample.
Definition draws1 : Draws.t := Draws.mk (1 # 2) (1 # 4) "#aabbcc".
Definition draws2 : Draws.t := Draws.mk (1 # 3) (3 # 4) "#112233".

(** The events that lead to [Sample.room2]. *)
Definition events : list Event :=
  [Join Sample.s1 {| playerId := Some "alice" |} 2000 draws1;
   Join Sample.s2 {| playerId := None |} 3000 draws2].
End ReachSample.

Module TwoSessionsSample.
(** alice joins on session s1 and, that session still open, joins again on
    session s3. *)
Definition joins : list Event :=
  [Join Sample.s1 {| playerId := Some "alice" |} 2000 ReachSample.draws1;
   Join Sample.s3 {| playerId := Some "alice" |} 3000 ReachSample.draws2].


(** Session s1 leaves at 5000, session s3 at 6000. *)
Definition leaves : list Event :=
  [Leave Sample.s1 false 5000; Leave Sample.s3 false 6000].

Definition events : list Event := (joins ++ leaves)%list.
End TwoSessionsSample.

(** * Facts about maps and arrays *)

Section JsMapFacts.
Context {V : Type}.
Implicit Types (m : JsMap.t V) (k : string) (v : V).

Lemma get_set_same m k v : JsMap.get (JsMap.set m k v) k = Some v.
Proof.
  induction m as [|[k' v'] m IH]; simpl.
  - now rewrite String.eqb_refl.
  - destruct (k' =? k)%string eqn:E; simpl.
    + now rewrite String.eqb_refl.
    + now rewrite E.
Qed.

Lemma get_set_other m k k' v :
  k <> k' -> JsMap.get (JsMap.set m k v) k' = JsMap.get m k'.
Proof.
  intros Hne. induction m as [|[k0 v0] m IH]; simpl.
  - apply String.eqb_neq in Hne. now rewrite Hne.
  - destruct (k0 =? k)%string eqn:E; simpl.
    + apply String.eqb_eq in E. subst k0.
      apply String.eqb_neq in Hne. now rewrite Hne.
    + now rewrite IH.
Qed.

Lemma get_notin m k : ~ In k (JsMap.keys m) -> JsMap.get m k = None.
Proof.
  induction m as [|[k' v'] m IH]; simpl; intros Hn; [reflexivity|].
  destruct (String.eqb_spec k' k) as [ -> | Hne ].
  - exfalso. apply Hn. now left.
  - apply IH. intros Hin. apply Hn. now right.
Qed.

Lemma get_in_keys m k v : JsMap.get m k = Some v -> In k (JsMap.keys m).
Proof.
  induction m as [|[k' v'] m IH]; simpl; [discriminate|].
  destruct (String.eqb_spec k' k) as [ -> | Hne ]; intros H.
  - now left.
  - right. now apply IH.
Qed.

Lemma delete_absent m k : JsMap.get m k = None -> JsMap.delete m k = m.
Proof.
  induction m as [|[k' v'] m IH]; simpl; [reflexivity|].
  destruct (k' =? k)%string; [discriminate|].
  intros H. now rewrite IH.
Qed.

Lemma delete_set m k v : JsMap.delete (JsMap.set m k v) k = JsMap.delete m k.
Proof.
  induction m as [|[k' v'] m IH]; simpl.
  - now rewrite String.eqb_refl.
  - destruct (k' =? k)%string eqn:E; simpl.
    + now rewrite String.eqb_refl.
    + now rewrite E, IH.
Qed.

Lemma get_delete_same m k : JsMap.wf m -> JsMap.get (JsMap.delete m k) k = None.
Proof.
  unfold JsMap.wf.
  induction m as [|[k' v'] m IH]; simpl; intros Hwf; [reflexivity|].
  inversion Hwf as [|? ? Hnotin Hwf']; subst.
  destruct (String.eqb_spec k' k) as [ -> | Hne ].
  - now apply get_notin.
  - simpl. apply String.eqb_neq in Hne. rewrite Hne. now apply IH.
Qed.

Lemma get_delete_other m k k' :
  k <> k' -> JsMap.get (JsMap.delete m k) k' = JsMap.get m k'.
Proof.
  intros Hne. induction m as [|[k0 v0] m IH]; simpl; [reflexivity|].
  destruct (String.eqb_spec k0 k) as [ -> | Hne0 ]; simpl.
  - apply String.eqb_neq in Hne. now rewrite Hne.
  - now rewrite IH.
Qed.
End JsMapFacts.

Lemma find_some_existsb {A} (f : A -> bool) (l : list A) (a : A) :
  find f l = Some a -> existsb f l = true.
Proof.
  unfold find. intros H. apply List.find_some in H.
  apply existsb_exists. exists a. exact H.
Qed.

Lemma resolve_truthy room client playerId :
  PhysicsRoom.resolve room client = Some playerId -> truthy (Some playerId) = true.
Proof.
  unfold PhysicsRoom.resolve.
  destruct (JsMap.get _ _) as [p|]; [|discriminate].
  destruct (truthy (Some p)) eqn:E; [|discriminate].
  intros H. injection H as <-. exact E.
Qed.

(** * Ownership isolation *)

(** C1.  Under the ownership invariant of the data model, when the sender
    resolves to player [a] and the action names a shape held by another player
    [b], [handlePhysicsAction] returns the room as it was (no shape, player or
    timestamp changes) and emits no broadcast. *)
Theorem foreign_physics_action_is_noop :
  forall room client action now a b pb shapeId,
    ownershipInvariant room.(PhysicsRoom.state) ->
    PhysicsRoom.resolve room client = Some a ->
    a <> b ->
    PhysicsState.getPlayer room.(PhysicsRoom.state) b = Some pb ->
    ownsShape pb shapeId = true ->
    action.(Action.shapeId) = Some shapeId ->
    PhysicsRoom.handlePhysicsAction room client (Some action) now = (room, []).
Proof.
  intros room client action now a b pb shapeId Hinv Hres Hab Hb Hown Hid.
  unfold PhysicsRoom.handlePhysicsAction.
  rewrite Hid.
  destruct action.(Action.type) as [type|]; [|reflexivity].
  destruct (negb (truthy (Some type)) || negb (truthy (Some shapeId))); [reflexivity|].
  rewrite Hres.
  destruct (PhysicsState.getPlayer room.(PhysicsRoom.state) a) as [pa|] eqn:Ha;
    [|reflexivity].
  destruct (find (Shape.hasId shapeId) pa.(Player.shapes)) as [shape|] eqn:Hfind.
  - exfalso. apply (Hinv a b pa pb shapeId Hab Ha Hb); [|exact Hown].
    unfold ownsShape. eapply find_some_existsb. exact Hfind.
  - now destruct (PhysicsRoom.belongsToAnotherPlayer _ _ _).
Qed.

Lemma sample_room2_ownership :
  ownershipInvariant Sample.room2.(PhysicsRoom.state).
Proof.
  intros a b pa pb shapeId Hab Ha Hb Hpa Hpb.
  unfold PhysicsState.getPlayer in Ha, Hb.
  let players := eval vm_compute in Sample.room2.(PhysicsRoom.state).(PhysicsState.players) in
  change (PhysicsState.players (PhysicsRoom.state Sample.room2)) with players in Ha, Hb.
  unfold ownsShape in Hpa, Hpb.
  cbn [JsMap.get] in Ha, Hb.
  assert (Hsolve : forall p q : Player.t,
             Some (Player.mk "alice"
                     [Shape.mk "alice_2000_500" (2500 # 4) 1750 0 (Vector.mk 0 0)
                        2000 "#aabbcc"] false 2000) = Some p ->
             Some (Player.mk "s2"
                     [Shape.mk "s2_3000_333" (7100 # 4) 1750 0 (Vector.mk 0 0)
                        3000 "#112233"] false 3000) = Some q ->
             existsb (Shape.hasId shapeId) p.(Player.shapes) = true ->
             existsb (Shape.hasId shapeId) q.(Player.shapes) = true -> False).
  { intros p q Hp Hq H1 H2. injection Hp as <-. injection Hq as <-.
    cbn [existsb Player.shapes Shape.hasId Shape.id] in H1, H2.
    rewrite orb_false_r in H1, H2.
    apply String.eqb_eq in H1. subst shapeId. discriminate H2. }
  destruct (String.eqb_spec "alice" a) as [ <- | Na ];
    destruct (String.eqb_spec "alice" b) as [ <- | Nb ]; try congruence.
  - destruct (String.eqb_spec "s2" b) as [ <- | Nb2 ]; [|discriminate].
    exact (Hsolve pa pb Ha Hb Hpa Hpb).
  - destruct (String.eqb_spec "s2" a) as [ <- | Na2 ]; [|discriminate].
    exact (Hsolve pb pa Hb Ha Hpb Hpa).
  - destruct (String.eqb_spec "s2" a) as [ <- | Na2 ]; [|discriminate].
    destruct (String.eqb_spec "s2" b) as [ <- | Nb2 ]; [congruence|discriminate].
Qed.

(** alice, on session s1, targets the shape of the player of session s2. *)
Lemma foreign_physics_action_is_noop_witness :
  PhysicsRoom.handlePhysicsAction Sample.room2 Sample.s1
    (Some (Action.mk (Some "position") (Some "s2_3000_333")
             (Some 5%Q) (Some 6%Q) None None))
    4000
  = (Sample.room2, []).
Proof.
  apply (foreign_physics_action_is_noop Sample.room2 Sample.s1 _ 4000
           "alice" "s2"
           (Player.mk "s2"
              [Shape.mk "s2_3000_333" (7100 # 4) 1750 0 (Vector.mk 0 0) 3000 "#112233"]
              false 3000)
           "s2_3000_333").
  - exact sample_room2_ownership.
  - reflexivity.
  - discriminate.
  - reflexivity.
  - reflexivity.
  - reflexivity.
Defined.

(** * Shape creation at capacity *)

(** C7.  A [create_shape] request of a player holding at least
    [MAX_SHAPES_PER_PLAYER] shapes leaves the room as it was, so the shape set
    is unchanged, and emits no broadcast; and [createShapeForPlayer] for a
    player that is not in the store returns null and leaves the store as it
    was. *)
Theorem create_shape_refused_at_cap_or_without_player :
  (forall room client now rUnique rX color playerId player,
      PhysicsRoom.resolve room client = Some playerId ->
      PhysicsState.getPlayer room.(PhysicsRoom.state) playerId = Some player ->
      (PhysicsRoom.MAX_SHAPES_PER_PLAYER <= length player.(Player.shapes))%nat ->
      PhysicsRoom.handleCreateShape room client now rUnique rX color = (room, []))
  /\
  (forall st playerId customShapeId now rId rX color,
      PhysicsState.getPlayer st playerId = None ->
      PhysicsState.createShapeForPlayer st playerId customShapeId now rId rX color
      = (st, None)).
Proof.
  split.
  - intros room client now rUnique rX color playerId player Hres Hget Hcap.
    unfold PhysicsRoom.handleCreateShape. rewrite Hres, Hget.
    unfold PhysicsRoom.MAX_SHAPES_PER_PLAYER in Hcap.
    destruct (Nat.ltb_spec 0 (length player.(Player.shapes))) as [_|Hlen];
      [reflexivity|lia].
  - intros st playerId customShapeId now rId rX color Hget.
    unfold PhysicsState.createShapeForPlayer.
    unfold PhysicsState.getPlayer in Hget. now rewrite Hget.
Qed.

Lemma create_shape_refused_at_cap_or_without_player_witness :
  PhysicsRoom.handleCreateShape CapSample.room Sample.s1 5000 (1 # 2) (1 # 2) "#000000"
  = (CapSample.room, [])
  /\ PhysicsState.createShapeForPlayer CapSample.room.(PhysicsRoom.state) "bob" None
       5000 (1 # 2) (1 # 2) "#000000"
     = (CapSample.room.(PhysicsRoom.state), None).
Proof.
  split.
  - apply (proj1 create_shape_refused_at_cap_or_without_player
             CapSample.room Sample.s1 5000 (1 # 2) (1 # 2) "#000000"
             "alice" CapSample.alice).
    + reflexivity.
    + reflexivity.
    + unfold PhysicsRoom.MAX_SHAPES_PER_PLAYER. simpl. lia.
  - apply (proj2 create_shape_refused_at_cap_or_without_player).
    reflexivity.
Defined.

(** * Inactivity cleanup *)

Lemma removePlayer_players st id :
  (fst (PhysicsState.removePlayer st id)).(PhysicsState.players)
  = JsMap.delete st.(PhysicsState.players) id.
Proof.
  unfold PhysicsState.removePlayer, JsMap.has.
  destruct (JsMap.get st.(PhysicsState.players) id) eqn:E; simpl; [reflexivity|].
  symmetry. now apply delete_absent.
Qed.

Lemma fold_removePlayer_players ids : forall st,
  (fold_left (fun st id => fst (PhysicsState.removePlayer st id)) ids st).(PhysicsState.players)
  = fold_left JsMap.delete ids st.(PhysicsState.players).
Proof.
  induction ids as [|id ids IH]; intros st; simpl; [reflexivity|].
  now rewrite IH, removePlayer_players.
Qed.

Lemma fold_delete_cons {V} (ids : list string) : forall (k : string) (v : V) m,
  ~ In k ids ->
  fold_left JsMap.delete ids ((k, v) :: m) = (k, v) :: fold_left JsMap.delete ids m.
Proof.
  induction ids as [|id ids IH]; intros k v m Hn; simpl; [reflexivity|].
  destruct (String.eqb_spec k id) as [ -> | Hne ].
  - exfalso. apply Hn. now left.
  - apply IH. intros Hin. apply Hn. now right.
Qed.

Lemma keys_filter_incl {V} (f : string * V -> bool) (m : JsMap.t V) k :
  In k (map fst (filter f m)) -> In k (JsMap.keys m).
Proof.
  unfold JsMap.keys. rewrite !in_map_iff.
  intros [kv [Hk Hin]]. exists kv. split; [exact Hk|].
  apply filter_In in Hin. tauto.
Qed.

(** Deleting the selected keys of a map with distinct keys keeps exactly the
    entries that were not selected, in their order. *)
Lemma fold_delete_filter {V} (f : string * V -> bool) (m : JsMap.t V) :
  JsMap.wf m ->
  fold_left JsMap.delete (map fst (filter f m)) m = filter (fun kv => negb (f kv)) m.
Proof.
  unfold JsMap.wf.
  induction m as [|[k v] m IH]; intros Hwf; [reflexivity|].
  inversion Hwf as [|? ? Hnotin Hwf']; subst.
  cbn [filter]. destruct (f (k, v)) eqn:E; cbn [negb map fst fold_left].
  - cbn [JsMap.delete]. rewrite String.eqb_refl. now apply IH.
  - rewrite fold_delete_cons.
    + now rewrite IH.
    + intros Hin. apply Hnotin. eapply keys_filter_incl. exact Hin.
Qed.

Lemma get_filter_true {V} (f : V -> bool) (m : JsMap.t V) k v :
  JsMap.get m k = Some v -> f v = true ->
  JsMap.get (filter (fun kv => f (snd kv)) m) k = Some v.
Proof.
  induction m as [|[k' v'] m IH]; simpl; [discriminate|].
  destruct (k' =? k)%string eqn:E.
  - intros H Hf. injection H as ->. rewrite Hf. simpl. now rewrite E.
  - intros H Hf. destruct (f v'); simpl; [rewrite E|]; now apply IH.
Qed.

Lemma get_filter_false {V} (f : V -> bool) (m : JsMap.t V) k v :
  JsMap.wf m -> JsMap.get m k = Some v -> f v = false ->
  JsMap.get (filter (fun kv => f (snd kv)) m) k = None.
Proof.
  intros Hwf Hget Hf. apply get_notin. intros Hin.
  unfold JsMap.keys in Hin. apply in_map_iff in Hin.
  destruct Hin as [[k' v'] [Hk Hin]]. simpl in Hk. subst k'.
  apply filter_In in Hin. destruct Hin as [Hin Hfv]. simpl in Hfv.
  assert (Hv : JsMap.get m k = Some v').
  { clear Hget Hf Hfv. unfold JsMap.wf in Hwf.
    induction m as [|[k0 v0] m IH]; [contradiction|].
    inversion Hwf as [|? ? Hnotin Hwf']; subst. simpl.
    destruct Hin as [Heq|Hin].
    - injection Heq as -> ->. now rewrite String.eqb_refl.
    - destruct (String.eqb_spec k0 k) as [ -> | Hne ].
      + exfalso. apply Hnotin. unfold JsMap.keys. apply in_map_iff.
        exists (k, v'). split; [reflexivity|exact Hin].
      + now apply IH. }
  congruence.
Qed.

Lemma filter_length_split {A} (f : A -> bool) (l : list A) :
  (length (filter f l) + length (filter (fun a => negb (f a)) l) = length l)%nat.
Proof.
  induction l as [|a l IH]; simpl; [reflexivity|].
  destruct (f a); simpl; lia.
Qed.

Lemma cleanup_players st maxInactiveTime now :
  JsMap.wf st.(PhysicsState.players) ->
  (fst (PhysicsState.cleanupInactivePlayers st maxInactiveTime now)).(PhysicsState.players)
  = filter (fun kv => negb (PhysicsState.isInactive maxInactiveTime now (snd kv)))
      st.(PhysicsState.players).
Proof.
  intros Hwf. unfold PhysicsState.cleanupInactivePlayers, PhysicsState.playersToRemove.
  cbn [fst]. rewrite fold_removePlayer_players.
  now rewrite fold_delete_filter.
Qed.

(** C10.  In a store whose map has distinct keys, [cleanupInactivePlayers]
    keeps every player whose [disconnected] flag is false, whatever its
    [lastActivity]; a player is gone afterwards exactly when it was
    disconnected and inactive for longer than [maxInactiveTime]; and the
    returned count is the number of players removed. *)
Theorem cleanup_removes_only_disconnected_inactive :
  forall st maxInactiveTime now,
    JsMap.wf st.(PhysicsState.players) ->
    let st' := fst (PhysicsState.cleanupInactivePlayers st maxInactiveTime now) in
    let count := snd (PhysicsState.cleanupInactivePlayers st maxInactiveTime now) in
    (forall id p,
        PhysicsState.getPlayer st id = Some p ->
        p.(Player.disconnected) = false ->
        PhysicsState.getPlayer st' id = Some p)
    /\ (forall id p,
          PhysicsState.getPlayer st id = Some p ->
          (PhysicsState.getPlayer st' id = None <->
           p.(Player.disconnected) = true
           /\ maxInactiveTime < now - p.(Player.lastActivity)))
    /\ (forall id p,
          PhysicsState.getPlayer st id = Some p ->
          PhysicsState.getPlayer st' id = None \/ PhysicsState.getPlayer st' id = Some p)
    /\ (count + JsMap.size st'.(PhysicsState.players)
        = JsMap.size st.(PhysicsState.players))%nat.
Proof.
  intros st maxInactiveTime now Hwf st' count.
  assert (Hplayers : st'.(PhysicsState.players)
                     = filter (fun kv => negb (PhysicsState.isInactive maxInactiveTime now (snd kv)))
                         st.(PhysicsState.players))
    by (now apply cleanup_players).
  assert (Hkeep : forall id p,
             PhysicsState.getPlayer st id = Some p ->
             PhysicsState.isInactive maxInactiveTime now p = false ->
             PhysicsState.getPlayer st' id = Some p).
  { intros id p Hget Hin. unfold PhysicsState.getPlayer in *. rewrite Hplayers.
    apply (get_filter_true (fun v => negb (PhysicsState.isInactive maxInactiveTime now v)));
      [exact Hget|now rewrite Hin]. }
  assert (Hdrop : forall id p,
             PhysicsState.getPlayer st id = Some p ->
             PhysicsState.isInactive maxInactiveTime now p = true ->
             PhysicsState.getPlayer st' id = None).
  { intros id p Hget Hin. unfold PhysicsState.getPlayer in *. rewrite Hplayers.
    apply (get_filter_false (fun v => negb (PhysicsState.isInactive maxInactiveTime now v))
             _ id p); [exact Hwf|exact Hget|now rewrite Hin]. }
  assert (Hiff : forall p,
             PhysicsState.isInactive maxInactiveTime now p = true <->
             p.(Player.disconnected) = true
             /\ maxInactiveTime < now - p.(Player.lastActivity)).
  { intros p. unfold PhysicsState.isInactive.
    rewrite andb_true_iff, Z.ltb_lt. tauto. }
  split; [|split; [|split]].
  - intros id p Hget Hdis. apply Hkeep; [exact Hget|].
    unfold PhysicsState.isInactive. now rewrite Hdis.
  - intros id p Hget. split.
    + intros Hnone.
      destruct (PhysicsState.isInactive maxInactiveTime now p) eqn:E.
      * now apply Hiff.
      * rewrite (Hkeep id p Hget E) in Hnone. discriminate.
    + intros Hboth. apply (Hdrop id p Hget). now apply Hiff.
  - intros id p Hget.
    destruct (PhysicsState.isInactive maxInactiveTime now p) eqn:E.
    + left. now apply (Hdrop id p).
    + right. now apply Hkeep.
  - subst count. unfold PhysicsState.cleanupInactivePlayers at 1. cbn [snd].
    unfold JsMap.size. rewrite Hplayers.
    unfold PhysicsState.playersToRemove. rewrite length_map.
    apply (filter_length_split
             (fun kv => PhysicsState.isInactive maxInactiveTime now (snd kv))).
Qed.

Lemma sweep_sample_wf : JsMap.wf SweepSample.st.(PhysicsState.players).
Proof.
  unfold JsMap.wf.
  change (NoDup ["alice"; "s2"]).
  repeat constructor; simpl; intuition discriminate.
Defined.

(** alice is disconnected and idle for 397.5 s, the player of s2 is connected. *)
Lemma cleanup_removes_only_disconnected_inactive_witness :
  JsMap.wf SweepSample.st.(PhysicsState.players)
  /\ (snd (PhysicsState.cleanupInactivePlayers SweepSample.st 300000 400000)
      + JsMap.size
          (fst (PhysicsState.cleanupInactivePlayers SweepSample.st 300000 400000)).(PhysicsState.players)
      = JsMap.size SweepSample.st.(PhysicsState.players))%nat.
Proof.
  split; [exact sweep_sample_wf|].
  exact (proj2 (proj2 (proj2
           (cleanup_removes_only_disconnected_inactive SweepSample.st 300000 400000
              sweep_sample_wf)))).
Defined.

(** * Removal of players *)

(** The loop of [onLeave] ends with no shape left: the fuel it is given,
    the number of shapes, is enough. *)
Lemma removeAllShapes_empties now : forall fuel player,
  length player.(Player.shapes) = fuel ->
  (PhysicsRoom.removeAllShapes fuel player now).(Player.shapes) = [].
Proof.
  induction fuel as [|fuel IH]; intros player Hlen.
  - destruct player.(Player.shapes) eqn:E; [|discriminate].
    cbn [PhysicsRoom.removeAllShapes]. exact E.
  - cbn [PhysicsRoom.removeAllShapes].
    destruct player.(Player.shapes) as [|shape rest] eqn:E; [discriminate|].
    apply IH. unfold Player.removeShape. rewrite E.
    cbn [findIndex]. unfold Shape.hasId at 1. rewrite String.eqb_refl.
    cbn [fst splice1 Player.shapes]. cbn [length] in Hlen. lia.
Qed.

Lemma onLeave_removes room client consented now playerId :
  JsMap.wf room.(PhysicsRoom.state).(PhysicsState.players) ->
  PhysicsRoom.resolve room client = Some playerId ->
  PhysicsState.getPlayer
    (fst (PhysicsRoom.onLeave room client consented now)).(PhysicsRoom.state) playerId
  = None
  /\ snd (PhysicsRoom.onLeave room client consented now) = [player_removed playerId].
Proof.
  intros Hwf Hres. unfold PhysicsRoom.onLeave.
  change (PhysicsRoom.resolve (PhysicsRoom.setLastActivityTime room now) client)
    with (PhysicsRoom.resolve room client).
  rewrite Hres. cbn [fst snd]. split; [|reflexivity].
  cbn [PhysicsRoom.unbind PhysicsRoom.state PhysicsRoom.setLastActivityTime].
  destruct (PhysicsState.getPlayer room.(PhysicsRoom.state) playerId) as [player|] eqn:Hget.
  - unfold PhysicsState.getPlayer. cbn [PhysicsRoom.setState PhysicsRoom.state].
    rewrite removePlayer_players.
    cbn [PhysicsRoom.putPlayer PhysicsRoom.setState PhysicsRoom.state
         PhysicsState.setPlayers PhysicsState.players].
    rewrite delete_set. now apply get_delete_same.
  - exact Hget.
Qed.

(** A join presenting an identity the store does not hold creates the player
    with exactly one shape, spawned in the band at the lower edge. *)
Lemma onJoin_unknown_identity room client identity now rId rX color :
  truthy (Some identity) = true ->
  PhysicsState.getPlayer room.(PhysicsRoom.state) identity = None ->
  PhysicsState.getPlayer
    (PhysicsRoom.onJoin room client {| playerId := Some identity |} now rId rX color).(PhysicsRoom.state)
    identity
  = Some (Player.mk identity
            [Shape.new (PhysicsState.freshShapeId identity now rId)
               (rX * (room.(PhysicsRoom.state).(PhysicsState.boundaryWidth) - 100) + 50)
               (room.(PhysicsRoom.state).(PhysicsState.boundaryHeight) - 50)
               now color]
            false now).
Proof.
  intros Htruthy Hget. unfold PhysicsRoom.onJoin.
  cbv beta iota zeta delta [playerId].
  rewrite Htruthy.
  cbn [PhysicsRoom.setLastActivityTime PhysicsRoom.state].
  rewrite Hget.
  unfold PhysicsState.createPlayer.
  unfold PhysicsState.getPlayer in Hget. rewrite Hget.
  cbn [Player.new Player.shapes length Nat.eqb].
  unfold PhysicsState.createShapeForPlayer.
  cbn [PhysicsRoom.bind PhysicsRoom.setState PhysicsRoom.state
       PhysicsState.setPlayers PhysicsState.players
       PhysicsState.boundaryWidth PhysicsState.boundaryHeight].
  rewrite get_set_same.
  unfold PhysicsState.getPlayer.
  cbn [fst PhysicsRoom.setState PhysicsRoom.state PhysicsState.setPlayers
       PhysicsState.players].
  rewrite get_set_same.
  reflexivity.
Qed.

Lemma onLeave_boundaries room client consented now :
  let st' := (fst (PhysicsRoom.onLeave room client consented now)).(PhysicsRoom.state) in
  st'.(PhysicsState.boundaryWidth) = room.(PhysicsRoom.state).(PhysicsState.boundaryWidth)
  /\ st'.(PhysicsState.boundaryHeight) = room.(PhysicsRoom.state).(PhysicsState.boundaryHeight).
Proof.
  unfold PhysicsRoom.onLeave.
  destruct (PhysicsRoom.resolve _ client) as [playerId|]; [|now split].
  cbn [fst PhysicsRoom.unbind PhysicsRoom.state PhysicsRoom.setLastActivityTime].
  destruct (PhysicsState.getPlayer _ playerId) as [player|]; [|now split].
  unfold PhysicsState.removePlayer.
  destruct (JsMap.has _ playerId); now split.
Qed.

(** C2, as stated, fails: alice holds the shape alice_2000_500; she leaves at
    5000 and joins again at 6000 with the same identity; her shape set is then
    one new shape, alice_6000_500. *)
Lemma reconnect_preserves_shapes_counterexample :
  let before := Sample.room1 in
  let left := fst (PhysicsRoom.onLeave before Sample.s1 false 5000) in
  let after :=
    PhysicsRoom.onJoin left Sample.s3 {| playerId := Some "alice" |}
      6000 (1 # 2) (1 # 4) "#aabbcc" in
  shapeIdsOf before "alice" = Some ["alice_2000_500"]
  /\ shapeIdsOf after "alice" = Some ["alice_6000_500"]
  /\ shapeIdsOf after "alice" <> shapeIdsOf before "alice".
Proof.
  vm_compute. repeat split. intros H. discriminate H.
Qed.

(** C2, amended.  [onLeave] removes the player, with all its shapes, at once:
    there is no grace window.  A later join presenting the same identity
    creates the player anew with exactly one shape, freshly named and spawned
    in the band at the lower edge, at rest; nothing of the shape set held
    before the disconnect is kept. *)
Theorem leave_then_rejoin_spawns_fresh_shape :
  forall room client consented tLeave client' tJoin rId rX color identity,
    JsMap.wf room.(PhysicsRoom.state).(PhysicsState.players) ->
    PhysicsRoom.resolve room client = Some identity ->
    let left := fst (PhysicsRoom.onLeave room client consented tLeave) in
    let rejoined :=
      PhysicsRoom.onJoin left client' {| playerId := Some identity |}
        tJoin rId rX color in
    PhysicsState.getPlayer left.(PhysicsRoom.state) identity = None
    /\ option_map Player.shapes
         (PhysicsState.getPlayer rejoined.(PhysicsRoom.state) identity)
       = Some [Shape.mk (PhysicsState.freshShapeId identity tJoin rId)
                 (rX * (room.(PhysicsRoom.state).(PhysicsState.boundaryWidth) - 100) + 50)
                 (room.(PhysicsRoom.state).(PhysicsState.boundaryHeight) - 50)
                 0 (Vector.mk 0 0) tJoin color].
Proof.
  intros room client consented tLeave client' tJoin rId rX color identity
         Hwf Hres left rejoined.
  destruct (onLeave_removes room client consented tLeave identity Hwf Hres)
    as [Hgone _].
  split; [exact Hgone|].
  subst rejoined.
  rewrite (onJoin_unknown_identity left client' identity tJoin rId rX color
             (resolve_truthy _ _ _ Hres) Hgone).
  destruct (onLeave_boundaries room client consented tLeave) as [Hw Hh].
  cbv zeta in Hw, Hh. fold left in Hw, Hh. rewrite Hw, Hh.
  reflexivity.
Qed.

Lemma sample_room1_wf : JsMap.wf Sample.room1.(PhysicsRoom.state).(PhysicsState.players).
Proof.
  unfold JsMap.wf.
  change (NoDup ["alice"]).
  repeat constructor; simpl; intuition discriminate.
Defined.

Lemma leave_then_rejoin_spawns_fresh_shape_witness :
  let left := fst (PhysicsRoom.onLeave Sample.room1 Sample.s1 false 5000) in
  let rejoined :=
    PhysicsRoom.onJoin left Sample.s3 {| playerId := Some "alice" |}
      6000 (1 # 2) (1 # 4) "#aabbcc" in
  PhysicsState.getPlayer left.(PhysicsRoom.state) "alice" = None
  /\ option_map Player.shapes
       (PhysicsState.getPlayer rejoined.(PhysicsRoom.state) "alice")
     = Some [Shape.mk (PhysicsState.freshShapeId "alice" 6000 (1 # 2))
               ((1 # 4) * (Sample.room1.(PhysicsRoom.state).(PhysicsState.boundaryWidth) - 100) + 50)
               (Sample.room1.(PhysicsRoom.state).(PhysicsState.boundaryHeight) - 50)
               0 (Vector.mk 0 0) 6000 "#aabbcc"].
Proof.
  apply (leave_then_rejoin_spawns_fresh_shape Sample.room1 Sample.s1 false 5000
           Sample.s3 6000 (1 # 2) (1 # 4) "#aabbcc" "alice").
  - exact sample_room1_wf.
  - reflexivity.
Defined.


(** * Boundary correction *)

Section BoundaryCorrection.
Variables (bw bh : Q) (now : Z) (random : nat -> Q).

Lemma resetShapes_targets playerId shapes : forall k,
  map broadcastTarget
    (snd (fst (PhysicsRoom.resetShapes bw bh now random playerId shapes k)))
  = map (fun s => Some (playerId, s.(Shape.id))) (filter (PhysicsRoom.isOutOfBounds bw bh) shapes).
Proof.
  induction shapes as [|s shapes IH]; intros k; [reflexivity|].
  cbn [PhysicsRoom.resetShapes filter].
  destruct (PhysicsRoom.isOutOfBounds bw bh s).
  - specialize (IH (S k)).
    destruct (PhysicsRoom.resetShapes bw bh now random playerId shapes (S k))
      as [[rest' bs] k'].
    cbn in IH |- *. now rewrite IH.
  - specialize (IH k).
    destruct (PhysicsRoom.resetShapes bw bh now random playerId shapes k)
      as [[rest' bs] k'].
    exact IH.
Qed.

Lemma resetShapes_ids playerId shapes : forall k,
  map Shape.id (fst (fst (PhysicsRoom.resetShapes bw bh now random playerId shapes k)))
  = map Shape.id shapes.
Proof.
  induction shapes as [|s shapes IH]; intros k; [reflexivity|].
  cbn [PhysicsRoom.resetShapes].
  destruct (PhysicsRoom.isOutOfBounds bw bh s).
  - specialize (IH (S k)).
    destruct (PhysicsRoom.resetShapes bw bh now random playerId shapes (S k))
      as [[rest' bs] k'].
    cbn in IH |- *. now rewrite IH.
  - specialize (IH k).
    destruct (PhysicsRoom.resetShapes bw bh now random playerId shapes k)
      as [[rest' bs] k'].
    cbn in IH |- *. now rewrite IH.
Qed.

(** Each shape stays at its index: untouched when in bounds, reset with
    some draw of the tick when out of bounds. *)
Lemma resetShapes_nth playerId shapes : forall k i s,
  nth_error shapes i = Some s ->
  exists j,
    nth_error (fst (fst (PhysicsRoom.resetShapes bw bh now random playerId shapes k))) i
    = Some (if PhysicsRoom.isOutOfBounds bw bh s
            then fst (PhysicsRoom.resetShape bw bh now (random j) playerId s)
            else s).
Proof.
  induction shapes as [|s0 shapes IH]; intros k i s Hnth.
  - destruct i; discriminate.
  - cbn [PhysicsRoom.resetShapes].
    destruct (PhysicsRoom.isOutOfBounds bw bh s0) eqn:E.
    + destruct i as [|i]; cbn [nth_error] in Hnth.
      * injection Hnth as <-. exists k.
        destruct (PhysicsRoom.resetShapes bw bh now random playerId shapes (S k))
          as [[rest' bs] k'].
        cbn. now rewrite E.
      * destruct (IH (S k) i s Hnth) as [j Hj]. exists j.
        destruct (PhysicsRoom.resetShapes bw bh now random playerId shapes (S k))
          as [[rest' bs] k'].
        exact Hj.
    + destruct i as [|i]; cbn [nth_error] in Hnth.
      * injection Hnth as <-. exists k.
        destruct (PhysicsRoom.resetShapes bw bh now random playerId shapes k)
          as [[rest' bs] k'].
        cbn. now rewrite E.
      * destruct (IH k i s Hnth) as [j Hj]. exists j.
        destruct (PhysicsRoom.resetShapes bw bh now random playerId shapes k)
          as [[rest' bs] k'].
        exact Hj.
Qed.

Lemma resetPlayers_targets players : forall k,
  map broadcastTarget
    (snd (fst (PhysicsRoom.resetPlayers bw bh now random players k)))
  = map Some
      (flat_map
         (fun kv => map (fun s => (fst kv, s.(Shape.id)))
                      (filter (PhysicsRoom.isOutOfBounds bw bh) (snd kv).(Player.shapes)))
         players).
Proof.
  induction players as [|[playerId player] players IH]; intros k; [reflexivity|].
  cbn [PhysicsRoom.resetPlayers flat_map fst snd].
  pose proof (resetShapes_targets playerId player.(Player.shapes) k) as Hs.
  destruct (PhysicsRoom.resetShapes bw bh now random playerId player.(Player.shapes) k)
    as [[shapes' bs] k'].
  specialize (IH k').
  destruct (PhysicsRoom.resetPlayers bw bh now random players k')
    as [[rest' bs'] k''].
  cbn [fst snd] in Hs, IH |- *.
  rewrite !map_app, Hs, IH, map_map. reflexivity.
Qed.

Lemma resetPlayers_get players : forall k playerId player,
  JsMap.get players playerId = Some player ->
  exists k',
    JsMap.get (fst (fst (PhysicsRoom.resetPlayers bw bh now random players k))) playerId
    = Some (Player.setShapes player
              (fst (fst (PhysicsRoom.resetShapes bw bh now random playerId
                           player.(Player.shapes) k')))).
Proof.
  induction players as [|[key p] players IH]; intros k playerId player Hget;
    [discriminate|].
  cbn [PhysicsRoom.resetPlayers]. cbn [JsMap.get] in Hget.
  destruct (String.eqb_spec key playerId) as [ -> | Hne ].
  - injection Hget as <-. exists k.
    destruct (PhysicsRoom.resetShapes bw bh now random playerId p.(Player.shapes) k)
      as [[shapes' bs] k'].
    destruct (PhysicsRoom.resetPlayers bw bh now random players k')
      as [[rest' bs'] k''].
    cbn [fst JsMap.get]. now rewrite String.eqb_refl.
  - destruct (PhysicsRoom.resetShapes bw bh now random key p.(Player.shapes) k)
      as [[shapes' bs] k'].
    destruct (IH k' playerId player Hget) as [j Hj]. exists j.
    destruct (PhysicsRoom.resetPlayers bw bh now random players k')
      as [[rest' bs'] k''].
    cbn [fst JsMap.get] in Hj |- *.
    apply String.eqb_neq in Hne. now rewrite Hne.
Qed.
End BoundaryCorrection.

Lemma count_targets playerId shapeId (bs : list Broadcast) : forall ts,
  map broadcastTarget bs = map Some ts ->
  length (filter (isTarget playerId shapeId) bs)
  = length (filter (targetIs playerId shapeId) ts).
Proof.
  induction bs as [|b bs IH]; intros [|t ts] H; try discriminate; [reflexivity|].
  cbn [map] in H. injection H as Hb Hbs.
  cbn [filter]. specialize (IH ts Hbs).
  destruct b as [p s a ts' e| |]; try discriminate.
  cbn [broadcastTarget] in Hb. injection Hb as <-.
  change (isTarget playerId shapeId (physics_action p s a ts' e))
    with ((p =? playerId)%string && (s =? shapeId)%string).
  change (targetIs playerId shapeId (p, s))
    with ((p =? playerId)%string && (s =? shapeId)%string).
  destruct ((p =? playerId)%string && (s =? shapeId)%string); cbn [length]; now rewrite IH.
Qed.

Lemma filter_targets_other {A} (f : A -> string) key playerId shapeId (l : list A) :
  key <> playerId ->
  filter (targetIs playerId shapeId) (map (fun a => (key, f a)) l) = [].
Proof.
  intros Hne. induction l as [|a l IH]; [reflexivity|].
  cbn [map filter]. unfold targetIs at 1. cbn [fst snd].
  apply String.eqb_neq in Hne. now rewrite Hne.
Qed.

(** In a map with distinct keys only the entry of [playerId] contributes
    targets naming [playerId]. *)
Lemma filter_targets_player (F : Player.t -> list string) playerId shapeId
    (players : JsMap.t Player.t) player :
  JsMap.wf players ->
  JsMap.get players playerId = Some player ->
  filter (targetIs playerId shapeId)
    (flat_map (fun kv => map (fun s => (fst kv, s)) (F (snd kv))) players)
  = filter (targetIs playerId shapeId) (map (fun s => (playerId, s)) (F player)).
Proof.
  unfold JsMap.wf.
  induction players as [|[key p] players IH]; intros Hwf Hget; [discriminate|].
  inversion Hwf as [|? ? Hnotin Hwf']; subst.
  cbn [flat_map fst snd]. rewrite filter_app.
  cbn [JsMap.get] in Hget.
  destruct (String.eqb_spec key playerId) as [ -> | Hne ].
  - injection Hget as <-.
    assert (Hrest : filter (targetIs playerId shapeId)
                      (flat_map (fun kv => map (fun s => (fst kv, s)) (F (snd kv))) players)
                    = []).
    { clear IH Hwf Hwf'. induction players as [|[key' p'] players IH']; [reflexivity|].
      cbn [flat_map fst snd]. rewrite filter_app.
      rewrite (filter_targets_other (fun s => s)).
      - apply IH'. intros Hin. apply Hnotin. now right.
      - intros ->. apply Hnotin. now left. }
    now rewrite Hrest, app_nil_r.
  - rewrite (filter_targets_other (fun s => s)) by exact Hne.
    now apply IH.
Qed.

Lemma count_shape_id (f : Shape.t -> bool) (playerId : string)
    (shapes : list Shape.t) (s : Shape.t) :
  NoDup (map Shape.id shapes) ->
  In s shapes ->
  f s = true ->
  length (filter (targetIs playerId s.(Shape.id))
            (map (fun i => (playerId, i)) (map Shape.id (filter f shapes)))) = 1%nat.
Proof.
  induction shapes as [|s0 shapes IH]; intros Hnd Hin Hf; [contradiction|].
  cbn [map] in Hnd. inversion Hnd as [|? ? Hnotin Hnd']; subst.
  destruct Hin as [ -> | Hin ].
  - cbn [filter]. rewrite Hf. cbn [map filter].
    unfold targetIs at 1. cbn [fst snd]. rewrite !String.eqb_refl. cbn [andb length].
    f_equal.
    assert (Hnone : forall l,
               ~ In s.(Shape.id) (map Shape.id l) ->
               filter (targetIs playerId s.(Shape.id))
                 (map (fun i => (playerId, i)) (map Shape.id (filter f l))) = []).
    { induction l as [|a l IHl]; intros Hn; [reflexivity|].
      cbn [filter]. cbn [map] in Hn.
      destruct (f a); cbn [map filter].
      - unfold targetIs at 1. cbn [fst snd].
        destruct (String.eqb_spec a.(Shape.id) s.(Shape.id)) as [Heq|Hne].
        + exfalso. apply Hn. now left.
        + rewrite andb_false_r. apply IHl. intros H. apply Hn. now right.
      - apply IHl. intros H. apply Hn. now right. }
    now rewrite Hnone.
  - cbn [filter].
    assert (Hne : s0.(Shape.id) <> s.(Shape.id)).
    { intros Heq. apply Hnotin. rewrite Heq. now apply in_map. }
    destruct (f s0); cbn [map filter].
    + unfold targetIs at 1. cbn [fst snd].
      apply String.eqb_neq in Hne. rewrite Hne, andb_false_r. now apply IH.
    + now apply IH.
Qed.

Lemma outOfBoundsTargets_flat st :
  outOfBoundsTargets st
  = flat_map
      (fun kv =>
         map (fun i => (fst kv, i))
           (map Shape.id
              (filter (PhysicsRoom.isOutOfBounds st.(PhysicsState.boundaryWidth)
                         st.(PhysicsState.boundaryHeight))
                 (snd kv).(Player.shapes))))
      st.(PhysicsState.players).
Proof.
  unfold outOfBoundsTargets. apply flat_map_ext. intros kv.
  now rewrite map_map.
Qed.

Lemma reset_x_in_band (r : Q) :
  (0 <= r < 1)%Q -> (100 <= r * (2400 - 200) + 100 < 2300)%Q.
Proof. intros [H0 H1]. split; Lqa.lra. Qed.

(** C5, amended.  Arena 2400 x 1800, every draw of [Math.random()] in
    [0, 1).  A shape that [isOutOfBounds] (beyond the arena by more than 100
    units) is, after one run of [checkAndResetOutOfBoundsShapes], still held
    by its player at the same index under the same id (the player's ids are
    the same list: nothing is destroyed), at 100 <= x < 2300 and y = 1750 with
    velocity (0, 0).  The tick's broadcasts are, in order, one
    [physics_action] per out-of-bounds shape of the store; with distinct map
    keys and distinct shape ids of the player, exactly one of them is about
    this shape. *)
Theorem out_of_bounds_shape_is_repositioned :
  forall room now random playerId player i shape,
    let st := room.(PhysicsRoom.state) in
    st.(PhysicsState.boundaryWidth) = 2400%Q ->
    st.(PhysicsState.boundaryHeight) = 1800%Q ->
    (forall k, 0 <= random k < 1)%Q ->
    JsMap.wf st.(PhysicsState.players) ->
    PhysicsState.getPlayer st playerId = Some player ->
    NoDup (map Shape.id player.(Player.shapes)) ->
    nth_error player.(Player.shapes) i = Some shape ->
    PhysicsRoom.isOutOfBounds 2400 1800 shape = true ->
    let room' := fst (PhysicsRoom.checkAndResetOutOfBoundsShapes room now random) in
    let broadcasts := snd (PhysicsRoom.checkAndResetOutOfBoundsShapes room now random) in
    exists player' shape',
      PhysicsState.getPlayer room'.(PhysicsRoom.state) playerId = Some player'
      /\ map Shape.id player'.(Player.shapes) = map Shape.id player.(Player.shapes)
      /\ nth_error player'.(Player.shapes) i = Some shape'
      /\ shape'.(Shape.id) = shape.(Shape.id)
      /\ (100 <= shape'.(Shape.x) < 2300)%Q
      /\ shape'.(Shape.y) = 1750%Q
      /\ shape'.(Shape.velocity) = Vector.mk 0 0
      /\ map broadcastTarget broadcasts = map Some (outOfBoundsTargets st)
      /\ length (filter (isTarget playerId shape.(Shape.id)) broadcasts) = 1%nat.
Proof.
  intros room now random playerId player i shape st Hw Hh Hrandom Hwf Hget Hnd Hnth Hoob
         room' broadcasts.
  subst room' broadcasts. unfold PhysicsRoom.checkAndResetOutOfBoundsShapes.
  fold st. rewrite Hw, Hh.
  destruct (resetPlayers_get 2400 1800 now random st.(PhysicsState.players) 0
              playerId player Hget) as [k Hget'].
  pose proof (resetPlayers_targets 2400 1800 now random st.(PhysicsState.players) 0)
    as Htargets.
  destruct (PhysicsRoom.resetPlayers 2400 1800 now random st.(PhysicsState.players) 0)
    as [[players' bs] k0].
  cbn [fst snd] in Hget', Htargets |- *.
  destruct (resetShapes_nth 2400 1800 now random playerId player.(Player.shapes)
              k i shape Hnth) as [j Hnth'].
  rewrite Hoob in Hnth'.
  eexists. eexists.
  split; [exact Hget'|].
  split; [apply resetShapes_ids|].
  split; [exact Hnth'|].
  split; [reflexivity|].
  split; [apply reset_x_in_band, Hrandom|].
  split; [reflexivity|].
  split; [reflexivity|].
  assert (Hall : map broadcastTarget bs = map Some (outOfBoundsTargets st)).
  { rewrite Htargets. unfold outOfBoundsTargets. now rewrite Hw, Hh. }
  split; [exact Hall|].
  rewrite (count_targets playerId shape.(Shape.id) bs _ Hall).
  rewrite outOfBoundsTargets_flat, Hw, Hh.
  rewrite (filter_targets_player
             (fun p => map Shape.id (filter (PhysicsRoom.isOutOfBounds 2400 1800)
                                       p.(Player.shapes)))
             playerId shape.(Shape.id) st.(PhysicsState.players) player Hwf Hget).
  apply count_shape_id; [exact Hnd| |exact Hoob].
  eapply nth_error_In. exact Hnth.
Qed.

Lemma boundary_sample_wf :
  JsMap.wf BoundarySample.room.(PhysicsRoom.state).(PhysicsState.players).
Proof.
  unfold JsMap.wf.
  change (NoDup ["alice"]).
  repeat constructor; simpl; intuition discriminate.
Defined.

(** alice's shape sits at x = -150; the draw for the new x is 1/2. *)
Lemma out_of_bounds_shape_is_repositioned_witness :
  let result :=
    PhysicsRoom.checkAndResetOutOfBoundsShapes BoundarySample.room 4000
      (fun _ => 1 # 2) in
  exists player' shape',
    PhysicsState.getPlayer (fst result).(PhysicsRoom.state) "alice" = Some player'
    /\ map Shape.id player'.(Player.shapes) = map Shape.id BoundarySample.alice.(Player.shapes)
    /\ nth_error player'.(Player.shapes) 0 = Some shape'
    /\ shape'.(Shape.id) = BoundarySample.shape.(Shape.id)
    /\ (100 <= shape'.(Shape.x) < 2300)%Q
    /\ shape'.(Shape.y) = 1750%Q
    /\ shape'.(Shape.velocity) = Vector.mk 0 0
    /\ map broadcastTarget (snd result)
       = map Some (outOfBoundsTargets BoundarySample.room.(PhysicsRoom.state))
    /\ length (filter (isTarget "alice" BoundarySample.shape.(Shape.id)) (snd result)) = 1%nat.
Proof.
  apply (out_of_bounds_shape_is_repositioned BoundarySample.room 4000
           (fun _ => 1 # 2) "alice" BoundarySample.alice 0 BoundarySample.shape).
  - reflexivity.
  - reflexivity.
  - intros k. split; [discriminate|reflexivity].
  - exact boundary_sample_wf.
  - reflexivity.
  - change (NoDup ["alice_2000_500"]).
    repeat constructor; simpl; intuition discriminate.
  - reflexivity.
  - reflexivity.
Defined.

(** C5, as stated, fails on the range of x: with the draw 99/100 the shape at
    x = -150 is moved to x = 2278, which is beyond 2200. *)
Lemma reset_x_within_2200_counterexample :
  let room' :=
    fst (PhysicsRoom.checkAndResetOutOfBoundsShapes BoundarySample.room 4000
           (fun _ => 99 # 100)) in
  (0 <= 99 # 100 < 1)%Q
  /\ PhysicsState.getPlayer BoundarySample.room.(PhysicsRoom.state) "alice"
     = Some BoundarySample.alice
  /\ PhysicsRoom.isOutOfBounds 2400 1800 BoundarySample.shape = true
  /\ exists shape',
       option_map Player.shapes
         (PhysicsState.getPlayer room'.(PhysicsRoom.state) "alice") = Some [shape']
       /\ (shape'.(Shape.x) == 2278)%Q
       /\ ~ (100 <= shape'.(Shape.x) <= 2200)%Q.
Proof.
  cbv zeta.
  split; [split; [discriminate|reflexivity]|].
  split; [reflexivity|].
  split; [reflexivity|].
  eexists. split; [vm_compute; reflexivity|].
  split; [reflexivity|].
  intros [_ H]. vm_compute in H. apply H. reflexivity.
Qed.

(** * The state validator *)

Section ValidatorFacts.
Import StateValidator.
Local Open Scope R_scope.

Lemma validateUpdate_nth v playerId shapes now i shape :
  nth_error shapes i = Some shape ->
  nth_error (snd (validateUpdate v playerId shapes now)) i
  = Some (validateShape (JsMap.get v.(playerStates) playerId)
            (deltaTime v playerId now) shape).
Proof.
  intros H. unfold validateUpdate. cbn [snd].
  now apply map_nth_error.
Qed.

Lemma validateUpdate_stored v playerId shapes now :
  JsMap.get (fst (validateUpdate v playerId shapes now)).(playerStates) playerId
  = Some (snd (validateUpdate v playerId shapes now)).
Proof.
  unfold validateUpdate. cbn [fst snd playerStates]. apply get_set_same.
Qed.

Lemma deltaTime_nonneg v playerId now :
  (lastUpdateOr v playerId now <= now)%Z -> 0 <= deltaTime v playerId now.
Proof.
  intros H. unfold deltaTime.
  assert (0 <= IZR (now - lastUpdateOr v playerId now)).
  { apply IZR_le. lia. }
  lra.
Qed.

Lemma clampVelocity_truncated x : truncated x (clampVelocity x).
Proof.
  unfold truncated, clampVelocity, MAX_VELOCITY, Rmin, Rmax.
  destruct (Rle_dec x (- (50))) as [Hlo|Hlo];
    [destruct (Rle_dec (- (50)) 50) as [Hhi|Hhi]
    |destruct (Rle_dec x 50) as [Hhi|Hhi]];
    (split; [split|split; [|split]]; intros; lra).
Qed.

(** Scaling the displacement by [m / D] gives a point at distance [m]. *)
Lemma scaled_displacement x0 y0 x1 y1 m :
  0 <= m ->
  dist x0 y0 x1 y1 > m ->
  let D := dist x0 y0 x1 y1 in
  let x' := x0 + (x1 - x0) * (m / D) in
  let y' := y0 + (y1 - y0) * (m / D) in
  onSegment x0 y0 x1 y1 x' y' /\ dist x0 y0 x' y' = m.
Proof.
  intros Hm Hgt D x' y'.
  assert (HD : 0 < D) by (subst D; lra).
  assert (Hsq : D * D = (x1 - x0) * (x1 - x0) + (y1 - y0) * (y1 - y0)).
  { subst D. unfold dist. apply sqrt_sqrt.
    pose proof (Rle_0_sqr (x1 - x0)) as Hx. pose proof (Rle_0_sqr (y1 - y0)) as Hy.
    unfold Rsqr in Hx, Hy. lra. }
  assert (Hs : m / D * D = m) by (field; lra).
  assert (Hs0 : 0 <= m / D).
  { unfold Rdiv. apply Rmult_le_pos; [exact Hm|].
    left. now apply Rinv_0_lt_compat. }
  assert (Hs1 : m / D <= 1).
  { apply Rmult_le_reg_r with D; [exact HD|]. rewrite Hs. subst D. lra. }
  split.
  - exists (m / D). subst x' y'. repeat split; try assumption; ring.
  - unfold dist. subst x' y'.
    replace ((x0 + (x1 - x0) * (m / D) - x0) * (x0 + (x1 - x0) * (m / D) - x0)
             + (y0 + (y1 - y0) * (m / D) - y0) * (y0 + (y1 - y0) * (m / D) - y0))
      with (m * m).
    + now apply sqrt_square.
    + transitivity ((m / D * D) * (m / D * D)); [now rewrite Hs|].
      transitivity ((m / D) * (m / D) * (D * D)); [ring|].
      rewrite Hsq. ring.
Qed.
End ValidatorFacts.

Section ValidatorTheorems.
Import StateValidator.
Local Open Scope R_scope.

(** C3.  A shape of the batch with a previously accepted state, the clock
    not having gone backwards: with P0 the previous position, P1 the proposed
    one and dt the elapsed seconds, if |P1 - P0| > 100 dt the accepted
    position lies on the segment from P0 to P1 at distance exactly 100 dt
    from P0 (arithmetic being exact over the reals); otherwise it is P1. *)
Theorem displacement_soft_clamp :
  forall v playerId shapes now i shape prevShape,
    (lastUpdateOr v playerId now <= now)%Z ->
    findPrev (JsMap.get v.(playerStates) playerId) shape = Some prevShape ->
    nth_error shapes i = Some shape ->
    let dt := deltaTime v playerId now in
    let x0 := prevShape.(ClientShape.x) in
    let y0 := prevShape.(ClientShape.y) in
    let x1 := shape.(ClientShape.x) in
    let y1 := shape.(ClientShape.y) in
    exists shape',
      nth_error (snd (validateUpdate v playerId shapes now)) i = Some shape'
      /\ (dist x0 y0 x1 y1 > 100 * dt ->
          onSegment x0 y0 x1 y1 shape'.(ClientShape.x) shape'.(ClientShape.y)
          /\ dist x0 y0 shape'.(ClientShape.x) shape'.(ClientShape.y) = 100 * dt)
      /\ (dist x0 y0 x1 y1 <= 100 * dt ->
          shape'.(ClientShape.x) = x1 /\ shape'.(ClientShape.y) = y1).
Proof.
  intros v playerId shapes now i shape prevShape Hclock Hprev Hnth dt x0 y0 x1 y1.
  pose proof (deltaTime_nonneg v playerId now Hclock) as Hdt. fold dt in Hdt.
  eexists. split; [exact (validateUpdate_nth v playerId shapes now i shape Hnth)|].
  unfold validateShape. rewrite Hprev. cbv zeta.
  fold dt x0 y0 x1 y1. unfold MAX_POSITION_CHANGE.
  change (sqrt ((x1 - x0) * (x1 - x0) + (y1 - y0) * (y1 - y0)))
    with (dist x0 y0 x1 y1).
  destruct (Rgt_dec (dist x0 y0 x1 y1) (100 * dt)) as [Hgt|Hle];
    cbn [ClientShape.x ClientShape.y].
  - split; [intros _|intros Hle; exfalso; lra].
    apply scaled_displacement; [lra|exact Hgt].
  - split; [intros Hgt; contradiction|intros _; split; reflexivity].
Qed.

(** The shape a1 was accepted at (0, 0) at time 1000 and is reported at
    (300, 400) at time 2000. *)
Lemma sample_elapsed : deltaTime ValidatorSample.v1 "alice" 2000 = 1.
Proof.
  unfold deltaTime, lastUpdateOr.
  change (IZR (2000 - 1000) / 1000 = 1).
  change (2000 - 1000)%Z with 1000%Z. lra.
Qed.

Lemma sample_distance : dist 0 0 300 400 = 500.
Proof.
  unfold dist.
  replace ((300 - 0) * (300 - 0) + (400 - 0) * (400 - 0)) with (500 * 500) by lra.
  apply sqrt_square. lra.
Qed.

(** The shape a1 was accepted at (0, 0) at time 1000 and is reported at
    (300, 400), 500 units away, at time 2000: it is accepted on the segment,
    100 units from (0, 0). *)
Lemma displacement_soft_clamp_witness :
  exists shape',
    nth_error
      (snd (validateUpdate ValidatorSample.v1 "alice" [ValidatorSample.second] 2000))
      0 = Some shape'
    /\ onSegment 0 0 300 400 shape'.(ClientShape.x) shape'.(ClientShape.y)
    /\ dist 0 0 shape'.(ClientShape.x) shape'.(ClientShape.y) = 100.
Proof.
  destruct (displacement_soft_clamp ValidatorSample.v1 "alice"
              [ValidatorSample.second] 2000 0 ValidatorSample.second
              ValidatorSample.first) as [shape' [Hnth [Hfar _]]].
  - unfold lastUpdateOr. simpl. lia.
  - reflexivity.
  - reflexivity.
  - exists shape'. split; [exact Hnth|].
    cbn [ValidatorSample.first ValidatorSample.second ClientShape.x ClientShape.y] in Hfar.
    rewrite sample_elapsed, sample_distance in Hfar.
    replace (100 * 1) with 100 in Hfar by lra.
    apply Hfar. lra.
Defined.

(** C9.  A shape of the batch whose id has no stored state for the player
    comes back as submitted, whatever its velocity and position. *)
Theorem unknown_shape_returned_verbatim :
  forall v playerId shapes now i shape,
    nth_error shapes i = Some shape ->
    findPrev (JsMap.get v.(playerStates) playerId) shape = None ->
    nth_error (snd (validateUpdate v playerId shapes now)) i = Some shape.
Proof.
  intros v playerId shapes now i shape Hnth Hprev.
  rewrite (validateUpdate_nth v playerId shapes now i shape Hnth).
  unfold validateShape. now rewrite Hprev.
Qed.

(** The first report of a1, with velocity (1000, -70). *)
Lemma unknown_shape_returned_verbatim_witness :
  nth_error (snd (validateUpdate StateValidator.new "alice" [ValidatorSample.first] 1000)) 0
  = Some ValidatorSample.first
  /\ ValidatorSample.first.(ClientShape.velocity) = Velocity.mk 1000 (-70).
Proof.
  split; [|reflexivity].
  apply (unknown_shape_returned_verbatim StateValidator.new "alice"
           [ValidatorSample.first] 1000 0 ValidatorSample.first).
  - reflexivity.
  - reflexivity.
Defined.

(** C4, amended.  A shape of the batch with a previously stored state is
    not rejected: it is returned, and stored as the player's state, with each
    velocity component truncated to [-50, 50]. *)
Theorem known_shape_velocity_is_truncated :
  forall v playerId shapes now i shape prevShape,
    findPrev (JsMap.get v.(playerStates) playerId) shape = Some prevShape ->
    nth_error shapes i = Some shape ->
    let result := validateUpdate v playerId shapes now in
    exists shape',
      nth_error (snd result) i = Some shape'
      /\ JsMap.get (fst result).(playerStates) playerId = Some (snd result)
      /\ truncated shape.(ClientShape.velocity).(Velocity.x)
                   shape'.(ClientShape.velocity).(Velocity.x)
      /\ truncated shape.(ClientShape.velocity).(Velocity.y)
                   shape'.(ClientShape.velocity).(Velocity.y).
Proof.
  intros v playerId shapes now i shape prevShape Hprev Hnth result.
  eexists. split; [exact (validateUpdate_nth v playerId shapes now i shape Hnth)|].
  split; [apply validateUpdate_stored|].
  unfold validateShape. rewrite Hprev. cbv zeta.
  destruct (Rgt_dec _ _); cbn [ClientShape.velocity Velocity.x Velocity.y];
    split; apply clampVelocity_truncated.
Qed.

(** a1 is known; it is reported with velocity (80, -20). *)
Lemma known_shape_velocity_is_truncated_witness :
  let result := validateUpdate ValidatorSample.v1 "alice" [ValidatorSample.second] 2000 in
  exists shape',
    nth_error (snd result) 0 = Some shape'
    /\ JsMap.get (fst result).(playerStates) "alice" = Some (snd result)
    /\ truncated 80 shape'.(ClientShape.velocity).(Velocity.x)
    /\ truncated (-20) shape'.(ClientShape.velocity).(Velocity.y).
Proof.
  apply (known_shape_velocity_is_truncated ValidatorSample.v1 "alice"
           [ValidatorSample.second] 2000 0 ValidatorSample.second
           ValidatorSample.first).
  - reflexivity.
  - reflexivity.
Defined.
End ValidatorTheorems.

(** * Velocity and bounds checks in the room *)

(** C4, as stated, fails, in the room and in the validator.  alice sends an
    impulse of velocity (1000, 0) for her own shape: the action is accepted (it
    is broadcast) and the shape's stored velocity is (1000, 0).  And the first
    report of a shape to the validator, with velocity (1000, -70), is stored as
    the player's state as it came. *)
Lemma stored_velocity_bound_counterexample :
  (let result :=
     PhysicsRoom.handlePhysicsAction Sample.room1 Sample.s1
       (Some (Action.mk (Some "impulse") (Some "alice_2000_500") None None None
                (Some (Vector.mk 1000 0))))
       4000 in
   length (snd result) = 1%nat
   /\ exists shape',
        option_map Player.shapes
          (PhysicsState.getPlayer (fst result).(PhysicsRoom.state) "alice")
        = Some [shape']
        /\ shape'.(Shape.velocity) = Vector.mk 1000 0
        /\ ~ (-50 <= shape'.(Shape.velocity).(Vector.x) <= 50)%Q)
  /\
  (let result :=
     StateValidator.validateUpdate StateValidator.new "alice" [ValidatorSample.first] 1000 in
   exists shape',
     JsMap.get (fst result).(StateValidator.playerStates) "alice" = Some [shape']
     /\ shape'.(StateValidator.ClientShape.velocity).(StateValidator.Velocity.x) = 1000%R
     /\ ~ (-50 <= shape'.(StateValidator.ClientShape.velocity).(StateValidator.Velocity.x) <= 50)%R).
Proof.
  cbv zeta. split.
  - split; [reflexivity|].
    eexists. split; [vm_compute; reflexivity|].
    split; [reflexivity|].
    intros [_ H]. vm_compute in H. apply H. reflexivity.
  - exists ValidatorSample.first. split; [reflexivity|].
    split; [reflexivity|].
    cbn [ValidatorSample.first StateValidator.ClientShape.velocity StateValidator.Velocity.x].
    intros [_ H]. lra.
Qed.

Lemma applyShapeData_out_of_bounds st now shapes shapeData :
  match shapeData.(ShapeData.x), shapeData.(ShapeData.y) with
  | Some x, Some y => PhysicsRoom.isWithinBounds st x y = false
  | _, _ => True
  end ->
  PhysicsRoom.applyShapeData st now shapes shapeData = shapes.
Proof.
  intros H. unfold PhysicsRoom.applyShapeData.
  destruct (negb (PhysicsRoom.validateShapeData shapeData)); [reflexivity|].
  destruct shapeData.(ShapeData.id); [|reflexivity].
  destruct shapeData.(ShapeData.x); [|reflexivity].
  destruct shapeData.(ShapeData.y); [|reflexivity].
  destruct shapeData.(ShapeData.velocity); [|reflexivity].
  destruct (find _ shapes); [|reflexivity].
  now rewrite H.
Qed.

(** The [shape_update] path: a batch in which every proposed position is
    outside the arena widened by 200 units changes no shape; only the
    sender's [lastActivity] is stamped, and nothing is broadcast. *)
Lemma forEachShapeData_spec st now batch : forall shapes,
  PhysicsRoom.forEachShapeData st now batch shapes
  = (fold_left (PhysicsRoom.applyShapeData st now) (beforeNull batch) shapes,
     hasNull batch).
Proof.
  induction batch as [|[shapeData|] batch IH]; intros shapes;
    [reflexivity| |reflexivity].
  cbn [PhysicsRoom.forEachShapeData beforeNull fold_left]. now rewrite IH.
Qed.

Lemma beforeNull_map_Some {A} (batch : list A) : beforeNull (map Some batch) = batch.
Proof.
  induction batch as [|a batch IH]; [reflexivity|]. cbn. now rewrite IH.
Qed.

Lemma hasNull_map_Some {A} (batch : list A) : hasNull (map Some batch) = false.
Proof.
  induction batch as [|a batch IH]; [reflexivity|]. exact IH.
Qed.

Lemma shape_update_out_of_bounds_rejected room client batch now playerId player :
  PhysicsRoom.resolve room client = Some playerId ->
  PhysicsState.getPlayer room.(PhysicsRoom.state) playerId = Some player ->
  Forall
    (fun shapeData =>
       match shapeData.(ShapeData.x), shapeData.(ShapeData.y) with
       | Some x, Some y => PhysicsRoom.isWithinBounds room.(PhysicsRoom.state) x y = false
       | _, _ => True
       end)
    batch ->
  PhysicsRoom.handleShapeUpdate room client (Some (map Some batch)) now
  = (PhysicsRoom.putPlayer room playerId (Player.setLastActivity player now), []).
Proof.
  intros Hres Hget Hall. unfold PhysicsRoom.handleShapeUpdate.
  rewrite Hres, Hget, forEachShapeData_spec, beforeNull_map_Some, hasNull_map_Some.
  assert (Hfold : forall shapes,
             fold_left (PhysicsRoom.applyShapeData room.(PhysicsRoom.state) now) batch shapes
             = shapes).
  { induction Hall as [|shapeData batch Hhead _ IH]; intros shapes; [reflexivity|].
    cbn [fold_left]. rewrite applyShapeData_out_of_bounds by exact Hhead. apply IH. }
  rewrite Hfold. reflexivity.
Qed.

(** C6, at the failing input.  alice proposes the position (100000, 100000)
    for her shape, which is not within the arena widened by 200 units.  Sent
    as a [shape_update], no shape changes; sent as a [physics_action] of type
    "position", the shape is moved there and the action is broadcast. *)
Theorem far_position_action_is_applied :
  let viaAction :=
    PhysicsRoom.handlePhysicsAction Sample.room1 Sample.s1
      (Some (Action.mk (Some "position") (Some "alice_2000_500")
               (Some 100000%Q) (Some 100000%Q) None None))
      4000 in
  let viaUpdate :=
    PhysicsRoom.handleShapeUpdate Sample.room1 Sample.s1
      (Some [Some (ShapeData.mk (Some "alice_2000_500") (Some 100000%Q)
                     (Some 100000%Q) (Some 0%Q) (Some (Vector.mk 0 0)))])
      4000 in
  PhysicsRoom.isWithinBounds Sample.room1.(PhysicsRoom.state) 100000 100000 = false
  /\ option_map Player.shapes
       (PhysicsState.getPlayer (fst viaUpdate).(PhysicsRoom.state) "alice")
     = option_map Player.shapes
         (PhysicsState.getPlayer Sample.room1.(PhysicsRoom.state) "alice")
  /\ option_map Player.shapes
       (PhysicsState.getPlayer (fst viaAction).(PhysicsRoom.state) "alice")
     = Some [Shape.mk "alice_2000_500" 100000 100000 0 (Vector.mk 0 0) 4000 "#aabbcc"]
  /\ length (snd viaAction) = 1%nat.
Proof.
  cbv zeta. repeat split; reflexivity.
Qed.

(** * Invariants of the room *)

Section JsMapInvariants.
Context {V : Type}.
Implicit Types (m : JsMap.t V) (k : string) (v : V).

Lemma in_keys_set m k v x :
  In x (JsMap.keys (JsMap.set m k v)) -> x = k \/ In x (JsMap.keys m).
Proof.
  induction m as [|[k' v'] m IH]; cbn [JsMap.set JsMap.keys map fst].
  - intros [H|[]]. now left.
  - destruct (String.eqb_spec k' k) as [ -> | Hne ]; cbn [map fst].
    + intros [H|H]; [now left|right; now right].
    + intros [H|H]; [right; now left|].
      destruct (IH H) as [Hk|Hin]; [now left|right; now right].
Qed.

Lemma in_keys_delete m k x :
  In x (JsMap.keys (JsMap.delete m k)) -> In x (JsMap.keys m).
Proof.
  induction m as [|[k' v'] m IH]; cbn [JsMap.delete JsMap.keys map fst]; [tauto|].
  destruct (k' =? k)%string; cbn [map fst].
  - intros H. now right.
  - intros [H|H]; [now left|right; now apply IH].
Qed.

Lemma wf_set m k v : JsMap.wf m -> JsMap.wf (JsMap.set m k v).
Proof.
  unfold JsMap.wf.
  induction m as [|[k' v'] m IH]; cbn [JsMap.set JsMap.keys map fst]; intros Hwf.
  - repeat constructor. intros [].
  - inversion Hwf as [|? ? Hnotin Hwf']; subst.
    destruct (String.eqb_spec k' k) as [ -> | Hne ]; cbn [map fst].
    + now constructor.
    + constructor; [|now apply IH].
      intros Hin. destruct (in_keys_set m k v k' Hin) as [Hk|Hin']; [congruence|].
      now apply Hnotin.
Qed.

Lemma wf_delete m k : JsMap.wf m -> JsMap.wf (JsMap.delete m k).
Proof.
  unfold JsMap.wf.
  induction m as [|[k' v'] m IH]; cbn [JsMap.delete JsMap.keys map fst]; intros Hwf;
    [constructor|].
  inversion Hwf as [|? ? Hnotin Hwf']; subst.
  destruct (k' =? k)%string; cbn [map fst]; [exact Hwf'|].
  constructor; [|now apply IH].
  intros Hin. apply Hnotin. now apply (in_keys_delete m k).
Qed.

Lemma wf_filter (f : string * V -> bool) m : JsMap.wf m -> JsMap.wf (filter f m).
Proof.
  unfold JsMap.wf.
  induction m as [|[k' v'] m IH]; cbn [filter]; intros Hwf; [constructor|].
  inversion Hwf as [|? ? Hnotin Hwf']; subst.
  destruct (f (k', v')); [|now apply IH].
  cbn [JsMap.keys map fst]. constructor; [|now apply IH].
  intros Hin. apply Hnotin. now apply (keys_filter_incl f m).
Qed.

Variable P : string * V -> Prop.

Lemma Forall_set m k v : Forall P m -> P (k, v) -> Forall P (JsMap.set m k v).
Proof.
  intros Hall Hv.
  induction m as [|[k' v'] m IH]; cbn [JsMap.set].
  - now constructor.
  - inversion Hall as [|? ? Hhead Htail]; subst.
    destruct (k' =? k)%string; constructor; auto.
Qed.

Lemma Forall_delete m k : Forall P m -> Forall P (JsMap.delete m k).
Proof.
  intros Hall.
  induction m as [|[k' v'] m IH]; cbn [JsMap.delete]; [constructor|].
  inversion Hall as [|? ? Hhead Htail]; subst.
  destruct (k' =? k)%string; [exact Htail|constructor; auto].
Qed.

Lemma get_Forall m k v : JsMap.get m k = Some v -> Forall P m -> P (k, v).
Proof.
  induction m as [|[k' v'] m IH]; cbn [JsMap.get]; [discriminate|].
  intros Hget Hall. inversion Hall as [|? ? Hhead Htail]; subst.
  destruct (String.eqb_spec k' k) as [ -> | Hne ].
  - injection Hget as <-. exact Hhead.
  - now apply IH.
Qed.

(** Writing back the value a key already has changes nothing. *)
Lemma set_get_same m k v : JsMap.get m k = Some v -> JsMap.set m k v = m.
Proof.
  induction m as [|[k' v'] m IH]; cbn [JsMap.get JsMap.set]; [discriminate|].
  destruct (String.eqb_spec k' k) as [ -> | Hne ].
  - intros H. now injection H as <-.
  - intros H. now rewrite IH.
Qed.
End JsMapInvariants.

Lemma updateFound_ids (f : Shape.t -> bool) (g : Shape.t -> Shape.t) shapes :
  (forall s, (g s).(Shape.id) = s.(Shape.id)) ->
  map Shape.id (updateFound f g shapes) = map Shape.id shapes.
Proof.
  intros Hg. induction shapes as [|s shapes IH]; [reflexivity|].
  cbn [updateFound]. destruct (f s); cbn [map]; [now rewrite Hg|now rewrite IH].
Qed.

Lemma applyShapeData_ids st now shapes shapeData :
  map Shape.id (PhysicsRoom.applyShapeData st now shapes shapeData) = map Shape.id shapes.
Proof.
  unfold PhysicsRoom.applyShapeData.
  destruct (negb _); [reflexivity|].
  destruct shapeData.(ShapeData.id); [|reflexivity].
  destruct shapeData.(ShapeData.x); [|reflexivity].
  destruct shapeData.(ShapeData.y); [|reflexivity].
  destruct shapeData.(ShapeData.velocity); [|reflexivity].
  destruct (find _ shapes); [|reflexivity].
  destruct (PhysicsRoom.isWithinBounds _ _ _); [|reflexivity].
  now apply updateFound_ids.
Qed.

Lemma fold_applyShapeData_ids st now batch : forall shapes,
  map Shape.id (fold_left (PhysicsRoom.applyShapeData st now) batch shapes)
  = map Shape.id shapes.
Proof.
  induction batch as [|shapeData batch IH]; intros shapes; [reflexivity|].
  cbn [fold_left]. now rewrite IH, applyShapeData_ids.
Qed.

Lemma splice1_length {A} (l : list A) : forall i, (length (splice1 i l) <= length l)%nat.
Proof.
  induction l as [|a l IH]; intros [|i]; cbn [splice1 length]; try lia.
  specialize (IH i). lia.
Qed.

Lemma splice1_Forall {A} (Q : A -> Prop) (l : list A) : forall i,
  Forall Q l -> Forall Q (splice1 i l).
Proof.
  induction l as [|a l IH]; intros [|i] Hall; cbn [splice1]; try assumption;
    inversion Hall; subst; [assumption|constructor; auto].
Qed.

(** A player's shapes may be replaced by shapes with the same ids. *)
Lemma playerOk_same_ids key player shapes' disconnected' lastActivity' :
  playerOk (key, player) ->
  map Shape.id shapes' = map Shape.id player.(Player.shapes) ->
  disconnected' = false ->
  playerOk (key, Player.mk player.(Player.id) shapes' disconnected' lastActivity').
Proof.
  intros [Hid [Hlen [Hnames Hconn]]] Hids Hd.
  unfold playerOk. cbn [fst snd Player.id Player.shapes Player.disconnected] in *.
  split; [exact Hid|]. split.
  - rewrite <- (length_map Shape.id), Hids, length_map. exact Hlen.
  - split; [|exact Hd].
    rewrite Forall_forall in Hnames |- *. intros s' Hin.
    apply (in_map Shape.id) in Hin. rewrite Hids in Hin.
    apply in_map_iff in Hin. destruct Hin as [s [Hs Hin]].
    rewrite <- Hs. now apply Hnames.
Qed.

Lemma roomInvariant_new now : roomInvariant (PhysicsRoom.new now).
Proof.
  unfold roomInvariant, PhysicsRoom.new, JsMap.wf. cbn.
  repeat split; constructor.
Qed.

Lemma roomInvariant_setLastActivityTime room now :
  roomInvariant room -> roomInvariant (PhysicsRoom.setLastActivityTime room now).
Proof. intros H. exact H. Qed.

Lemma roomInvariant_bind room playerId sessionId :
  roomInvariant room -> roomInvariant (PhysicsRoom.bind room playerId sessionId).
Proof.
  intros [Hp [Hs [Hq Hall]]]. unfold roomInvariant. cbn.
  repeat split; try assumption; now apply wf_set.
Qed.

Lemma roomInvariant_unbind room playerId sessionId :
  roomInvariant room -> roomInvariant (PhysicsRoom.unbind room playerId sessionId).
Proof.
  intros [Hp [Hs [Hq Hall]]]. unfold roomInvariant. cbn.
  repeat split; try assumption; now apply wf_delete.
Qed.

Lemma roomInvariant_putPlayer room playerId player :
  roomInvariant room -> playerOk (playerId, player) ->
  roomInvariant (PhysicsRoom.putPlayer room playerId player).
Proof.
  intros [Hp [Hs [Hq Hall]]] Hok. unfold roomInvariant. cbn.
  repeat split; try assumption; [now apply wf_set|now apply Forall_set].
Qed.

Lemma roomInvariant_removePlayer room playerId :
  roomInvariant room ->
  roomInvariant
    (PhysicsRoom.setState room
       (fst (PhysicsState.removePlayer room.(PhysicsRoom.state) playerId))).
Proof.
  intros [Hp [Hs [Hq Hall]]]. unfold roomInvariant.
  cbn [PhysicsRoom.setState PhysicsRoom.state PhysicsRoom.sessionIdToPlayerId
       PhysicsRoom.playerIdToSessionId].
  rewrite removePlayer_players.
  repeat split; try assumption; [now apply wf_delete|now apply Forall_delete].
Qed.

Lemma roomInvariant_player room playerId player :
  roomInvariant room ->
  PhysicsState.getPlayer room.(PhysicsRoom.state) playerId = Some player ->
  playerOk (playerId, player).
Proof.
  intros [_ [_ [_ Hall]]] Hget. exact (get_Forall playerOk _ _ _ Hget Hall).
Qed.

Lemma namedFor_fresh playerId now r :
  namedFor playerId (PhysicsState.freshShapeId playerId now r).
Proof. now exists now, r. Qed.

(** Creating a shape for a player that holds none keeps the invariant, the
    id being drawn or being one [handleCreateShape] made up. *)
Lemma roomInvariant_createShape room playerId customShapeId now rId rX color :
  roomInvariant room ->
  (forall p, PhysicsState.getPlayer room.(PhysicsRoom.state) playerId = Some p ->
             p.(Player.shapes) = []) ->
  (forall c, customShapeId = Some c -> namedFor playerId c) ->
  roomInvariant
    (PhysicsRoom.setState room
       (fst (PhysicsState.createShapeForPlayer room.(PhysicsRoom.state) playerId
               customShapeId now rId rX color))).
Proof.
  intros Hinv Hempty Hcustom. unfold PhysicsState.createShapeForPlayer.
  destruct (JsMap.get room.(PhysicsRoom.state).(PhysicsState.players) playerId)
    as [player|] eqn:Hget.
  - cbn [fst].
    apply (roomInvariant_putPlayer room playerId). { exact Hinv. }
    destruct (roomInvariant_player room playerId player Hinv Hget)
      as [Hid [_ [_ Hconn]]].
    cbn [fst snd] in Hid, Hconn.
    unfold playerOk, Player.addShape.
    cbn [fst snd Player.id Player.shapes Player.disconnected].
    rewrite (Hempty player Hget). cbn [app length].
    repeat split; try assumption; [lia|].
    constructor; [|constructor]. cbn [Shape.new Shape.id].
    destruct customShapeId as [c|]; [|apply namedFor_fresh].
    destruct (truthy (Some c)); [now apply Hcustom|apply namedFor_fresh].
  - cbn [fst]. destruct room as [st a b c]. destruct st. exact Hinv.
Qed.

Lemma playerOk_new playerId now : playerOk (playerId, Player.new playerId now).
Proof.
  unfold playerOk, Player.new. cbn. repeat split; [lia|constructor].
Qed.

Lemma length_zero_nil {A} (l : list A) : (length l =? 0)%nat = true -> l = [].
Proof. destruct l; [reflexivity|discriminate]. Qed.

Lemma roomInvariant_onJoin room client options now rId rX color :
  roomInvariant room ->
  roomInvariant (PhysicsRoom.onJoin room client options now rId rX color).
Proof.
  intros Hinv. unfold PhysicsRoom.onJoin.
  set (room0 := PhysicsRoom.setLastActivityTime room now).
  assert (Hinv0 : roomInvariant room0) by exact Hinv.
  clearbody room0. clear Hinv room.
  set (provided := truthy options.(playerId)).
  set (identity := match options.(playerId) with
                   | Some p => if provided then p else client.(sessionId)
                   | None => client.(sessionId)
                   end).
  clearbody provided identity.
  destruct (if provided then PhysicsState.getPlayer room0.(PhysicsRoom.state) identity
            else None) as [existing|] eqn:Hexisting.
  - (* reconnection *)
    assert (Hget : PhysicsState.getPlayer room0.(PhysicsRoom.state) identity = Some existing).
    { destruct provided; [exact Hexisting|discriminate]. }
    unfold PhysicsState.markPlayerConnected.
    unfold PhysicsState.getPlayer in Hget. rewrite Hget. cbn [fst].
    set (marked := Player.setConnectionStatus existing true now).
    set (room1 := PhysicsRoom.bind _ identity client.(sessionId)).
    assert (Hmarked : playerOk (identity, marked)).
    { apply (playerOk_same_ids identity existing);
        [exact (roomInvariant_player room0 identity existing Hinv0 Hget)
        |reflexivity|reflexivity]. }
    assert (Hinv1 : roomInvariant room1).
    { apply roomInvariant_bind.
      exact (roomInvariant_putPlayer room0 identity marked Hinv0 Hmarked). }
    assert (Hget1 : PhysicsState.getPlayer room1.(PhysicsRoom.state) identity = Some marked).
    { unfold PhysicsState.getPlayer. cbn. apply get_set_same. }
    rewrite Hget1.
    destruct (length marked.(Player.shapes) =? 0)%nat eqn:Hzero.
    + apply roomInvariant_createShape; [exact Hinv1| |discriminate].
      intros p Hp. rewrite Hget1 in Hp. injection Hp as <-.
      now apply length_zero_nil.
    + destruct Hmarked as [_ [Hlen _]]. cbn [snd] in Hlen.
      destruct (Nat.ltb_spec 1 (length marked.(Player.shapes))); [lia|exact Hinv1].
  - (* a new player *)
    unfold PhysicsState.createPlayer.
    destruct (JsMap.get room0.(PhysicsRoom.state).(PhysicsState.players) identity)
      as [player|] eqn:Hget.
    + set (room1 := PhysicsRoom.bind _ identity client.(sessionId)).
      assert (Hinv1 : roomInvariant room1).
      { apply roomInvariant_bind. destruct room0 as [st a b c]. exact Hinv0. }
      destruct (length player.(Player.shapes) =? 0)%nat eqn:Hzero; [|exact Hinv1].
      apply roomInvariant_createShape; [exact Hinv1| |discriminate].
      intros p Hp. unfold PhysicsState.getPlayer in Hp. cbn in Hp.
      rewrite Hget in Hp. injection Hp as <-. now apply length_zero_nil.
    + set (room1 := PhysicsRoom.bind _ identity client.(sessionId)).
      assert (Hinv1 : roomInvariant room1).
      { apply roomInvariant_bind.
        exact (roomInvariant_putPlayer room0 identity _ Hinv0 (playerOk_new identity now)). }
      cbn [Player.new Player.shapes length Nat.eqb].
      apply roomInvariant_createShape; [exact Hinv1| |discriminate].
      intros p Hp. unfold PhysicsState.getPlayer in Hp. cbn in Hp.
      rewrite get_set_same in Hp. now injection Hp as <-.
Qed.

Lemma roomInvariant_onLeave room client consented now :
  roomInvariant room ->
  roomInvariant (fst (PhysicsRoom.onLeave room client consented now)).
Proof.
  intros Hinv. unfold PhysicsRoom.onLeave.
  set (room0 := PhysicsRoom.setLastActivityTime room now).
  assert (Hinv0 : roomInvariant room0) by exact Hinv.
  clearbody room0.
  destruct (PhysicsRoom.resolve room0 client) as [playerId|]; [|exact Hinv0].
  cbn [fst]. apply roomInvariant_unbind.
  destruct (PhysicsState.getPlayer room0.(PhysicsRoom.state) playerId) as [player|];
    [|exact Hinv0].
  destruct Hinv0 as [Hp [Hs [Hq Hall]]]. unfold roomInvariant.
  cbn [PhysicsRoom.setState PhysicsRoom.state PhysicsRoom.sessionIdToPlayerId
       PhysicsRoom.playerIdToSessionId].
  rewrite removePlayer_players.
  cbn [PhysicsRoom.putPlayer PhysicsRoom.setState PhysicsRoom.state
       PhysicsRoom.sessionIdToPlayerId PhysicsRoom.playerIdToSessionId
       PhysicsState.setPlayers PhysicsState.players].
  rewrite delete_set.
  repeat split; try assumption; [now apply wf_delete|now apply Forall_delete].
Qed.

Lemma roomInvariant_handleShapeUpdate room client shapes now :
  roomInvariant room ->
  roomInvariant (fst (PhysicsRoom.handleShapeUpdate room client shapes now)).
Proof.
  intros Hinv. unfold PhysicsRoom.handleShapeUpdate.
  destruct shapes as [batch|]; [|exact Hinv].
  destruct (PhysicsRoom.resolve room client) as [playerId|]; [|exact Hinv].
  destruct (PhysicsState.getPlayer room.(PhysicsRoom.state) playerId) as [player|] eqn:Hget;
    [|exact Hinv].
  rewrite forEachShapeData_spec.
  cbn [fst]. apply roomInvariant_putPlayer; [exact Hinv|].
  pose proof (roomInvariant_player room playerId player Hinv Hget) as Hok.
  destruct (hasNull batch);
    (apply (playerOk_same_ids playerId player); [exact Hok| |]);
    try apply fold_applyShapeData_ids;
    now destruct Hok as [_ [_ [_ Hconn]]].
Qed.

Lemma roomInvariant_handlePhysicsAction room client action now :
  roomInvariant room ->
  roomInvariant (fst (PhysicsRoom.handlePhysicsAction room client action now)).
Proof.
  intros Hinv. unfold PhysicsRoom.handlePhysicsAction.
  destruct action as [action|]; [|exact Hinv].
  destruct action.(Action.type) as [type|]; [|exact Hinv].
  destruct action.(Action.shapeId) as [shapeId|]; [|exact Hinv].
  destruct (negb _ || negb _); [exact Hinv|].
  destruct (PhysicsRoom.resolve room client) as [playerId|]; [|exact Hinv].
  destruct (PhysicsState.getPlayer room.(PhysicsRoom.state) playerId) as [player|] eqn:Hget;
    [|exact Hinv].
  destruct (find _ player.(Player.shapes)).
  2:{ now destruct (PhysicsRoom.belongsToAnotherPlayer _ _ _). }
  pose proof (roomInvariant_player room playerId player Hinv Hget) as Hok.
  assert (Haccept : forall g : Shape.t -> Shape.t,
             (forall s, (g s).(Shape.id) = s.(Shape.id)) ->
             roomInvariant
               (PhysicsRoom.putPlayer room playerId
                  (Player.setLastActivity
                     (Player.setShapes player
                        (updateFound (Shape.hasId shapeId) g player.(Player.shapes)))
                     now))).
  { intros g Hg. apply roomInvariant_putPlayer; [exact Hinv|].
    apply (playerOk_same_ids playerId player); [exact Hok| |].
    - now apply updateFound_ids.
    - now destruct Hok as [_ [_ [_ Hconn]]]. }
  destruct (type =? "position")%string.
  - destruct action.(Action.x); [|exact Hinv].
    destruct action.(Action.y); [|exact Hinv].
    cbn [fst]. apply Haccept. intros s.
    now destruct action.(Action.velocity).
  - destruct (type =? "impulse")%string; [|exact Hinv].
    destruct action.(Action.velocity); [|exact Hinv].
    cbn [fst]. now apply Haccept.
Qed.

Lemma roomInvariant_handleCreateShape room client now rUnique rX color :
  roomInvariant room ->
  roomInvariant (fst (PhysicsRoom.handleCreateShape room client now rUnique rX color)).
Proof.
  intros Hinv. unfold PhysicsRoom.handleCreateShape.
  destruct (PhysicsRoom.resolve room client) as [playerId|]; [|exact Hinv].
  destruct (PhysicsState.getPlayer room.(PhysicsRoom.state) playerId) as [player|] eqn:Hget;
    [|exact Hinv].
  destruct (Nat.ltb_spec 0 (length player.(Player.shapes))) as [Hlen|Hlen];
    [exact Hinv|].
  cbn [fst]. apply roomInvariant_createShape; [exact Hinv| |].
  - intros p Hp. rewrite Hget in Hp. injection Hp as <-.
    destruct player.(Player.shapes); [reflexivity|cbn in Hlen; lia].
  - intros c Hc. injection Hc as <-. apply namedFor_fresh.
Qed.

Lemma roomInvariant_handleRemoveShape room client shapeId now :
  roomInvariant room ->
  roomInvariant (fst (PhysicsRoom.handleRemoveShape room client shapeId now)).
Proof.
  intros Hinv. unfold PhysicsRoom.handleRemoveShape.
  destruct shapeId as [shapeId|]; [|exact Hinv].
  destruct (negb _); [exact Hinv|].
  destruct (PhysicsRoom.resolve room client) as [playerId|]; [|exact Hinv].
  destruct (PhysicsState.getPlayer room.(PhysicsRoom.state) playerId) as [player|] eqn:Hget;
    [|exact Hinv].
  cbn [fst]. apply roomInvariant_putPlayer; [exact Hinv|].
  pose proof (roomInvariant_player room playerId player Hinv Hget) as Hok.
  unfold Player.removeShape.
  destruct (findIndex _ _) as [index|]; [|exact Hok].
  destruct Hok as [Hid [Hlen [Hnames Hconn]]].
  unfold playerOk. cbn [fst snd Player.id Player.shapes Player.disconnected] in *.
  repeat split; try assumption.
  - pose proof (splice1_length player.(Player.shapes) index). lia.
  - now apply splice1_Forall.
Qed.

Lemma roomInvariant_handleChangeBlockColor room client color now :
  roomInvariant room ->
  roomInvariant (fst (PhysicsRoom.handleChangeBlockColor room client color now)).
Proof.
  intros Hinv. unfold PhysicsRoom.handleChangeBlockColor.
  destruct color as [color|]; [|exact Hinv].
  destruct (negb _ || negb _); [exact Hinv|].
  destruct (PhysicsRoom.resolve room client) as [playerId|]; [|exact Hinv].
  destruct (PhysicsState.getPlayer room.(PhysicsRoom.state) playerId) as [player|] eqn:Hget;
    [|exact Hinv].
  destruct (0 <? _)%nat; [|exact Hinv].
  cbn [fst]. apply roomInvariant_putPlayer; [exact Hinv|].
  pose proof (roomInvariant_player room playerId player Hinv Hget) as Hok.
  apply (playerOk_same_ids playerId player); [exact Hok| |].
  - rewrite map_map. reflexivity.
  - now destruct Hok as [_ [_ [_ Hconn]]].
Qed.

Lemma roomInvariant_update room now :
  roomInvariant room -> roomInvariant (fst (PhysicsRoom.update room now)).
Proof.
  intros Hinv. unfold PhysicsRoom.update.
  destruct (Z.rem _ _ <? 16); cbn [fst].
  - destruct Hinv as [Hp [Hs [Hq Hall]]]. unfold roomInvariant.
    cbn [PhysicsRoom.setState PhysicsRoom.state PhysicsRoom.sessionIdToPlayerId
         PhysicsRoom.playerIdToSessionId].
    rewrite cleanup_players by exact Hp.
    cbn [PhysicsState.setServerTime PhysicsState.players].
    repeat split; try assumption.
    + now apply wf_filter.
    + rewrite Forall_forall in Hall |- *. intros kv Hin.
      apply filter_In in Hin. now apply Hall.
  - destruct room as [st a b c]. destruct st. exact Hinv.
Qed.

Lemma resetPlayers_keys bw bh now random players : forall k,
  JsMap.keys (fst (fst (PhysicsRoom.resetPlayers bw bh now random players k)))
  = JsMap.keys players.
Proof.
  induction players as [|[key p] players IH]; intros k; [reflexivity|].
  cbn [PhysicsRoom.resetPlayers].
  destruct (PhysicsRoom.resetShapes bw bh now random key p.(Player.shapes) k)
    as [[shapes' bs] k'].
  specialize (IH k').
  destruct (PhysicsRoom.resetPlayers bw bh now random players k') as [[rest' bs'] k''].
  cbn in IH |- *. now rewrite IH.
Qed.

Lemma resetPlayers_ok bw bh now random players : forall k,
  Forall playerOk players ->
  Forall playerOk (fst (fst (PhysicsRoom.resetPlayers bw bh now random players k))).
Proof.
  induction players as [|[key p] players IH]; intros k Hall; [constructor|].
  inversion Hall as [|? ? Hhead Htail]; subst.
  cbn [PhysicsRoom.resetPlayers].
  pose proof (resetShapes_ids bw bh now random key p.(Player.shapes) k) as Hids.
  destruct (PhysicsRoom.resetShapes bw bh now random key p.(Player.shapes) k)
    as [[shapes' bs] k'].
  specialize (IH k' Htail).
  destruct (PhysicsRoom.resetPlayers bw bh now random players k') as [[rest' bs'] k''].
  cbn [fst] in IH, Hids |- *. constructor; [|exact IH].
  apply (playerOk_same_ids key p); [exact Hhead|exact Hids|].
  now destruct Hhead as [_ [_ [_ Hconn]]].
Qed.

Lemma roomInvariant_checkAndReset room now random :
  roomInvariant room ->
  roomInvariant (fst (PhysicsRoom.checkAndResetOutOfBoundsShapes room now random)).
Proof.
  intros [Hp [Hs [Hq Hall]]]. unfold PhysicsRoom.checkAndResetOutOfBoundsShapes.
  pose proof (resetPlayers_keys room.(PhysicsRoom.state).(PhysicsState.boundaryWidth)
                room.(PhysicsRoom.state).(PhysicsState.boundaryHeight) now random
                room.(PhysicsRoom.state).(PhysicsState.players) 0) as Hkeys.
  pose proof (resetPlayers_ok room.(PhysicsRoom.state).(PhysicsState.boundaryWidth)
                room.(PhysicsRoom.state).(PhysicsState.boundaryHeight) now random
                room.(PhysicsRoom.state).(PhysicsState.players) 0 Hall) as Hok.
  destruct (PhysicsRoom.resetPlayers _ _ now random _ 0) as [[players' bs] k].
  cbn [fst] in Hkeys, Hok |- *. unfold roomInvariant.
  cbn [PhysicsRoom.setState PhysicsRoom.state PhysicsRoom.sessionIdToPlayerId
       PhysicsRoom.playerIdToSessionId PhysicsState.setPlayers PhysicsState.players].
  split; [unfold JsMap.wf; rewrite Hkeys; exact Hp|].
  repeat split; assumption.
Qed.

Lemma roomInvariant_step room event :
  roomInvariant room -> roomInvariant (fst (step room event)).
Proof.
  intros Hinv. destruct event as [c o n d|c b n|c m n d|n|n r]; cbn [step fst].
  - now apply roomInvariant_onJoin.
  - now apply roomInvariant_onLeave.
  - destruct m; cbn [onMessage].
    + now apply roomInvariant_handleShapeUpdate.
    + now apply roomInvariant_handlePhysicsAction.
    + now apply roomInvariant_handleCreateShape.
    + now apply roomInvariant_handleRemoveShape.
    + now apply roomInvariant_handleChangeBlockColor.
  - now apply roomInvariant_update.
  - now apply roomInvariant_checkAndReset.
Qed.

Lemma roomInvariant_run events : forall room,
  roomInvariant room -> roomInvariant (run room events).
Proof.
  induction events as [|event events IH]; intros room Hinv; [exact Hinv|].
  cbn [run fold_left]. apply IH. now apply roomInvariant_step.
Qed.

Lemma reachable_roomInvariant room : reachable room -> roomInvariant room.
Proof.
  intros [now [events <-]]. apply roomInvariant_run, roomInvariant_new.
Qed.

(** ** Shape ids name their owner *)

Lemma append_assoc_string (a b c : string) : ((a ++ b) ++ c = a ++ (b ++ c))%string.
Proof. induction a as [|x a IH]; cbn; [reflexivity|now rewrite IH]. Qed.

Lemma noUnderscore_uint d : noUnderscore (NilEmpty.string_of_uint d) = true.
Proof. induction d; cbn; auto. Qed.

Lemma noUnderscore_string_of_Z z : noUnderscore (string_of_Z z) = true.
Proof.
  unfold string_of_Z, NilZero.string_of_int, NilZero.string_of_uint.
  destruct (Z.to_int z) as [d|d]; destruct d; cbn; auto using noUnderscore_uint.
Qed.

Lemma noUnderscore_append s d : noUnderscore (s ++ String "_" d) = false.
Proof.
  induction s as [|c s IH]; cbn; [reflexivity|].
  rewrite IH. apply andb_false_r.
Qed.

(** A string splits in one way only at its last underscore. *)
Lemma split_last_underscore : forall s1 s2 d1 d2,
  noUnderscore d1 = true -> noUnderscore d2 = true ->
  (s1 ++ String "_" d1 = s2 ++ String "_" d2)%string ->
  s1 = s2 /\ d1 = d2.
Proof.
  induction s1 as [|c s1 IH]; intros [|c' s2] d1 d2 H1 H2 Heq; cbn in Heq.
  - injection Heq as ->. now split.
  - injection Heq as _ ->. now rewrite noUnderscore_append in H1.
  - injection Heq as _ <-. now rewrite noUnderscore_append in H2.
  - injection Heq as -> Heq. destruct (IH s2 d1 d2 H1 H2 Heq) as [-> ->]. now split.
Qed.

Lemma freshShapeId_owner p1 p2 t1 t2 r1 r2 :
  PhysicsState.freshShapeId p1 t1 r1 = PhysicsState.freshShapeId p2 t2 r2 -> p1 = p2.
Proof.
  unfold PhysicsState.freshShapeId. intros Heq.
  change (p1 ++ String "_" (string_of_Z t1 ++ String "_" (string_of_Z (Qfloor (r1 * 1000))))
          = p2 ++ String "_" (string_of_Z t2 ++ String "_" (string_of_Z (Qfloor (r2 * 1000)))))%string
    in Heq.
  change (p1 ++ String "_" (string_of_Z t1 ++ String "_" (string_of_Z (Qfloor (r1 * 1000)))))%string
    with (p1 ++ (String "_" (string_of_Z t1) ++ String "_" (string_of_Z (Qfloor (r1 * 1000)))))%string
    in Heq.
  change (p2 ++ String "_" (string_of_Z t2 ++ String "_" (string_of_Z (Qfloor (r2 * 1000)))))%string
    with (p2 ++ (String "_" (string_of_Z t2) ++ String "_" (string_of_Z (Qfloor (r2 * 1000)))))%string
    in Heq.
  rewrite <- !append_assoc_string in Heq.
  apply split_last_underscore in Heq; try apply noUnderscore_string_of_Z.
  destruct Heq as [Heq _].
  apply split_last_underscore in Heq; try apply noUnderscore_string_of_Z.
  now destruct Heq.
Qed.

Lemma roomInvariant_ownership room :
  roomInvariant room -> ownershipInvariant room.(PhysicsRoom.state).
Proof.
  intros Hinv a b pa pb shapeId Hab Ha Hb Hpa Hpb.
  assert (Hnamed : forall k p,
             PhysicsState.getPlayer room.(PhysicsRoom.state) k = Some p ->
             ownsShape p shapeId = true -> namedFor k shapeId).
  { intros k p Hget Hown.
    destruct (roomInvariant_player room k p Hinv Hget) as [_ [_ [Hnames _]]].
    cbn [fst snd] in Hnames. unfold ownsShape in Hown.
    apply existsb_exists in Hown. destruct Hown as [s [Hin Hs]].
    unfold Shape.hasId in Hs. apply String.eqb_eq in Hs. subst shapeId.
    rewrite Forall_forall in Hnames. now apply Hnames. }
  destruct (Hnamed a pa Ha Hpa) as [t1 [r1 H1]].
  destruct (Hnamed b pb Hb Hpb) as [t2 [r2 H2]].
  apply Hab. apply (freshShapeId_owner a b t1 t2 r1 r2). congruence.
Qed.

Lemma sample_room2_reachable : reachable Sample.room2.
Proof. exists 1000, ReachSample.events. reflexivity. Defined.

(** * Leaving the room *)








(** X1.  In every room that events lead to from a new one, no shape id is
    held by two players: the ownership invariant holds. *)
Theorem reachable_ownership :
  forall room, reachable room -> ownershipInvariant room.(PhysicsRoom.state).
Proof.
  intros room Hreach. apply roomInvariant_ownership.
  now apply reachable_roomInvariant.
Qed.

Lemma reachable_ownership_witness :
  ownershipInvariant Sample.room2.(PhysicsRoom.state).
Proof.
  apply (reachable_ownership Sample.room2). exact sample_room2_reachable.
Defined.

(** X2.  In every reachable room each player holds at most one shape. *)
Theorem reachable_single_shape :
  forall room playerId player,
    reachable room ->
    PhysicsState.getPlayer room.(PhysicsRoom.state) playerId = Some player ->
    (length player.(Player.shapes) <= 1)%nat.
Proof.
  intros room playerId player Hreach Hget.
  destruct (roomInvariant_player room playerId player
              (reachable_roomInvariant room Hreach) Hget) as [_ [Hlen _]].
  exact Hlen.
Qed.

Lemma reachable_single_shape_witness :
  (length
     [Shape.mk "s2_3000_333" (7100 # 4) 1750 0 (Vector.mk 0 0) 3000 "#112233"] <= 1)%nat.
Proof.
  apply (reachable_single_shape Sample.room2 "s2"
           (Player.mk "s2"
              [Shape.mk "s2_3000_333" (7100 # 4) 1750 0 (Vector.mk 0 0) 3000 "#112233"]
              false 3000)).
  - exact sample_room2_reachable.
  - reflexivity.
Defined.

(** X3.  In every reachable room the players map has distinct keys, every
    player is stored under its own id, and no player is marked disconnected;
    so the inactivity sweep of the simulation tick removes nobody: the tick
    leaves the players as they are. *)
Theorem reachable_players_connected :
  forall room, reachable room ->
    JsMap.wf room.(PhysicsRoom.state).(PhysicsState.players)
    /\ (forall playerId player,
          PhysicsState.getPlayer room.(PhysicsRoom.state) playerId = Some player ->
          player.(Player.id) = playerId /\ player.(Player.disconnected) = false)
    /\ (forall now,
          (fst (PhysicsRoom.update room now)).(PhysicsRoom.state).(PhysicsState.players)
          = room.(PhysicsRoom.state).(PhysicsState.players)).
Proof.
  intros room Hreach.
  pose proof (reachable_roomInvariant room Hreach) as Hinv.
  split; [now destruct Hinv|]. split.
  - intros playerId player Hget.
    destruct (roomInvariant_player room playerId player Hinv Hget) as [Hid [_ [_ Hconn]]].
    now split.
  - intros now. unfold PhysicsRoom.update.
    destruct (Z.rem _ _ <? 16); cbn [fst PhysicsRoom.setState PhysicsRoom.state];
      [|reflexivity].
    destruct Hinv as [Hwf [_ [_ Hall]]].
    rewrite cleanup_players by exact Hwf.
    cbn [PhysicsState.setServerTime PhysicsState.players].
    induction Hall as [|kv players Hhead _ IH]; [reflexivity|].
    cbn [filter]. unfold PhysicsState.isInactive at 1.
    destruct Hhead as [_ [_ [_ Hconn]]]. rewrite Hconn. cbn [andb negb].
    f_equal. apply IH. unfold JsMap.wf in Hwf |- *.
    now inversion Hwf.
Qed.

Lemma reachable_players_connected_witness :
  (fst (PhysicsRoom.update Sample.room2 400000)).(PhysicsRoom.state).(PhysicsState.players)
  = Sample.room2.(PhysicsRoom.state).(PhysicsState.players).
Proof.
  apply (proj2 (proj2 (reachable_players_connected Sample.room2 sample_room2_reachable))).
Defined.

(** * What a message can change *)

(** X4.  A message from a session that resolves to no player is dropped,
    whatever its kind and payload: the room is as it was and nothing is
    broadcast. *)
Theorem unresolved_session_is_ignored :
  forall room client message now draws,
    PhysicsRoom.resolve room client = None ->
    onMessage room client message now draws = (room, []).
Proof.
  intros room client message now draws Hres.
  destruct message as [shapes|action| |shapeId|color]; cbn [onMessage].
  - unfold PhysicsRoom.handleShapeUpdate. destruct shapes; [|reflexivity].
    now rewrite Hres.
  - unfold PhysicsRoom.handlePhysicsAction. destruct action as [action|]; [|reflexivity].
    destruct action.(Action.type); [|reflexivity].
    destruct action.(Action.shapeId); [|reflexivity].
    destruct (negb _ || negb _); [reflexivity|]. now rewrite Hres.
  - unfold PhysicsRoom.handleCreateShape. now rewrite Hres.
  - unfold PhysicsRoom.handleRemoveShape. destruct shapeId; [|reflexivity].
    destruct (negb _); [reflexivity|]. now rewrite Hres.
  - unfold PhysicsRoom.handleChangeBlockColor. destruct color; [|reflexivity].
    destruct (negb _ || negb _); [reflexivity|]. now rewrite Hres.
Qed.

(** Session s3 never joined. *)
Lemma unresolved_session_is_ignored_witness :
  onMessage Sample.room2 Sample.s3 Message.create_shape 4000 ReachSample.draws1
  = (Sample.room2, []).
Proof.
  apply (unresolved_session_is_ignored Sample.room2 Sample.s3 Message.create_shape
           4000 ReachSample.draws1).
  reflexivity.
Defined.

(** A handled message leaves the room as it was or rewrites the sender's
    player in place. *)
Lemma onMessage_outcome room client message now draws playerId :
  PhysicsRoom.resolve room client = Some playerId ->
  fst (onMessage room client message now draws) = room
  \/ exists player player',
       PhysicsState.getPlayer room.(PhysicsRoom.state) playerId = Some player
       /\ fst (onMessage room client message now draws)
          = PhysicsRoom.putPlayer room playerId player'.
Proof.
  intros Hres.
  destruct message as [shapes|action| |shapeId|color]; cbn [onMessage].
  - unfold PhysicsRoom.handleShapeUpdate. destruct shapes; [|now left].
    rewrite Hres.
    destruct (PhysicsState.getPlayer _ playerId) as [player|] eqn:Hget; [|now left].
    destruct (PhysicsRoom.forEachShapeData _ _ _ _) as [shapes' thrown].
    right. now eexists _, _.
  - unfold PhysicsRoom.handlePhysicsAction. destruct action as [action|]; [|now left].
    destruct action.(Action.type) as [type|]; [|now left].
    destruct action.(Action.shapeId) as [shapeId|]; [|now left].
    destruct (negb _ || negb _); [now left|]. rewrite Hres.
    destruct (PhysicsState.getPlayer _ playerId) as [player|] eqn:Hget; [|now left].
    destruct (find _ _).
    2:{ left. now destruct (PhysicsRoom.belongsToAnotherPlayer _ _ _). }
    destruct (type =? "position")%string.
    + destruct action.(Action.x); [|now left].
      destruct action.(Action.y); [|now left].
      right. now eexists _, _.
    + destruct (type =? "impulse")%string; [|now left].
      destruct action.(Action.velocity); [|now left].
      right. now eexists _, _.
  - unfold PhysicsRoom.handleCreateShape. rewrite Hres.
    destruct (PhysicsState.getPlayer _ playerId) as [player|] eqn:Hget; [|now left].
    destruct (0 <? _)%nat; [now left|].
    right. exists player. unfold PhysicsState.createShapeForPlayer.
    unfold PhysicsState.getPlayer in Hget. rewrite Hget.
    eexists. split; reflexivity.
  - unfold PhysicsRoom.handleRemoveShape. destruct shapeId; [|now left].
    destruct (negb _); [now left|]. rewrite Hres.
    destruct (PhysicsState.getPlayer _ playerId) as [player|] eqn:Hget; [|now left].
    right. now eexists _, _.
  - unfold PhysicsRoom.handleChangeBlockColor. destruct color; [|now left].
    destruct (negb _ || negb _); [now left|]. rewrite Hres.
    destruct (PhysicsState.getPlayer _ playerId) as [player|] eqn:Hget; [|now left].
    destruct (0 <? _)%nat; [|now left].
    right. now eexists _, _.
Qed.

Lemma keys_set_present {V} (m : JsMap.t V) k v v0 :
  JsMap.get m k = Some v0 -> JsMap.keys (JsMap.set m k v) = JsMap.keys m.
Proof.
  induction m as [|[k' v'] m IH]; cbn [JsMap.get JsMap.set]; [discriminate|].
  destruct (String.eqb_spec k' k) as [ -> | Hne ]; intros H; cbn; [reflexivity|].
  f_equal. now apply IH.
Qed.

(** X5.  A message changes at most the player its sender resolves to: every
    other player of the store, with all its shapes, is as before; no player
    is added or removed; the session maps and the arena are untouched. *)
Theorem message_changes_only_the_sender :
  forall room client message now draws playerId,
    PhysicsRoom.resolve room client = Some playerId ->
    let room' := fst (onMessage room client message now draws) in
    (forall other,
        other <> playerId ->
        PhysicsState.getPlayer room'.(PhysicsRoom.state) other
        = PhysicsState.getPlayer room.(PhysicsRoom.state) other)
    /\ JsMap.keys room'.(PhysicsRoom.state).(PhysicsState.players)
       = JsMap.keys room.(PhysicsRoom.state).(PhysicsState.players)
    /\ room'.(PhysicsRoom.sessionIdToPlayerId) = room.(PhysicsRoom.sessionIdToPlayerId)
    /\ room'.(PhysicsRoom.playerIdToSessionId) = room.(PhysicsRoom.playerIdToSessionId)
    /\ room'.(PhysicsRoom.state).(PhysicsState.boundaryWidth)
       = room.(PhysicsRoom.state).(PhysicsState.boundaryWidth)
    /\ room'.(PhysicsRoom.state).(PhysicsState.boundaryHeight)
       = room.(PhysicsRoom.state).(PhysicsState.boundaryHeight).
Proof.
  intros room client message now draws playerId Hres room'. subst room'.
  destruct (onMessage_outcome room client message now draws playerId Hres)
    as [-> | [player [player' [Hget ->]]]].
  - repeat split; reflexivity.
  - cbn [PhysicsRoom.putPlayer PhysicsRoom.setState PhysicsRoom.state
         PhysicsRoom.sessionIdToPlayerId PhysicsRoom.playerIdToSessionId
         PhysicsState.setPlayers PhysicsState.players PhysicsState.boundaryWidth
         PhysicsState.boundaryHeight].
    split; [|split; [|repeat split; reflexivity]].
    + intros other Hne. unfold PhysicsState.getPlayer.
      cbn [PhysicsState.players]. apply get_set_other. congruence.
    + exact (keys_set_present _ playerId player' player Hget).
Qed.

(** alice moves her shape; the player of session s2 is as before. *)
Lemma message_changes_only_the_sender_witness :
  PhysicsState.getPlayer
    (fst (onMessage Sample.room2 Sample.s1
            (Message.physics_action
               (Some (Action.mk (Some "position") (Some "alice_2000_500")
                        (Some 5%Q) (Some 6%Q) None None)))
            4000 ReachSample.draws1)).(PhysicsRoom.state) "s2"
  = PhysicsState.getPlayer Sample.room2.(PhysicsRoom.state) "s2".
Proof.
  apply (proj1 (message_changes_only_the_sender Sample.room2 Sample.s1
                  (Message.physics_action
                     (Some (Action.mk (Some "position") (Some "alice_2000_500")
                              (Some 5%Q) (Some 6%Q) None None)))
                  4000 ReachSample.draws1 "alice" eq_refl)).
  discriminate.
Defined.

(** * Colours *)

Lemma hue_range (random : Q) :
  (0 <= random < 1)%Q -> 0 <= Qfloor (random * 360) < 360.
Proof.
  intros [H0 H1]. split.
  - change 0 with (Qfloor 0). apply Qfloor_resp_le. Lqa.lra.
  - pose proof (Qfloor_le (random * 360)) as Hle.
    assert (Hlt : (inject_Z (Qfloor (random * 360)) < inject_Z 360)%Q).
    { eapply Qle_lt_trans; [exact Hle|]. change (inject_Z 360) with 360%Q. Lqa.lra. }
    now rewrite <- Zlt_Qlt in Hlt.
Qed.

Lemma all_hues_valid :
  forallb (fun n => PhysicsRoom.isHexColor (colorOfHue (Z.of_nat n))) (seq 0 360) = true.
Proof. vm_compute. reflexivity. Qed.

(** X6.  Whatever the draw in [0, 1), the colour [generateRandomColor] gives
    a new shape is one the [change_block_color] handler accepts: a "#"
    followed by six hexadecimal digits. *)
Theorem generated_color_is_valid :
  forall random,
    (0 <= random < 1)%Q ->
    PhysicsRoom.isHexColor (generateRandomColor random) = true.
Proof.
  intros random Hrandom. unfold generateRandomColor.
  pose proof (hue_range random Hrandom) as Hhue.
  pose proof all_hues_valid as Hall. rewrite forallb_forall in Hall.
  rewrite <- (Z2Nat.id (Qfloor (random * 360))) by lia.
  apply Hall. apply in_seq. lia.
Qed.

Lemma generated_color_is_valid_witness :
  PhysicsRoom.isHexColor (generateRandomColor (1 # 12)) = true
  /\ generateRandomColor (1 # 12) = "#eb9947".
Proof.
  split; [|reflexivity].
  apply (generated_color_is_valid (1 # 12)). split; [discriminate|reflexivity].
Defined.

(** * The store *)

Lemma findIndex_existsb {A} (f : A -> bool) (l : list A) :
  existsb f l = isDefined (findIndex f l).
Proof.
  induction l as [|a l IH]; [reflexivity|].
  cbn [existsb findIndex]. destruct (f a); [reflexivity|].
  cbn [orb]. rewrite IH. now destruct (findIndex f l).
Qed.

Lemma filter_negb_none {A} (f : A -> bool) (l : list A) :
  existsb f l = false -> filter (fun a => negb (f a)) l = l.
Proof.
  induction l as [|a l IH]; [reflexivity|].
  cbn [existsb filter]. destruct (f a); [discriminate|].
  cbn [orb negb]. intros H. now rewrite IH.
Qed.

Lemma hasId_not_in shapeId shapes :
  ~ In shapeId (map Shape.id shapes) -> existsb (Shape.hasId shapeId) shapes = false.
Proof.
  induction shapes as [|s shapes IH]; [reflexivity|].
  cbn [map existsb]. intros Hn. unfold Shape.hasId at 1.
  destruct (String.eqb_spec s.(Shape.id) shapeId) as [Heq|Hne].
  - exfalso. apply Hn. now left.
  - apply IH. intros Hin. apply Hn. now right.
Qed.

(** With distinct ids, cutting out the first shape of an id leaves the shapes
    of every other id. *)
Lemma splice1_findIndex shapeId shapes : forall index,
  NoDup (map Shape.id shapes) ->
  findIndex (Shape.hasId shapeId) shapes = Some index ->
  splice1 index shapes = filter (fun s => negb (Shape.hasId shapeId s)) shapes
  /\ (length (splice1 index shapes) + 1 = length shapes)%nat.
Proof.
  induction shapes as [|s shapes IH]; intros index Hnd Hfind; [discriminate|].
  cbn [map] in Hnd. inversion Hnd as [|? ? Hnotin Hnd']; subst.
  cbn [findIndex filter] in Hfind |- *.
  destruct (Shape.hasId shapeId s) eqn:Hs.
  - injection Hfind as <-. cbn [splice1 negb]. split; [|cbn; lia].
    symmetry. apply filter_negb_none. apply hasId_not_in.
    unfold Shape.hasId in Hs. apply String.eqb_eq in Hs. now rewrite <- Hs.
  - destruct (findIndex (Shape.hasId shapeId) shapes) as [i|]; [|discriminate].
    injection Hfind as <-. cbn [splice1 negb].
    destruct (IH i Hnd' eq_refl) as [Heq Hlen]. split; [now rewrite Heq|cbn; lia].
Qed.

(** X7.  [Player.removeShape] on a player whose shape ids are distinct: it
    returns whether the player held a shape of that id; if not, the player is
    as it was; if so, exactly that shape is gone (one shape fewer, the others
    in their order) and [lastActivity] is stamped. *)
Theorem removeShape_removes_exactly_that_shape :
  forall player shapeId now,
    NoDup (map Shape.id player.(Player.shapes)) ->
    let player' := fst (Player.removeShape player shapeId now) in
    let found := snd (Player.removeShape player shapeId now) in
    found = ownsShape player shapeId
    /\ player'.(Player.shapes)
       = filter (fun s => negb (Shape.hasId shapeId s)) player.(Player.shapes)
    /\ (found = false -> player' = player)
    /\ (found = true ->
        (length player'.(Player.shapes) + 1 = length player.(Player.shapes))%nat
        /\ player'.(Player.lastActivity) = now).
Proof.
  intros player shapeId now Hnd player' found. subst player' found.
  unfold Player.removeShape, ownsShape. rewrite findIndex_existsb.
  destruct (findIndex (Shape.hasId shapeId) player.(Player.shapes)) as [index|] eqn:Hfind;
    cbn [fst snd isDefined Player.shapes Player.lastActivity].
  - destruct (splice1_findIndex shapeId _ index Hnd Hfind) as [Heq Hlen].
    repeat split; try assumption. discriminate.
  - repeat split; try discriminate.
    symmetry. apply filter_negb_none. rewrite findIndex_existsb. now rewrite Hfind.
Qed.

Lemma removeShape_removes_exactly_that_shape_witness :
  (fst (Player.removeShape CapSample.alice "alice_2000_3" 9000)).(Player.shapes)
  = filter (fun s => negb (Shape.hasId "alice_2000_3" s)) CapSample.alice.(Player.shapes).
Proof.
  apply (removeShape_removes_exactly_that_shape CapSample.alice "alice_2000_3" 9000).
  change (NoDup ["alice_2000_1"; "alice_2000_2"; "alice_2000_3"; "alice_2000_4";
                 "alice_2000_5"]).
  repeat constructor; simpl; intuition discriminate.
Defined.

(** X8.  Round trips of the players map, its keys being distinct.
    [createPlayer] returns the player that [getPlayer] then finds: the one
    already stored under the id, the store being left as it was, or else a
    new player without shapes, connected.  Creating again changes nothing.
    [removePlayer] then reports true, [getPlayer] finds nothing under the id,
    and every other player is found as before the creation. *)
Theorem player_store_round_trip :
  forall st playerId now now',
    JsMap.wf st.(PhysicsState.players) ->
    let created := PhysicsState.createPlayer st playerId now in
    let removed := PhysicsState.removePlayer (fst created) playerId in
    PhysicsState.getPlayer (fst created) playerId = Some (snd created)
    /\ (PhysicsState.getPlayer st playerId = None ->
        snd created = Player.mk playerId [] false now)
    /\ (forall player,
          PhysicsState.getPlayer st playerId = Some player -> created = (st, player))
    /\ PhysicsState.createPlayer (fst created) playerId now' = created
    /\ snd removed = true
    /\ PhysicsState.getPlayer (fst removed) playerId = None
    /\ (forall other,
          other <> playerId ->
          PhysicsState.getPlayer (fst removed) other = PhysicsState.getPlayer st other).
Proof.
  intros st playerId now now' Hwf created removed.
  assert (Hget : PhysicsState.getPlayer (fst created) playerId = Some (snd created)).
  { subst created. unfold PhysicsState.createPlayer, PhysicsState.getPlayer.
    destruct (JsMap.get st.(PhysicsState.players) playerId) eqn:E; cbn; [exact E|].
    apply get_set_same. }
  assert (Hwf' : JsMap.wf (fst created).(PhysicsState.players)).
  { subst created. unfold PhysicsState.createPlayer.
    destruct (JsMap.get st.(PhysicsState.players) playerId); cbn; [exact Hwf|].
    now apply wf_set. }
  assert (Hother : forall other, other <> playerId ->
             PhysicsState.getPlayer (fst created) other = PhysicsState.getPlayer st other).
  { intros other Hne. subst created. unfold PhysicsState.createPlayer, PhysicsState.getPlayer.
    destruct (JsMap.get st.(PhysicsState.players) playerId); cbn; [reflexivity|].
    apply get_set_other. congruence. }
  split; [exact Hget|]. split.
  { intros Hnone. subst created. unfold PhysicsState.createPlayer.
    unfold PhysicsState.getPlayer in Hnone. now rewrite Hnone. }
  split.
  { intros player Hsome. subst created. unfold PhysicsState.createPlayer.
    unfold PhysicsState.getPlayer in Hsome. now rewrite Hsome. }
  split.
  { unfold PhysicsState.createPlayer at 1.
    unfold PhysicsState.getPlayer in Hget. rewrite Hget. now destruct created. }
  subst removed. unfold PhysicsState.removePlayer, JsMap.has.
  unfold PhysicsState.getPlayer in Hget. rewrite Hget. cbn [fst snd].
  split; [reflexivity|]. split.
  - unfold PhysicsState.getPlayer. cbn. now apply get_delete_same.
  - intros other Hne. rewrite <- (Hother other Hne).
    unfold PhysicsState.getPlayer. cbn. apply get_delete_other. congruence.
Qed.

Lemma player_store_round_trip_witness :
  PhysicsState.getPlayer
    (fst (PhysicsState.removePlayer
            (fst (PhysicsState.createPlayer SweepSample.st "bob" 5000)) "bob"))
    "bob"
  = None.
Proof.
  exact (proj1 (proj2 (proj2 (proj2 (proj2 (proj2
           (player_store_round_trip SweepSample.st "bob" 5000 6000 sweep_sample_wf))))))).
Defined.

Lemma spawn_x_in_band (r bw : Q) :
  (0 <= r < 1)%Q -> (100 < bw)%Q -> (50 <= r * (bw - 100) + 50 < bw - 50)%Q.
Proof. intros [H0 H1] Hbw. split; Lqa.nra. Qed.

(** X9.  [createShapeForPlayer] for a player of the store, however many
    shapes it holds already (the store itself applies no cap): the shape it
    returns is appended to the player's shapes and [lastActivity] is stamped;
    the shape is at rest, at angle 0, at y = boundaryHeight - 50 and, for a
    draw in [0, 1) and an arena wider than 100, at 50 <= x < boundaryWidth -
    50; every other player is as before. *)
Theorem createShape_appends_in_spawn_band :
  forall st playerId player customShapeId now rId rX color,
    PhysicsState.getPlayer st playerId = Some player ->
    (0 <= rX < 1)%Q ->
    (100 < st.(PhysicsState.boundaryWidth))%Q ->
    let result :=
      PhysicsState.createShapeForPlayer st playerId customShapeId now rId rX color in
    exists shape,
      snd result = Some shape
      /\ PhysicsState.getPlayer (fst result) playerId
         = Some (Player.mk player.(Player.id) (player.(Player.shapes) ++ [shape])
                   player.(Player.disconnected) now)
      /\ (50 <= shape.(Shape.x) < st.(PhysicsState.boundaryWidth) - 50)%Q
      /\ shape.(Shape.y) = (st.(PhysicsState.boundaryHeight) - 50)%Q
      /\ shape.(Shape.velocity) = Vector.mk 0 0
      /\ shape.(Shape.angle) = 0%Q
      /\ shape.(Shape.lastUpdate) = now
      /\ (forall other,
            other <> playerId ->
            PhysicsState.getPlayer (fst result) other = PhysicsState.getPlayer st other).
Proof.
  intros st playerId player customShapeId now rId rX color Hget Hr Hbw result.
  subst result. unfold PhysicsState.createShapeForPlayer.
  unfold PhysicsState.getPlayer in Hget. rewrite Hget.
  eexists. split; [reflexivity|].
  cbn [fst Shape.new Shape.x Shape.y Shape.velocity Shape.angle Shape.lastUpdate].
  split.
  { unfold PhysicsState.getPlayer. cbn [PhysicsState.setPlayers PhysicsState.players].
    now rewrite get_set_same. }
  split; [now apply spawn_x_in_band|].
  repeat split; try reflexivity.
  intros other Hne. unfold PhysicsState.getPlayer.
  cbn [PhysicsState.setPlayers PhysicsState.players].
  apply get_set_other. congruence.
Qed.

(** alice holds five shapes already and gets a sixth. *)
Lemma createShape_appends_in_spawn_band_witness :
  exists shape,
    snd (PhysicsState.createShapeForPlayer CapSample.room.(PhysicsRoom.state) "alice"
           None 5000 (1 # 2) (1 # 2) "#000000") = Some shape
    /\ option_map (fun p => length p.(Player.shapes))
         (PhysicsState.getPlayer
            (fst (PhysicsState.createShapeForPlayer CapSample.room.(PhysicsRoom.state)
                    "alice" None 5000 (1 # 2) (1 # 2) "#000000")) "alice")
       = Some 6%nat.
Proof.
  destruct (createShape_appends_in_spawn_band CapSample.room.(PhysicsRoom.state)
              "alice" CapSample.alice None 5000 (1 # 2) (1 # 2) "#000000")
    as [shape [Hshape [Hget _]]].
  - reflexivity.
  - split; [discriminate|reflexivity].
  - reflexivity.
  - exists shape. split; [exact Hshape|]. rewrite Hget. reflexivity.
Defined.

Lemma count_fold {A} (f : A -> bool) (l : list A) : forall n,
  fold_left (fun count a => if f a then S count else count) l n
  = (n + length (filter f l))%nat.
Proof.
  induction l as [|a l IH]; intros n; cbn [fold_left filter]; [cbn; lia|].
  rewrite IH. destruct (f a); cbn [length]; lia.
Qed.

Lemma connected_count st :
  getConnectedPlayerCount st
  = length (filter (fun kv => negb (snd kv).(Player.disconnected)) st.(PhysicsState.players)).
Proof.
  unfold getConnectedPlayerCount.
  now rewrite (count_fold (fun kv => negb (snd kv).(Player.disconnected))).
Qed.

Lemma disconnected_count st :
  getDisconnectedPlayerCount st
  = length (filter (fun kv => (snd kv).(Player.disconnected)) st.(PhysicsState.players)).
Proof.
  unfold getDisconnectedPlayerCount.
  now rewrite (count_fold (fun kv => (snd kv).(Player.disconnected))).
Qed.

(** X10.  [getConnectedPlayerCount] and [getDisconnectedPlayerCount] add up
    to the number of players.  With distinct keys, [cleanupInactivePlayers]
    leaves the connected count as it is and lowers the disconnected count by
    exactly the count it returns. *)
Theorem player_counts :
  forall st maxInactiveTime now,
    JsMap.wf st.(PhysicsState.players) ->
    let st' := fst (PhysicsState.cleanupInactivePlayers st maxInactiveTime now) in
    let removed := snd (PhysicsState.cleanupInactivePlayers st maxInactiveTime now) in
    (getConnectedPlayerCount st + getDisconnectedPlayerCount st
     = JsMap.size st.(PhysicsState.players))%nat
    /\ getConnectedPlayerCount st' = getConnectedPlayerCount st
    /\ (getDisconnectedPlayerCount st' + removed = getDisconnectedPlayerCount st)%nat.
Proof.
  intros st maxInactiveTime now Hwf st' removed.
  rewrite !connected_count, !disconnected_count.
  subst st'. rewrite cleanup_players by exact Hwf.
  subst removed. unfold PhysicsState.cleanupInactivePlayers, PhysicsState.playersToRemove.
  cbn [snd]. rewrite length_map.
  set (players := st.(PhysicsState.players)). clearbody players.
  split; [|split].
  - unfold JsMap.size.
    rewrite Nat.add_comm.
    apply (filter_length_split (fun kv : string * Player.t => (snd kv).(Player.disconnected))).
  - induction players as [|kv players IH]; [reflexivity|].
    cbn [filter].
    destruct (PhysicsState.isInactive maxInactiveTime now (snd kv)) eqn:Hin;
      cbn [negb filter].
    + unfold PhysicsState.isInactive in Hin. apply andb_true_iff in Hin.
      destruct Hin as [Hd _]. rewrite Hd. cbn [negb]. exact IH.
    + destruct (snd kv).(Player.disconnected); cbn [negb length]; now rewrite IH.
  - induction players as [|kv players IH]; [reflexivity|].
    cbn [filter].
    destruct (PhysicsState.isInactive maxInactiveTime now (snd kv)) eqn:Hin;
      cbn [negb filter].
    + unfold PhysicsState.isInactive in Hin. apply andb_true_iff in Hin.
      destruct Hin as [Hd _]. rewrite Hd. cbn [length]. lia.
    + destruct (snd kv).(Player.disconnected); cbn [length]; lia.
Qed.

Lemma player_counts_witness :
  (getConnectedPlayerCount SweepSample.st + getDisconnectedPlayerCount SweepSample.st
   = JsMap.size SweepSample.st.(PhysicsState.players))%nat
  /\ getConnectedPlayerCount
       (fst (PhysicsState.cleanupInactivePlayers SweepSample.st 300000 400000))
     = getConnectedPlayerCount SweepSample.st
  /\ (getDisconnectedPlayerCount
        (fst (PhysicsState.cleanupInactivePlayers SweepSample.st 300000 400000))
      + snd (PhysicsState.cleanupInactivePlayers SweepSample.st 300000 400000)
      = getDisconnectedPlayerCount SweepSample.st)%nat.
Proof.
  exact (player_counts SweepSample.st 300000 400000 sweep_sample_wf).
Defined.

(** X11.  [markPlayerConnected] and the sweep, the keys of the map being
    distinct.  A player marked disconnected at time [t] is removed by
    [cleanupInactivePlayers] at [now] exactly when [now - t] exceeds
    [maxInactiveTime]; until then it is kept as it was marked.  Marked
    connected again, it is kept however long it stays idle.  Marking a player
    the store does not hold reports false and changes nothing. *)
Theorem marked_disconnected_is_swept_after_timeout :
  forall st playerId player t t' maxInactiveTime now,
    JsMap.wf st.(PhysicsState.players) ->
    PhysicsState.getPlayer st playerId = Some player ->
    let away := fst (PhysicsState.markPlayerConnected st playerId false t) in
    let back := fst (PhysicsState.markPlayerConnected away playerId true t') in
    let sweep st := fst (PhysicsState.cleanupInactivePlayers st maxInactiveTime now) in
    (maxInactiveTime < now - t ->
     PhysicsState.getPlayer (sweep away) playerId = None)
    /\ (now - t <= maxInactiveTime ->
        PhysicsState.getPlayer (sweep away) playerId
        = Some (Player.mk player.(Player.id) player.(Player.shapes) true t))
    /\ PhysicsState.getPlayer (sweep back) playerId
       = Some (Player.mk player.(Player.id) player.(Player.shapes) false t')
    /\ (forall missing connected,
          PhysicsState.getPlayer st missing = None ->
          PhysicsState.markPlayerConnected st missing connected t = (st, false)).
Proof.
  intros st playerId player t t' maxInactiveTime now Hwf Hget away back sweep.
  unfold PhysicsState.getPlayer in Hget.
  assert (Haway : away.(PhysicsState.players)
                  = JsMap.set st.(PhysicsState.players) playerId
                      (Player.mk player.(Player.id) player.(Player.shapes) true t)).
  { subst away. unfold PhysicsState.markPlayerConnected. now rewrite Hget. }
  assert (Hback : back.(PhysicsState.players)
                  = JsMap.set away.(PhysicsState.players) playerId
                      (Player.mk player.(Player.id) player.(Player.shapes) false t')).
  { subst back. unfold PhysicsState.markPlayerConnected.
    rewrite Haway, get_set_same. reflexivity. }
  assert (Hwfa : JsMap.wf away.(PhysicsState.players)).
  { rewrite Haway. now apply wf_set. }
  assert (Hwfb : JsMap.wf back.(PhysicsState.players)).
  { rewrite Hback. now apply wf_set. }
  assert (Hgeta : JsMap.get away.(PhysicsState.players) playerId
                  = Some (Player.mk player.(Player.id) player.(Player.shapes) true t)).
  { rewrite Haway. apply get_set_same. }
  assert (Hgetb : JsMap.get back.(PhysicsState.players) playerId
                  = Some (Player.mk player.(Player.id) player.(Player.shapes) false t')).
  { rewrite Hback. apply get_set_same. }
  subst sweep. cbv beta. unfold PhysicsState.getPlayer.
  rewrite !cleanup_players by assumption.
  split; [|split; [|split]].
  - intros Hlate.
    apply (get_filter_false
             (fun p => negb (PhysicsState.isInactive maxInactiveTime now p))
             _ playerId _ Hwfa Hgeta).
    unfold PhysicsState.isInactive. cbn [Player.disconnected Player.lastActivity andb].
    apply Z.ltb_lt in Hlate. now rewrite Hlate.
  - intros Hearly.
    apply (get_filter_true
             (fun p => negb (PhysicsState.isInactive maxInactiveTime now p))
             _ playerId _ Hgeta).
    unfold PhysicsState.isInactive. cbn [Player.disconnected Player.lastActivity andb].
    apply Z.ltb_ge in Hearly. now rewrite Hearly.
  - apply (get_filter_true
             (fun p => negb (PhysicsState.isInactive maxInactiveTime now p))
             _ playerId _ Hgetb).
    reflexivity.
  - intros missing connected Hmissing. unfold PhysicsState.markPlayerConnected.
    unfold PhysicsState.getPlayer in Hmissing. now rewrite Hmissing.
Qed.

(** The player of session s2 leaves the connected state at 3500 and is swept
    at 400000. *)
Lemma marked_disconnected_is_swept_after_timeout_witness :
  PhysicsState.getPlayer
    (fst (PhysicsState.cleanupInactivePlayers
            (fst (PhysicsState.markPlayerConnected SweepSample.st "s2" false 3500))
            300000 400000))
    "s2"
  = None.
Proof.
  apply (proj1 (marked_disconnected_is_swept_after_timeout SweepSample.st "s2"
                  (Player.mk "s2"
                     [Shape.mk "s2_3000_333" (7100 # 4) 1750 0 (Vector.mk 0 0) 3000
                        "#112233"]
                     false 3000)
                  3500 5000 300000 400000 sweep_sample_wf eq_refl)).
  reflexivity.
Defined.

(** * Physics actions *)

Lemma find_updateFound (f : Shape.t -> bool) (g : Shape.t -> Shape.t) shapes shape :
  find f shapes = Some shape ->
  f (g shape) = true ->
  find f (updateFound f g shapes) = Some (g shape).
Proof.
  unfold find. induction shapes as [|s shapes IH]; [discriminate|].
  cbn [List.find updateFound]. destruct (f s) eqn:Hs.
  - intros H Hg. injection H as <-. cbn [List.find]. now rewrite Hg.
  - intros H Hg. cbn [List.find]. rewrite Hs. now apply IH.
Qed.

Lemma truthy_nonempty s : s <> "" -> truthy (Some s) = true.
Proof.
  intros Hne. unfold truthy. apply String.eqb_neq in Hne. now rewrite Hne.
Qed.

(** What a handler's in-place change of the shape it found does to the
    sender's player. *)
Lemma accepted_change room playerId player shapeId shape (g : Shape.t -> Shape.t) now :
  find (Shape.hasId shapeId) player.(Player.shapes) = Some shape ->
  (forall s, (g s).(Shape.id) = s.(Shape.id)) ->
  exists player',
    PhysicsState.getPlayer
      (PhysicsRoom.putPlayer room playerId
         (Player.setLastActivity
            (Player.setShapes player
               (updateFound (Shape.hasId shapeId) g player.(Player.shapes)))
            now)).(PhysicsRoom.state) playerId
    = Some player'
    /\ find (Shape.hasId shapeId) player'.(Player.shapes) = Some (g shape)
    /\ map Shape.id player'.(Player.shapes) = map Shape.id player.(Player.shapes)
    /\ player'.(Player.lastActivity) = now.
Proof.
  intros Hfind Hg. eexists. split.
  { unfold PhysicsState.getPlayer. cbn. apply get_set_same. }
  cbn [Player.setLastActivity Player.setShapes Player.shapes Player.lastActivity].
  split; [|split; [now apply updateFound_ids|reflexivity]].
  apply find_updateFound; [exact Hfind|].
  unfold Shape.hasId. rewrite Hg.
  unfold find in Hfind. apply List.find_some in Hfind. exact (proj2 Hfind).
Qed.

(** X12.  A [physics_action] of type "position" with numeric x and y, for a
    shape its sender holds: the shape takes exactly the x and y sent (there is
    no bounds, rate or velocity check), the velocity sent if there is one, and
    the angle sent unless it is missing or 0, in which case the angle stays;
    [lastUpdate] and the player's [lastActivity] are stamped; the player
    holds the same shape ids; and the action is broadcast once, as sent, to
    all but the sender. *)
Theorem position_action_is_applied_as_sent :
  forall room client action now playerId player shapeId shape x y,
    PhysicsRoom.resolve room client = Some playerId ->
    PhysicsState.getPlayer room.(PhysicsRoom.state) playerId = Some player ->
    action.(Action.type) = Some "position" ->
    action.(Action.shapeId) = Some shapeId ->
    shapeId <> "" ->
    action.(Action.x) = Some x ->
    action.(Action.y) = Some y ->
    find (Shape.hasId shapeId) player.(Player.shapes) = Some shape ->
    let result := PhysicsRoom.handlePhysicsAction room client (Some action) now in
    snd result = [physics_action playerId shapeId action now (Some client.(sessionId))]
    /\ exists player',
         PhysicsState.getPlayer (fst result).(PhysicsRoom.state) playerId = Some player'
         /\ find (Shape.hasId shapeId) player'.(Player.shapes)
            = Some (Shape.mk shape.(Shape.id) x y
                      match action.(Action.angle) with
                      | Some a => if Qeq_bool a 0 then shape.(Shape.angle) else a
                      | None => shape.(Shape.angle)
                      end
                      match action.(Action.velocity) with
                      | Some v => v
                      | None => shape.(Shape.velocity)
                      end
                      now shape.(Shape.color))
         /\ map Shape.id player'.(Player.shapes) = map Shape.id player.(Player.shapes)
         /\ player'.(Player.lastActivity) = now.
Proof.
  intros room client action now playerId player shapeId shape x y
         Hres Hget Htype Hid Hne Hx Hy Hfind result.
  subst result. unfold PhysicsRoom.handlePhysicsAction.
  rewrite Htype, Hid, (truthy_nonempty shapeId Hne), Hres, Hget, Hfind, Hx, Hy.
  cbn [truthy String.eqb Ascii.eqb Bool.eqb negb orb fst snd].
  split; [reflexivity|].
  destruct (accepted_change room playerId player shapeId shape
              (fun shape0 =>
                 Shape.setLastUpdate
                   match action.(Action.velocity) with
                   | Some v =>
                       Shape.setVelocity
                         (Shape.setPosition shape0 x y action.(Action.angle) now)
                         v.(Vector.x) v.(Vector.y)
                   | None => Shape.setPosition shape0 x y action.(Action.angle) now
                   end now)
              now Hfind) as [player' [Hget' [Hfind' [Hids Hact]]]].
  { intros s. now destruct action.(Action.velocity). }
  exists player'. split; [exact Hget'|]. split; [|now split].
  rewrite Hfind'. f_equal.
  destruct action.(Action.velocity) as [[vx vy]|]; reflexivity.
Qed.

(** alice sends her shape to (5, 6) with angle 0. *)
Lemma position_action_is_applied_as_sent_witness :
  snd (PhysicsRoom.handlePhysicsAction Sample.room2 Sample.s1
         (Some (Action.mk (Some "position") (Some "alice_2000_500")
                  (Some 5%Q) (Some 6%Q) (Some 0%Q) None))
         4000)
  = [physics_action "alice" "alice_2000_500"
       (Action.mk (Some "position") (Some "alice_2000_500")
          (Some 5%Q) (Some 6%Q) (Some 0%Q) None)
       4000 (Some "s1")].
Proof.
  refine (proj1 (position_action_is_applied_as_sent Sample.room2 Sample.s1
                  (Action.mk (Some "position") (Some "alice_2000_500")
                     (Some 5%Q) (Some 6%Q) (Some 0%Q) None)
                  4000 "alice"
                  (Player.mk "alice"
                     [Shape.mk "alice_2000_500" (2500 # 4) 1750 0 (Vector.mk 0 0) 2000
                        "#aabbcc"] false 2000)
                  "alice_2000_500"
                  (Shape.mk "alice_2000_500" (2500 # 4) 1750 0 (Vector.mk 0 0) 2000
                     "#aabbcc")
                  5%Q 6%Q eq_refl eq_refl eq_refl eq_refl _ eq_refl eq_refl eq_refl)).
  discriminate.
Defined.

(** X13.  A [physics_action] of type "impulse" with a velocity, for a shape
    its sender holds: the shape takes the velocity sent, whatever its size,
    and [lastUpdate] is stamped; its position, angle and colour stay; the
    action is broadcast once, as sent, to all but the sender. *)
Theorem impulse_action_sets_velocity_only :
  forall room client action now playerId player shapeId shape v,
    PhysicsRoom.resolve room client = Some playerId ->
    PhysicsState.getPlayer room.(PhysicsRoom.state) playerId = Some player ->
    action.(Action.type) = Some "impulse" ->
    action.(Action.shapeId) = Some shapeId ->
    shapeId <> "" ->
    action.(Action.velocity) = Some v ->
    find (Shape.hasId shapeId) player.(Player.shapes) = Some shape ->
    let result := PhysicsRoom.handlePhysicsAction room client (Some action) now in
    snd result = [physics_action playerId shapeId action now (Some client.(sessionId))]
    /\ exists player',
         PhysicsState.getPlayer (fst result).(PhysicsRoom.state) playerId = Some player'
         /\ find (Shape.hasId shapeId) player'.(Player.shapes)
            = Some (Shape.mk shape.(Shape.id) shape.(Shape.x) shape.(Shape.y)
                      shape.(Shape.angle) v now shape.(Shape.color))
         /\ map Shape.id player'.(Player.shapes) = map Shape.id player.(Player.shapes)
         /\ player'.(Player.lastActivity) = now.
Proof.
  intros room client action now playerId player shapeId shape v
         Hres Hget Htype Hid Hne Hv Hfind result.
  subst result. unfold PhysicsRoom.handlePhysicsAction.
  rewrite Htype, Hid, (truthy_nonempty shapeId Hne), Hres, Hget, Hfind, Hv.
  cbn [truthy String.eqb Ascii.eqb Bool.eqb negb orb fst snd].
  split; [reflexivity|].
  destruct (accepted_change room playerId player shapeId shape
              (fun shape0 =>
                 Shape.setLastUpdate
                   (Shape.setVelocity shape0 v.(Vector.x) v.(Vector.y)) now)
              now Hfind) as [player' [Hget' [Hfind' [Hids Hact]]]].
  { reflexivity. }
  exists player'. split; [exact Hget'|]. split; [|now split].
  rewrite Hfind'. now destruct v.
Qed.

Lemma impulse_action_sets_velocity_only_witness :
  snd (PhysicsRoom.handlePhysicsAction Sample.room2 Sample.s1
         (Some (Action.mk (Some "impulse") (Some "alice_2000_500")
                  None None None (Some (Vector.mk 1000 (-3)))))
         4000)
  = [physics_action "alice" "alice_2000_500"
       (Action.mk (Some "impulse") (Some "alice_2000_500")
          None None None (Some (Vector.mk 1000 (-3))))
       4000 (Some "s1")].
Proof.
  refine (proj1 (impulse_action_sets_velocity_only Sample.room2 Sample.s1
                   (Action.mk (Some "impulse") (Some "alice_2000_500")
                      None None None (Some (Vector.mk 1000 (-3))))
                   4000 "alice"
                   (Player.mk "alice"
                      [Shape.mk "alice_2000_500" (2500 # 4) 1750 0 (Vector.mk 0 0) 2000
                         "#aabbcc"] false 2000)
                   "alice_2000_500"
                   (Shape.mk "alice_2000_500" (2500 # 4) 1750 0 (Vector.mk 0 0) 2000
                      "#aabbcc")
                   (Vector.mk 1000 (-3)) eq_refl eq_refl eq_refl eq_refl _ eq_refl eq_refl)).
  discriminate.
Defined.

(** X14.  An action that fails a test [handlePhysicsAction] makes on the
    message alone (see [isMalformed]) is dropped whoever sends it and whatever
    shape it names, the sender's own included: the room is as it was and
    nothing is broadcast. *)
Theorem malformed_action_is_dropped :
  forall room client action now,
    isMalformed action = true ->
    PhysicsRoom.handlePhysicsAction room client (Some action) now = (room, []).
Proof.
  intros room client action now Hbad.
  unfold PhysicsRoom.handlePhysicsAction. unfold isMalformed in Hbad.
  destruct action.(Action.type) as [type|]; [|reflexivity].
  destruct action.(Action.shapeId) as [shapeId|]; [|reflexivity].
  destruct (negb (truthy (Some type)) || negb (truthy (Some shapeId))) eqn:Hfalsy;
    [reflexivity|].
  cbn [orb] in Hbad.
  destruct (PhysicsRoom.resolve room client) as [playerId|]; [|reflexivity].
  destruct (PhysicsState.getPlayer _ playerId) as [player|]; [|reflexivity].
  destruct (find _ _).
  2:{ now destruct (PhysicsRoom.belongsToAnotherPlayer _ _ _). }
  destruct (type =? "position")%string.
  - destruct action.(Action.x); [|reflexivity].
    destruct action.(Action.y); [|reflexivity].
    discriminate Hbad.
  - destruct (type =? "impulse")%string; [|reflexivity].
    destruct action.(Action.velocity); [|reflexivity].
    discriminate Hbad.
Qed.

(** alice names her own shape in an action of type "teleport". *)
Lemma malformed_action_is_dropped_witness :
  PhysicsRoom.handlePhysicsAction Sample.room2 Sample.s1
    (Some (Action.mk (Some "teleport") (Some "alice_2000_500")
             (Some 5%Q) (Some 6%Q) None None))
    4000
  = (Sample.room2, []).
Proof.
  apply (malformed_action_is_dropped Sample.room2 Sample.s1 _ 4000).
  reflexivity.
Defined.

(** * Removing and creating shapes, updating them in batches *)

Lemma putPlayer_same room playerId player :
  PhysicsState.getPlayer room.(PhysicsRoom.state) playerId = Some player ->
  PhysicsRoom.putPlayer room playerId player = room.
Proof.
  intros Hget. unfold PhysicsRoom.putPlayer.
  unfold PhysicsState.getPlayer in Hget. rewrite (set_get_same _ _ _ Hget).
  destruct room as [st a b c]. now destruct st.
Qed.

(** X15.  A [remove_shape] request never broadcasts.  Naming a shape its
    sender does not hold, another player's for one, it leaves the room as it
    was.  Naming a shape the sender holds, the ids being distinct, it removes
    exactly that shape, be it the sender's last one, and stamps the sender's
    [lastActivity]. *)
Theorem remove_shape_takes_the_senders_shape_only :
  forall room client shapeId now playerId player,
    PhysicsRoom.resolve room client = Some playerId ->
    PhysicsState.getPlayer room.(PhysicsRoom.state) playerId = Some player ->
    shapeId <> "" ->
    let result := PhysicsRoom.handleRemoveShape room client (Some shapeId) now in
    snd result = []
    /\ (ownsShape player shapeId = false -> fst result = room)
    /\ (ownsShape player shapeId = true ->
        NoDup (map Shape.id player.(Player.shapes)) ->
        PhysicsState.getPlayer (fst result).(PhysicsRoom.state) playerId
        = Some (Player.mk player.(Player.id)
                  (filter (fun s => negb (Shape.hasId shapeId s)) player.(Player.shapes))
                  player.(Player.disconnected) now)).
Proof.
  intros room client shapeId now playerId player Hres Hget Hne result.
  subst result. unfold PhysicsRoom.handleRemoveShape.
  rewrite (truthy_nonempty shapeId Hne), Hres, Hget. cbn [negb fst snd].
  split; [reflexivity|].
  unfold ownsShape, Player.removeShape. rewrite findIndex_existsb.
  destruct (findIndex (Shape.hasId shapeId) player.(Player.shapes)) as [index|] eqn:Hfind;
    cbn [isDefined fst].
  - split; [discriminate|]. intros _ Hnd.
    destruct (splice1_findIndex shapeId _ index Hnd Hfind) as [-> _].
    unfold PhysicsState.getPlayer. cbn. apply get_set_same.
  - split; [|discriminate]. intros _. now apply putPlayer_same.
Qed.

(** alice asks for the removal of the shape of the player of session s2. *)
Lemma remove_shape_takes_the_senders_shape_only_witness :
  fst (PhysicsRoom.handleRemoveShape Sample.room2 Sample.s1 (Some "s2_3000_333") 4000)
  = Sample.room2.
Proof.
  refine (proj1 (proj2 (remove_shape_takes_the_senders_shape_only Sample.room2 Sample.s1
                          "s2_3000_333" 4000 "alice"
                          (Player.mk "alice"
                             [Shape.mk "alice_2000_500" (2500 # 4) 1750 0 (Vector.mk 0 0)
                                2000 "#aabbcc"] false 2000)
                          eq_refl eq_refl _)) eq_refl).
  discriminate.
Defined.

(** X16.  A [shape_update] batch, whatever it holds, never broadcasts and
    never adds, removes, renames or reorders a shape: the sender's shapes are
    the ones the entries before the first [null] or [undefined] entry leave,
    applied in order, under the same ids.  [lastActivity] is stamped when no
    entry is [null] or [undefined]; when one is, the handler throws there and
    [lastActivity] stays as it was. *)
Theorem shape_update_keeps_the_shape_set :
  forall room client batch now playerId player,
    PhysicsRoom.resolve room client = Some playerId ->
    PhysicsState.getPlayer room.(PhysicsRoom.state) playerId = Some player ->
    let result := PhysicsRoom.handleShapeUpdate room client (Some batch) now in
    snd result = []
    /\ exists player',
         PhysicsState.getPlayer (fst result).(PhysicsRoom.state) playerId = Some player'
         /\ player'.(Player.shapes)
            = fold_left (PhysicsRoom.applyShapeData room.(PhysicsRoom.state) now)
                (beforeNull batch) player.(Player.shapes)
         /\ map Shape.id player'.(Player.shapes) = map Shape.id player.(Player.shapes)
         /\ player'.(Player.lastActivity)
            = (if hasNull batch then player.(Player.lastActivity) else now)
         /\ player'.(Player.disconnected) = player.(Player.disconnected).
Proof.
  intros room client batch now playerId player Hres Hget result.
  subst result. unfold PhysicsRoom.handleShapeUpdate.
  rewrite Hres, Hget, forEachShapeData_spec.
  cbn [fst snd]. split; [reflexivity|].
  eexists. split.
  { unfold PhysicsState.getPlayer. cbn. apply get_set_same. }
  destruct (hasNull batch);
    cbn [Player.setLastActivity Player.setShapes Player.shapes Player.lastActivity
         Player.disconnected];
    (split; [reflexivity|]); (split; [apply fold_applyShapeData_ids|now split]).
Qed.

(** alice reports her shape at (-150, 900), then a [null] entry, then her
    shape at (10, 20): the first entry is applied, the handler throws at the
    second, the third is not visited and [lastActivity] stays at 2000. *)
Lemma shape_update_keeps_the_shape_set_witness :
  let result :=
    PhysicsRoom.handleShapeUpdate Sample.room2 Sample.s1
      (Some NullEntrySample.batch) 4000 in
  snd result = []
  /\ exists player',
       PhysicsState.getPlayer (fst result).(PhysicsRoom.state) "alice" = Some player'
       /\ player'.(Player.shapes)
          = [Shape.mk "alice_2000_500" (-150) 900 0 (Vector.mk (-30) 0) 4000 "#aabbcc"]
       /\ player'.(Player.lastActivity) = 2000.
Proof.
  cbv zeta.
  destruct (shape_update_keeps_the_shape_set Sample.room2 Sample.s1
              NullEntrySample.batch 4000 "alice"
              (Player.mk "alice"
                 [Shape.mk "alice_2000_500" (2500 # 4) 1750 0 (Vector.mk 0 0) 2000
                    "#aabbcc"] false 2000)
              eq_refl eq_refl) as [Hnone [player' [Hget [Hshapes [_ [Hstamp _]]]]]].
  split; [exact Hnone|].
  exists player'. split; [exact Hget|].
  split; [rewrite Hshapes|rewrite Hstamp]; reflexivity.
Defined.

(** X17.  One well-formed entry of a [shape_update] for a shape the sender
    holds, its position within the arena widened by 200 units: the shape
    takes the x, y and velocity reported, whatever the distance moved and the
    speed, and the angle reported unless that is 0, in which case the angle
    stays; [lastUpdate] is stamped. *)
Theorem shape_update_entry_is_applied :
  forall st now shapes shape id x y angle v,
    id <> "" ->
    find (Shape.hasId id) shapes = Some shape ->
    PhysicsRoom.isWithinBounds st x y = true ->
    let shapes' :=
      PhysicsRoom.applyShapeData st now shapes
        (ShapeData.mk (Some id) (Some x) (Some y) (Some angle) (Some v)) in
    find (Shape.hasId id) shapes'
    = Some (Shape.mk shape.(Shape.id) x y
              (if Qeq_bool angle 0 then shape.(Shape.angle) else angle)
              v now shape.(Shape.color))
    /\ map Shape.id shapes' = map Shape.id shapes.
Proof.
  intros st now shapes shape id x y angle v Hne Hfind Hin shapes'.
  split; [|apply applyShapeData_ids].
  subst shapes'. unfold PhysicsRoom.applyShapeData, PhysicsRoom.validateShapeData.
  cbn [ShapeData.id ShapeData.x ShapeData.y ShapeData.angle ShapeData.velocity isDefined].
  rewrite (truthy_nonempty id Hne). cbn [andb negb]. rewrite Hfind, Hin.
  rewrite (find_updateFound _ _ shapes shape Hfind).
  - now destruct v.
  - unfold Shape.hasId. cbn [Shape.setLastUpdate Shape.setVelocity Shape.setPosition Shape.id].
    unfold find in Hfind. apply List.find_some in Hfind. exact (proj2 Hfind).
Qed.

Lemma shape_update_entry_is_applied_witness :
  find (Shape.hasId "alice_2000_500")
    (PhysicsRoom.applyShapeData Sample.room1.(PhysicsRoom.state) 3000
       [Shape.mk "alice_2000_500" (2500 # 4) 1750 0 (Vector.mk 0 0) 2000 "#aabbcc"]
       (ShapeData.mk (Some "alice_2000_500") (Some (-150)%Q) (Some 900%Q) (Some 0%Q)
          (Some (Vector.mk (-30) 0))))
  = Some BoundarySample.shape.
Proof.
  refine (proj1 (shape_update_entry_is_applied Sample.room1.(PhysicsRoom.state) 3000
                   [Shape.mk "alice_2000_500" (2500 # 4) 1750 0 (Vector.mk 0 0) 2000
                      "#aabbcc"]
                   (Shape.mk "alice_2000_500" (2500 # 4) 1750 0 (Vector.mk 0 0) 2000
                      "#aabbcc")
                   "alice_2000_500" (-150)%Q 900%Q 0%Q (Vector.mk (-30) 0)
                   _ eq_refl eq_refl)).
  discriminate.
Defined.

Lemma truthy_freshShapeId playerId now r :
  truthy (Some (PhysicsState.freshShapeId playerId now r)) = true.
Proof.
  unfold PhysicsState.freshShapeId, truthy. now destruct playerId.
Qed.

(** X18.  A [create_shape] request of a player that holds no shape creates
    exactly one, named after the player, the time and the draw, in the spawn
    band at the lower edge, at rest; nothing is broadcast. *)
Theorem create_shape_from_no_shape :
  forall room client now rUnique rX color playerId player,
    PhysicsRoom.resolve room client = Some playerId ->
    PhysicsState.getPlayer room.(PhysicsRoom.state) playerId = Some player ->
    player.(Player.shapes) = [] ->
    let result := PhysicsRoom.handleCreateShape room client now rUnique rX color in
    snd result = []
    /\ PhysicsState.getPlayer (fst result).(PhysicsRoom.state) playerId
       = Some (Player.mk player.(Player.id)
                 [Shape.mk (PhysicsState.freshShapeId playerId now rUnique)
                    (rX * (room.(PhysicsRoom.state).(PhysicsState.boundaryWidth) - 100) + 50)
                    (room.(PhysicsRoom.state).(PhysicsState.boundaryHeight) - 50)
                    0 (Vector.mk 0 0) now color]
                 player.(Player.disconnected) now).
Proof.
  intros room client now rUnique rX color playerId player Hres Hget Hempty result.
  subst result. unfold PhysicsRoom.handleCreateShape. rewrite Hres, Hget, Hempty.
  cbn [length Nat.ltb Nat.leb fst snd]. split; [reflexivity|].
  unfold PhysicsState.createShapeForPlayer.
  unfold PhysicsState.getPlayer in Hget. rewrite Hget, truthy_freshShapeId.
  unfold PhysicsState.getPlayer. cbn [fst PhysicsRoom.setState PhysicsRoom.state
                                      PhysicsState.setPlayers PhysicsState.players].
  rewrite get_set_same. unfold Player.addShape. now rewrite Hempty.
Qed.

(** alice, having removed her only shape, asks for a new one. *)
Lemma create_shape_from_no_shape_witness :
  option_map (fun p => map Shape.id p.(Player.shapes))
    (PhysicsState.getPlayer
       (fst (PhysicsRoom.handleCreateShape EmptySample.room Sample.s1 5000
               (1 # 2) (1 # 4) "#aabbcc")).(PhysicsRoom.state) "alice")
  = Some ["alice_5000_500"].
Proof.
  rewrite (proj2 (create_shape_from_no_shape EmptySample.room Sample.s1 5000
                    (1 # 2) (1 # 4) "#aabbcc" "alice" EmptySample.alice
                    eq_refl eq_refl eq_refl)).
  reflexivity.
Defined.

(** * Joining and leaving *)

Lemma onJoin_sessions room client options now rId rX color :
  (PhysicsRoom.onJoin room client options now rId rX color).(PhysicsRoom.sessionIdToPlayerId)
  = JsMap.set room.(PhysicsRoom.sessionIdToPlayerId) client.(sessionId)
      (joinIdentity client options).
Proof.
  unfold PhysicsRoom.onJoin, joinIdentity.
  set (room0 := PhysicsRoom.setLastActivityTime room now).
  set (provided := truthy options.(playerId)).
  set (identity := match options.(playerId) with
                   | Some p => if provided then p else client.(sessionId)
                   | None => client.(sessionId)
                   end).
  destruct (if provided then PhysicsState.getPlayer room0.(PhysicsRoom.state) identity
            else None) as [existing|].
  - set (room1 := PhysicsRoom.bind _ identity client.(sessionId)).
    destruct (PhysicsState.getPlayer room1.(PhysicsRoom.state) identity) as [p|];
      [|reflexivity].
    destruct (length p.(Player.shapes) =? 0)%nat; [reflexivity|].
    destruct (1 <? length p.(Player.shapes))%nat; reflexivity.
  - destruct (PhysicsState.createPlayer room0.(PhysicsRoom.state) identity now)
      as [st player].
    destruct (length player.(Player.shapes) =? 0)%nat; reflexivity.
Qed.

Lemma createShape_length room playerId player customShapeId now rId rX color :
  PhysicsState.getPlayer room.(PhysicsRoom.state) playerId = Some player ->
  exists player',
    PhysicsState.getPlayer
      (PhysicsRoom.setState room
         (fst (PhysicsState.createShapeForPlayer room.(PhysicsRoom.state) playerId
                 customShapeId now rId rX color))).(PhysicsRoom.state) playerId
    = Some player'
    /\ (length player'.(Player.shapes) = length player.(Player.shapes) + 1)%nat.
Proof.
  intros Hget. unfold PhysicsState.createShapeForPlayer.
  unfold PhysicsState.getPlayer in Hget. rewrite Hget.
  eexists. split.
  { unfold PhysicsState.getPlayer. cbn. apply get_set_same. }
  unfold Player.addShape. cbn [Player.shapes]. now rewrite length_app.
Qed.

(** After a join on a room that keeps the invariant, the identity used is
    stored with at least one shape. *)
Lemma onJoin_has_shape room client options now rId rX color :
  roomInvariant room ->
  exists player,
    PhysicsState.getPlayer
      (PhysicsRoom.onJoin room client options now rId rX color).(PhysicsRoom.state)
      (joinIdentity client options)
    = Some player
    /\ (1 <= length player.(Player.shapes))%nat.
Proof.
  intros Hinv. unfold PhysicsRoom.onJoin, joinIdentity.
  set (room0 := PhysicsRoom.setLastActivityTime room now).
  assert (Hinv0 : roomInvariant room0) by exact Hinv.
  clearbody room0. clear Hinv room.
  set (provided := truthy options.(playerId)).
  set (identity := match options.(playerId) with
                   | Some p => if provided then p else client.(sessionId)
                   | None => client.(sessionId)
                   end).
  clearbody provided identity.
  destruct (if provided then PhysicsState.getPlayer room0.(PhysicsRoom.state) identity
            else None) as [existing|] eqn:Hexisting.
  - assert (Hget : PhysicsState.getPlayer room0.(PhysicsRoom.state) identity = Some existing).
    { destruct provided; [exact Hexisting|discriminate]. }
    unfold PhysicsState.markPlayerConnected.
    unfold PhysicsState.getPlayer in Hget. rewrite Hget. cbn [fst].
    set (marked := Player.setConnectionStatus existing true now).
    set (room1 := PhysicsRoom.bind _ identity client.(sessionId)).
    assert (Hget1 : PhysicsState.getPlayer room1.(PhysicsRoom.state) identity = Some marked).
    { unfold PhysicsState.getPlayer. cbn. apply get_set_same. }
    rewrite Hget1.
    destruct (length marked.(Player.shapes) =? 0)%nat eqn:Hzero.
    + destruct (createShape_length room1 identity marked None now rId rX color Hget1)
        as [player' [Hget' Hlen]].
      exists player'. split; [exact Hget'|lia].
    + destruct (roomInvariant_player room0 identity existing Hinv0 Hget) as [_ [Hlen _]].
      cbn [snd] in Hlen.
      destruct (Nat.ltb_spec 1 (length marked.(Player.shapes))) as [Hmany|_];
        [cbn in Hmany; lia|].
      exists marked. split; [exact Hget1|].
      apply Nat.eqb_neq in Hzero. lia.
  - unfold PhysicsState.createPlayer.
    destruct (JsMap.get room0.(PhysicsRoom.state).(PhysicsState.players) identity)
      as [player|] eqn:Hget.
    + set (room1 := PhysicsRoom.bind _ identity client.(sessionId)).
      assert (Hget1 : PhysicsState.getPlayer room1.(PhysicsRoom.state) identity = Some player).
      { unfold PhysicsState.getPlayer. cbn. exact Hget. }
      destruct (length player.(Player.shapes) =? 0)%nat eqn:Hzero.
      * destruct (createShape_length room1 identity player None now rId rX color Hget1)
          as [player' [Hget' Hlen]].
        exists player'. split; [exact Hget'|lia].
      * exists player. split; [exact Hget1|]. apply Nat.eqb_neq in Hzero. lia.
    + set (room1 := PhysicsRoom.bind _ identity client.(sessionId)).
      assert (Hget1 : PhysicsState.getPlayer room1.(PhysicsRoom.state) identity
                      = Some (Player.new identity now)).
      { unfold PhysicsState.getPlayer. cbn. apply get_set_same. }
      cbn [Player.new Player.shapes length Nat.eqb].
      destruct (createShape_length room1 identity _ None now rId rX color Hget1)
        as [player' [Hget' Hlen]].
      exists player'. split; [exact Hget'|lia].
Qed.

(** X19.  A join on a reachable room, the identity it uses not being the
    empty string: afterwards the client's session resolves to that identity,
    and the store holds the player under it, with its own id, connected, with
    exactly one shape. *)
Theorem join_gives_the_client_one_shape :
  forall room client options now rId rX color,
    reachable room ->
    joinIdentity client options <> "" ->
    let room' := PhysicsRoom.onJoin room client options now rId rX color in
    PhysicsRoom.resolve room' client = Some (joinIdentity client options)
    /\ exists player,
         PhysicsState.getPlayer room'.(PhysicsRoom.state) (joinIdentity client options)
         = Some player
         /\ length player.(Player.shapes) = 1%nat
         /\ player.(Player.id) = joinIdentity client options
         /\ player.(Player.disconnected) = false.
Proof.
  intros room client options now rId rX color Hreach Hne room'.
  pose proof (reachable_roomInvariant room Hreach) as Hinv.
  split.
  - unfold PhysicsRoom.resolve. subst room'.
    rewrite onJoin_sessions, get_set_same. now rewrite (truthy_nonempty _ Hne).
  - destruct (onJoin_has_shape room client options now rId rX color Hinv)
      as [player [Hget Hlen]].
    exists player. split; [exact Hget|].
    pose proof (roomInvariant_onJoin room client options now rId rX color Hinv) as Hinv'.
    destruct (roomInvariant_player _ _ player Hinv' Hget) as [Hid [Hle [_ Hconn]]].
    cbn [fst snd] in Hid, Hle, Hconn. repeat split; try assumption. lia.
Qed.

(** A third client joins the room of alice and of session s2. *)
Lemma join_gives_the_client_one_shape_witness :
  PhysicsRoom.resolve
    (PhysicsRoom.onJoin Sample.room2 Sample.s3 {| playerId := Some "carol" |}
       4000 (1 # 2) (1 # 2) "#000000") Sample.s3
  = Some "carol".
Proof.
  refine (proj1 (join_gives_the_client_one_shape Sample.room2 Sample.s3
                   {| playerId := Some "carol" |} 4000 (1 # 2) (1 # 2) "#000000"
                   sample_room2_reachable _)).
  discriminate.
Defined.

(** X20.  A leave, the session map having distinct keys: afterwards the
    client's session resolves to no player, so a second leave of the same
    client broadcasts nothing and only stamps the room's [lastActivityTime]. *)
Theorem leave_unbinds_the_session :
  forall room client consented now playerId,
    JsMap.wf room.(PhysicsRoom.sessionIdToPlayerId) ->
    PhysicsRoom.resolve room client = Some playerId ->
    let left := fst (PhysicsRoom.onLeave room client consented now) in
    PhysicsRoom.resolve left client = None
    /\ (forall consented' now',
          PhysicsRoom.onLeave left client consented' now'
          = (PhysicsRoom.setLastActivityTime left now', [])).
Proof.
  intros room client consented now playerId Hwf Hres left.
  assert (Hnone : PhysicsRoom.resolve left client = None).
  { subst left. unfold PhysicsRoom.onLeave.
    change (PhysicsRoom.resolve (PhysicsRoom.setLastActivityTime room now) client)
      with (PhysicsRoom.resolve room client).
    rewrite Hres. cbn [fst]. unfold PhysicsRoom.resolve.
    cbn [PhysicsRoom.unbind PhysicsRoom.sessionIdToPlayerId].
    assert (Hmap : (match PhysicsState.getPlayer
                            (PhysicsRoom.setLastActivityTime room now).(PhysicsRoom.state)
                            playerId with
                    | Some player =>
                        PhysicsRoom.setState
                          (PhysicsRoom.putPlayer (PhysicsRoom.setLastActivityTime room now)
                             playerId
                             (PhysicsRoom.removeAllShapes (length player.(Player.shapes))
                                player now))
                          (fst (PhysicsState.removePlayer
                                  (PhysicsRoom.putPlayer
                                     (PhysicsRoom.setLastActivityTime room now) playerId
                                     (PhysicsRoom.removeAllShapes
                                        (length player.(Player.shapes)) player now)).(PhysicsRoom.state)
                                  playerId))
                    | None => PhysicsRoom.setLastActivityTime room now
                    end).(PhysicsRoom.sessionIdToPlayerId)
                   = room.(PhysicsRoom.sessionIdToPlayerId)).
    { now destruct (PhysicsState.getPlayer _ playerId). }
    rewrite Hmap. now rewrite get_delete_same. }
  split; [exact Hnone|].
  intros consented' now'. unfold PhysicsRoom.onLeave at 1.
  change (PhysicsRoom.resolve (PhysicsRoom.setLastActivityTime left now') client)
    with (PhysicsRoom.resolve left client).
  now rewrite Hnone.
Qed.

Lemma leave_unbinds_the_session_witness :
  PhysicsRoom.resolve (fst (PhysicsRoom.onLeave Sample.room2 Sample.s1 false 5000)) Sample.s1
  = None.
Proof.
  refine (proj1 (leave_unbinds_the_session Sample.room2 Sample.s1 false 5000 "alice"
                   _ eq_refl)).
  unfold JsMap.wf. change (NoDup ["s1"; "s2"]).
  repeat constructor; simpl; intuition discriminate.
Defined.

(** ** The loop that removes the extra shapes of a reconnecting player *)

Section ExtrasLoop.
Local Open Scope list_scope.

Lemma evens_cons {A} (a : A) (l : list A) : evens (a :: l) = a :: odds l.
Proof. now destruct l. Qed.

Lemma nth_error_middle {A} (pre : list A) a rest :
  nth_error (pre ++ a :: rest) (length pre) = Some a.
Proof. induction pre as [|x pre IH]; [reflexivity|exact IH]. Qed.

Lemma nth_error_past {A} (l : list A) : nth_error l (S (length l)) = None.
Proof. apply nth_error_None. lia. Qed.

Lemma findIndex_middle (f : Shape.t -> bool) pre a rest :
  existsb f pre = false -> f a = true ->
  findIndex f (pre ++ a :: rest) = Some (length pre).
Proof.
  intros Hpre Ha. induction pre as [|x pre IH]; cbn [app findIndex length].
  - now rewrite Ha.
  - cbn [existsb] in Hpre. apply orb_false_iff in Hpre. destruct Hpre as [Hx Hpre].
    rewrite Hx, (IH Hpre). reflexivity.
Qed.

Lemma splice1_middle {A} (pre : list A) a rest :
  splice1 (length pre) (pre ++ a :: rest) = pre ++ rest.
Proof.
  induction pre as [|x pre IH]; [reflexivity|].
  cbn [app length splice1]. now rewrite IH.
Qed.

Lemma removeExtras_shapes now : forall fuel pre rest player,
  player.(Player.shapes) = pre ++ rest ->
  NoDup (map Shape.id (pre ++ rest)) ->
  (length rest <= 2 * fuel)%nat ->
  (PhysicsRoom.removeExtras fuel (length pre) player now).(Player.shapes)
  = pre ++ odds rest.
Proof.
  induction fuel as [|fuel IH]; intros pre rest player Hshapes Hnd Hlen.
  - destruct rest; [|cbn in Hlen; lia]. exact Hshapes.
  - cbn [PhysicsRoom.removeExtras]. rewrite Hshapes.
    destruct rest as [|a rest].
    + rewrite app_nil_r. rewrite (proj2 (nth_error_None pre (length pre))) by lia.
      rewrite Hshapes. reflexivity.
    + rewrite nth_error_middle.
      assert (Hpre : existsb (Shape.hasId a.(Shape.id)) pre = false).
      { apply hasId_not_in. rewrite map_app in Hnd. cbn [map] in Hnd.
        apply NoDup_remove_2 in Hnd. intros Hin. apply Hnd.
        apply in_or_app. now left. }
      unfold Player.removeShape. rewrite Hshapes.
      rewrite (findIndex_middle _ pre a rest Hpre)
        by (unfold Shape.hasId; apply String.eqb_refl).
      cbn [fst]. rewrite splice1_middle.
      assert (Hnd' : NoDup (map Shape.id (pre ++ rest))).
      { rewrite map_app in Hnd |- *. cbn [map] in Hnd. now apply NoDup_remove_1 in Hnd. }
      destruct rest as [|b rest].
      * change (odds [a]) with (@nil Shape.t). rewrite !app_nil_r.
        destruct fuel as [|fuel]; cbn [PhysicsRoom.removeExtras Player.shapes];
          [reflexivity|].
        now rewrite nth_error_past.
      * replace (S (length pre)) with (length (pre ++ [b])) by (rewrite length_app; cbn; lia).
        rewrite (IH (pre ++ [b]) rest).
        -- unfold odds. cbn [tl]. rewrite evens_cons. now rewrite <- app_assoc.
        -- cbn [Player.shapes]. now rewrite <- app_assoc.
        -- now rewrite <- app_assoc.
        -- cbn [length] in Hlen. lia.
Qed.

(** X21.  The loop [onJoin] runs on a reconnecting player with more than one
    shape, meant to keep only the first: it removes the shape at index 1,
    steps to index 2 of the array that has just shrunk, and so on.  With
    distinct ids it keeps the shapes that stood at the even indices: 2 of 3,
    3 of 5. *)
Theorem removeExtras_keeps_every_other_shape :
  forall player now,
    NoDup (map Shape.id player.(Player.shapes)) ->
    (PhysicsRoom.removeExtras (length player.(Player.shapes)) 1 player now).(Player.shapes)
    = evens player.(Player.shapes).
Proof.
  intros player now Hnd.
  destruct player.(Player.shapes) as [|first rest] eqn:Hshapes; [exact Hshapes|].
  rewrite evens_cons.
  apply (removeExtras_shapes now (length (first :: rest)) [first] rest player Hshapes Hnd).
  cbn [length]. lia.
Qed.

(** Of five shapes the first, third and fifth are kept. *)
Lemma removeExtras_keeps_every_other_shape_witness :
  map Shape.id
    (PhysicsRoom.removeExtras 5 1 CapSample.alice 9000).(Player.shapes)
  = ["alice_2000_1"; "alice_2000_3"; "alice_2000_5"].
Proof.
  change 5%nat with (length CapSample.alice.(Player.shapes)).
  rewrite (removeExtras_keeps_every_other_shape CapSample.alice 9000).
  - reflexivity.
  - change (NoDup ["alice_2000_1"; "alice_2000_2"; "alice_2000_3"; "alice_2000_4";
                   "alice_2000_5"]).
    repeat constructor; simpl; intuition discriminate.
Defined.
End ExtrasLoop.

(** * The boundary check, run again *)

Section TickStability.
Local Open Scope list_scope.

Lemma resetShapes_idle bw bh now random playerId shapes : forall k,
  filter (PhysicsRoom.isOutOfBounds bw bh) shapes = [] ->
  PhysicsRoom.resetShapes bw bh now random playerId shapes k = (shapes, [], k).
Proof.
  induction shapes as [|s shapes IH]; intros k Hnone; [reflexivity|].
  cbn [filter] in Hnone. cbn [PhysicsRoom.resetShapes].
  destruct (PhysicsRoom.isOutOfBounds bw bh s); [discriminate|].
  now rewrite (IH k Hnone).
Qed.

Lemma resetPlayers_idle bw bh now random players : forall k,
  flat_map
    (fun kv => map (fun s => (fst kv, s.(Shape.id)))
                 (filter (PhysicsRoom.isOutOfBounds bw bh) (snd kv).(Player.shapes)))
    players = [] ->
  PhysicsRoom.resetPlayers bw bh now random players k = (players, [], k).
Proof.
  induction players as [|[key p] players IH]; intros k Hnone; [reflexivity|].
  cbn [flat_map fst snd] in Hnone. apply app_eq_nil in Hnone.
  destruct Hnone as [Hhead Htail]. apply map_eq_nil in Hhead.
  cbn [PhysicsRoom.resetPlayers].
  rewrite (resetShapes_idle bw bh now random key _ k Hhead), (IH k Htail).
  now destruct p.
Qed.

Lemma reset_shape_in_bounds now r playerId shape :
  (0 <= r < 1)%Q ->
  PhysicsRoom.isOutOfBounds 2400 1800
    (fst (PhysicsRoom.resetShape 2400 1800 now r playerId shape)) = false.
Proof.
  intros [H0 H1]. unfold PhysicsRoom.isOutOfBounds, PhysicsRoom.resetShape, Qltb.
  cbn [fst Shape.setVelocity Shape.setPosition Shape.x Shape.y].
  assert (Hx1 : Qle_bool (- (100)) (r * (2400 - 200) + 100) = true)
    by (apply Qle_bool_iff; Lqa.lra).
  assert (Hx2 : Qle_bool (r * (2400 - 200) + 100) (2400 + 100) = true)
    by (apply Qle_bool_iff; Lqa.lra).
  rewrite Hx1, Hx2. reflexivity.
Qed.

Lemma resetShapes_in_bounds now random playerId shapes : forall k,
  (forall j, (0 <= random j < 1)%Q) ->
  filter (PhysicsRoom.isOutOfBounds 2400 1800)
    (fst (fst (PhysicsRoom.resetShapes 2400 1800 now random playerId shapes k))) = [].
Proof.
  induction shapes as [|s shapes IH]; intros k Hrandom; [reflexivity|].
  cbn [PhysicsRoom.resetShapes].
  destruct (PhysicsRoom.isOutOfBounds 2400 1800 s) eqn:Hs.
  - specialize (IH (S k) Hrandom).
    pose proof (reset_shape_in_bounds now (random k) playerId s (Hrandom k)) as Hin.
    destruct (PhysicsRoom.resetShape 2400 1800 now (random k) playerId s) as [s' b].
    destruct (PhysicsRoom.resetShapes 2400 1800 now random playerId shapes (S k))
      as [[rest' bs] k'].
    cbn [fst] in IH, Hin |- *. cbn [filter]. now rewrite Hin.
  - specialize (IH k Hrandom).
    destruct (PhysicsRoom.resetShapes 2400 1800 now random playerId shapes k)
      as [[rest' bs] k'].
    cbn [fst] in IH |- *. cbn [filter]. now rewrite Hs.
Qed.

Lemma resetPlayers_in_bounds now random players : forall k,
  (forall j, (0 <= random j < 1)%Q) ->
  flat_map
    (fun kv => map (fun s => (fst kv, s.(Shape.id)))
                 (filter (PhysicsRoom.isOutOfBounds 2400 1800) (snd kv).(Player.shapes)))
    (fst (fst (PhysicsRoom.resetPlayers 2400 1800 now random players k))) = [].
Proof.
  induction players as [|[key p] players IH]; intros k Hrandom; [reflexivity|].
  cbn [PhysicsRoom.resetPlayers].
  pose proof (resetShapes_in_bounds now random key p.(Player.shapes) k Hrandom) as Hin.
  destruct (PhysicsRoom.resetShapes 2400 1800 now random key p.(Player.shapes) k)
    as [[shapes' bs] k'].
  specialize (IH k' Hrandom).
  destruct (PhysicsRoom.resetPlayers 2400 1800 now random players k')
    as [[rest' bs'] k''].
  cbn [fst] in IH, Hin |- *.
  cbn [flat_map fst snd Player.setShapes Player.shapes]. now rewrite Hin, IH.
Qed.

Lemma idle_check room now random :
  outOfBoundsTargets room.(PhysicsRoom.state) = [] ->
  PhysicsRoom.checkAndResetOutOfBoundsShapes room now random = (room, []).
Proof.
  intros Hnone. unfold PhysicsRoom.checkAndResetOutOfBoundsShapes.
  unfold outOfBoundsTargets in Hnone.
  rewrite (resetPlayers_idle _ _ now random _ 0 Hnone).
  destruct room as [st a b c]. now destruct st.
Qed.

(** X22.  [checkAndResetOutOfBoundsShapes] on a room with no shape out of
    bounds changes nothing and broadcasts nothing.  In the 2400 x 1800 arena,
    the draws being in [0, 1), no shape is out of bounds after one run, so a
    second run right after changes nothing and broadcasts nothing. *)
Theorem boundary_check_is_stable :
  (forall room now random,
      outOfBoundsTargets room.(PhysicsRoom.state) = [] ->
      PhysicsRoom.checkAndResetOutOfBoundsShapes room now random = (room, []))
  /\
  (forall room now random now' random',
      room.(PhysicsRoom.state).(PhysicsState.boundaryWidth) = 2400%Q ->
      room.(PhysicsRoom.state).(PhysicsState.boundaryHeight) = 1800%Q ->
      (forall k, (0 <= random k < 1)%Q) ->
      let checked := fst (PhysicsRoom.checkAndResetOutOfBoundsShapes room now random) in
      outOfBoundsTargets checked.(PhysicsRoom.state) = []
      /\ PhysicsRoom.checkAndResetOutOfBoundsShapes checked now' random' = (checked, [])).
Proof.
  split; [exact idle_check|].
  intros room now random now' random' Hw Hh Hrandom checked.
  assert (Hnone : outOfBoundsTargets checked.(PhysicsRoom.state) = []).
  { subst checked. unfold PhysicsRoom.checkAndResetOutOfBoundsShapes. rewrite Hw, Hh.
    pose proof (resetPlayers_in_bounds now random
                  room.(PhysicsRoom.state).(PhysicsState.players) 0 Hrandom) as Hin.
    destruct (PhysicsRoom.resetPlayers 2400 1800 now random _ 0) as [[players' bs] k].
    cbn [fst] in Hin |- *. unfold outOfBoundsTargets.
    cbn [PhysicsRoom.setState PhysicsRoom.state PhysicsState.setPlayers
         PhysicsState.players PhysicsState.boundaryWidth PhysicsState.boundaryHeight].
    rewrite Hw, Hh. exact Hin. }
  split; [exact Hnone|now apply idle_check].
Qed.

(** alice's shape at x = -150 is put back by the first run. *)
Lemma boundary_check_is_stable_witness :
  let checked :=
    fst (PhysicsRoom.checkAndResetOutOfBoundsShapes BoundarySample.room 4000
           (fun _ => 1 # 2)) in
  outOfBoundsTargets BoundarySample.room.(PhysicsRoom.state)
  = [("alice", "alice_2000_500")]
  /\ PhysicsRoom.checkAndResetOutOfBoundsShapes checked 5000 (fun _ => 99 # 100)
     = (checked, []).
Proof.
  split; [reflexivity|].
  apply (proj2 boundary_check_is_stable BoundarySample.room 4000 (fun _ => 1 # 2)
           5000 (fun _ => 99 # 100)).
  - reflexivity.
  - reflexivity.
  - intros k. split; [discriminate|reflexivity].
Defined.
End TickStability.

(** * More on the state validator *)

Section ValidatorMore.
Import StateValidator.
Local Open Scope R_scope.
Local Open Scope list_scope.

Lemma validateShape_id_angle prevShapes dt shape :
  (validateShape prevShapes dt shape).(ClientShape.id) = shape.(ClientShape.id)
  /\ (validateShape prevShapes dt shape).(ClientShape.angle) = shape.(ClientShape.angle).
Proof.
  unfold validateShape. destruct (findPrev prevShapes shape); [|now split].
  cbv zeta. now destruct (Rgt_dec _ _).
Qed.

(** X23.  [validateUpdate] returns one shape for each shape of the batch, in
    the order of the batch, with its id and angle as submitted; it stores
    what it returns as the player's state and [now] as the player's last
    update time; the stored state and time of every other player are as
    before. *)
Theorem validateUpdate_keeps_the_batch :
  forall v playerId shapes now,
    let result := validateUpdate v playerId shapes now in
    map ClientShape.id (snd result) = map ClientShape.id shapes
    /\ map ClientShape.angle (snd result) = map ClientShape.angle shapes
    /\ JsMap.get (fst result).(playerStates) playerId = Some (snd result)
    /\ JsMap.get (fst result).(lastUpdateTime) playerId = Some now
    /\ (forall other,
          other <> playerId ->
          JsMap.get (fst result).(playerStates) other = JsMap.get v.(playerStates) other
          /\ JsMap.get (fst result).(lastUpdateTime) other
             = JsMap.get v.(lastUpdateTime) other).
Proof.
  intros v playerId shapes now result. subst result. unfold validateUpdate.
  cbn [fst snd playerStates lastUpdateTime].
  rewrite !map_map.
  split; [apply map_ext; intros s; apply validateShape_id_angle|].
  split; [apply map_ext; intros s; apply validateShape_id_angle|].
  split; [apply get_set_same|]. split; [apply get_set_same|].
  intros other Hne. split; apply get_set_other; congruence.
Qed.

Lemma dist_self x y : dist x y x y = 0.
Proof.
  unfold dist. replace ((x - x) * (x - x) + (y - y) * (y - y)) with 0 by ring.
  apply sqrt_0.
Qed.

(** X24.  A shape of the batch with a previously accepted state, the clock
    not having gone backwards: whatever position is proposed, the accepted
    position is at most 100 dt away from the previous one. *)
Theorem accepted_displacement_is_bounded :
  forall v playerId shapes now i shape prevShape,
    (lastUpdateOr v playerId now <= now)%Z ->
    findPrev (JsMap.get v.(playerStates) playerId) shape = Some prevShape ->
    nth_error shapes i = Some shape ->
    exists shape',
      nth_error (snd (validateUpdate v playerId shapes now)) i = Some shape'
      /\ dist prevShape.(ClientShape.x) prevShape.(ClientShape.y)
              shape'.(ClientShape.x) shape'.(ClientShape.y)
         <= 100 * deltaTime v playerId now.
Proof.
  intros v playerId shapes now i shape prevShape Hclock Hprev Hnth.
  pose proof (deltaTime_nonneg v playerId now Hclock) as Hdt.
  eexists. split; [exact (validateUpdate_nth v playerId shapes now i shape Hnth)|].
  unfold validateShape. rewrite Hprev. cbv zeta. unfold MAX_POSITION_CHANGE.
  set (x0 := prevShape.(ClientShape.x)). set (y0 := prevShape.(ClientShape.y)).
  set (x1 := shape.(ClientShape.x)). set (y1 := shape.(ClientShape.y)).
  change (sqrt ((x1 - x0) * (x1 - x0) + (y1 - y0) * (y1 - y0)))
    with (dist x0 y0 x1 y1).
  destruct (Rgt_dec (dist x0 y0 x1 y1) (100 * deltaTime v playerId now)) as [Hgt|Hle];
    cbn [ClientShape.x ClientShape.y].
  - destruct (scaled_displacement x0 y0 x1 y1 (100 * deltaTime v playerId now))
      as [_ Heq]; [lra|exact Hgt|].
    cbv zeta in Heq. rewrite Heq. lra.
  - lra.
Qed.

Lemma accepted_displacement_is_bounded_witness :
  exists shape',
    nth_error
      (snd (validateUpdate ValidatorSample.v1 "alice" [ValidatorSample.second] 2000))
      0 = Some shape'
    /\ dist 0 0 shape'.(ClientShape.x) shape'.(ClientShape.y)
       <= 100 * deltaTime ValidatorSample.v1 "alice" 2000.
Proof.
  apply (accepted_displacement_is_bounded ValidatorSample.v1 "alice"
           [ValidatorSample.second] 2000 0 ValidatorSample.second ValidatorSample.first).
  - unfold lastUpdateOr. simpl. lia.
  - reflexivity.
  - reflexivity.
Defined.

Lemma dist_zero x0 y0 x1 y1 : dist x0 y0 x1 y1 <= 0 -> x1 = x0 /\ y1 = y0.
Proof.
  unfold dist. intros Hle.
  pose proof (Rle_0_sqr (x1 - x0)) as Hx. pose proof (Rle_0_sqr (y1 - y0)) as Hy.
  unfold Rsqr in Hx, Hy.
  assert (Hzero : sqrt ((x1 - x0) * (x1 - x0) + (y1 - y0) * (y1 - y0)) = 0).
  { apply Rle_antisym; [exact Hle|apply sqrt_pos]. }
  apply sqrt_eq_0 in Hzero; [|lra].
  assert (Hx0 : (x1 - x0) * (x1 - x0) = 0) by lra.
  assert (Hy0 : (y1 - y0) * (y1 - y0) = 0) by lra.
  apply Rmult_integral in Hx0. apply Rmult_integral in Hy0.
  split; [destruct Hx0; lra|destruct Hy0; lra].
Qed.

(** X25.  When no time has elapsed for the player (its last update time is
    [now], or none is stored), a shape with a previously accepted state is
    accepted at exactly its previous position, wherever it is proposed: a
    second update in the same millisecond cannot move it. *)
Theorem no_elapsed_time_freezes_position :
  forall v playerId shapes now i shape prevShape,
    lastUpdateOr v playerId now = now ->
    findPrev (JsMap.get v.(playerStates) playerId) shape = Some prevShape ->
    nth_error shapes i = Some shape ->
    exists shape',
      nth_error (snd (validateUpdate v playerId shapes now)) i = Some shape'
      /\ shape'.(ClientShape.x) = prevShape.(ClientShape.x)
      /\ shape'.(ClientShape.y) = prevShape.(ClientShape.y).
Proof.
  intros v playerId shapes now i shape prevShape Hsame Hprev Hnth.
  eexists. split; [exact (validateUpdate_nth v playerId shapes now i shape Hnth)|].
  unfold validateShape. rewrite Hprev. cbv zeta.
  assert (Hdt : deltaTime v playerId now = 0).
  { unfold deltaTime. rewrite Hsame, Z.sub_diag. lra. }
  rewrite Hdt. unfold MAX_POSITION_CHANGE. rewrite Rmult_0_r.
  destruct (Rgt_dec _ 0) as [Hgt|Hle]; cbn [ClientShape.x ClientShape.y].
  - unfold Rdiv. rewrite !Rmult_0_l, !Rmult_0_r. split; ring.
  - apply dist_zero. unfold dist. lra.
Qed.

(** The validator takes a second report of a1 in the millisecond of the
    first. *)
Lemma no_elapsed_time_freezes_position_witness :
  exists shape',
    nth_error
      (snd (validateUpdate ValidatorSample.v1 "alice" [ValidatorSample.second] 1000))
      0 = Some shape'
    /\ shape'.(ClientShape.x) = 0 /\ shape'.(ClientShape.y) = 0.
Proof.
  apply (no_elapsed_time_freezes_position ValidatorSample.v1 "alice"
           [ValidatorSample.second] 1000 0 ValidatorSample.second ValidatorSample.first).
  - reflexivity.
  - reflexivity.
  - reflexivity.
Defined.

Lemma findPrev_unknown_id stored shape :
  ~ In shape.(ClientShape.id) (map ClientShape.id stored) ->
  findPrev (Some stored) shape = None.
Proof.
  unfold findPrev, find. induction stored as [|s stored IH]; [reflexivity|].
  cbn [map List.find]. intros Hn.
  destruct (String.eqb_spec s.(ClientShape.id) shape.(ClientShape.id)) as [Heq|Hne].
  - exfalso. apply Hn. now left.
  - apply IH. intros Hin. apply Hn. now right.
Qed.

Lemma validateUpdate_ids v playerId shapes now :
  map ClientShape.id (snd (validateUpdate v playerId shapes now))
  = map ClientShape.id shapes.
Proof.
  unfold validateUpdate. cbn [snd]. rewrite map_map.
  apply map_ext. intros s. apply validateShape_id_angle.
Qed.

(** X26.  The state kept for a player is the last batch alone.  A shape left
    out of one batch is new to the next: reported again, alone, it is accepted
    as submitted, wherever it is and however fast, whatever was stored for it
    before. *)
Theorem omitted_shape_is_new_again :
  forall v playerId batch shape now now',
    ~ In shape.(ClientShape.id) (map ClientShape.id batch) ->
    snd (validateUpdate (fst (validateUpdate v playerId batch now)) playerId [shape] now')
    = [shape].
Proof.
  intros v playerId batch shape now now' Hnew.
  unfold validateUpdate at 1. cbn [snd map].
  rewrite validateUpdate_stored.
  unfold validateShape. rewrite findPrev_unknown_id; [reflexivity|].
  now rewrite validateUpdate_ids.
Qed.

(** a1 is left out of one batch and comes back 500 units away, at speed
    (80, -20), in the same millisecond. *)
Lemma omitted_shape_is_new_again_witness :
  snd (validateUpdate
         (fst (validateUpdate ValidatorSample.v1 "alice" [] 2000))
         "alice" [ValidatorSample.second] 2000)
  = [ValidatorSample.second].
Proof.
  apply (omitted_shape_is_new_again ValidatorSample.v1 "alice" []
           ValidatorSample.second 2000 2000).
  intros [].
Defined.
End ValidatorMore.

Section ValidatorForget.
Import StateValidator.
Local Open Scope R_scope.
Local Open Scope list_scope.

(** X27.  [StateValidator.removePlayer], the keys of both maps being
    distinct, forgets the player: no state and no update time are stored for
    it, so its next batch is returned as submitted, every shape being new;
    what is stored for the other players is as before. *)
Theorem validator_removePlayer_forgets :
  forall v playerId shapes now,
    JsMap.wf v.(playerStates) ->
    JsMap.wf v.(lastUpdateTime) ->
    let v' := removePlayer v playerId in
    JsMap.get v'.(playerStates) playerId = None
    /\ JsMap.get v'.(lastUpdateTime) playerId = None
    /\ snd (validateUpdate v' playerId shapes now) = shapes
    /\ (forall other,
          other <> playerId ->
          JsMap.get v'.(playerStates) other = JsMap.get v.(playerStates) other
          /\ JsMap.get v'.(lastUpdateTime) other = JsMap.get v.(lastUpdateTime) other).
Proof.
  intros v playerId shapes now Hws Hwt v'. subst v'. unfold removePlayer.
  cbn [playerStates lastUpdateTime].
  split; [now apply get_delete_same|]. split; [now apply get_delete_same|].
  split.
  - unfold validateUpdate. cbn [snd playerStates].
    rewrite get_delete_same by exact Hws.
    rewrite <- (map_id shapes) at 2. apply map_ext. reflexivity.
  - intros other Hne. split; apply get_delete_other; congruence.
Qed.

Lemma validator_removePlayer_forgets_witness :
  snd (validateUpdate (removePlayer ValidatorSample.v1 "alice") "alice"
         [ValidatorSample.second] 2000)
  = [ValidatorSample.second].
Proof.
  apply (validator_removePlayer_forgets ValidatorSample.v1 "alice"
           [ValidatorSample.second] 2000).
  - unfold JsMap.wf. change (NoDup ["alice"]).
    repeat constructor; simpl; intuition discriminate.
  - unfold JsMap.wf. change (NoDup ["alice"]).
    repeat constructor; simpl; intuition discriminate.
Defined.
End ValidatorForget.

(** * Changing the colour *)

Lemma isHexColor_truthy color :
  PhysicsRoom.isHexColor color = true -> truthy (Some color) = true.
Proof. destruct color; [discriminate|reflexivity]. Qed.

(** X28.  A [change_block_color] request of a player that holds a shape.  A
    colour that is not "#" and six hexadecimal digits changes nothing and is
    not broadcast.  A colour of that form is given to every shape of the
    sender, whose [lastUpdate] is stamped and whose other fields stay, the
    player's [lastActivity] staying too; and it is broadcast once, to every
    client. *)
Theorem change_block_color_recolours_the_senders_shapes :
  forall room client color now playerId player,
    PhysicsRoom.resolve room client = Some playerId ->
    PhysicsState.getPlayer room.(PhysicsRoom.state) playerId = Some player ->
    player.(Player.shapes) <> [] ->
    let result := PhysicsRoom.handleChangeBlockColor room client (Some color) now in
    (PhysicsRoom.isHexColor color = false -> result = (room, []))
    /\ (PhysicsRoom.isHexColor color = true ->
        snd result = [block_color_changed playerId color]
        /\ PhysicsState.getPlayer (fst result).(PhysicsRoom.state) playerId
           = Some (Player.mk player.(Player.id)
                     (map (fun s =>
                             Shape.mk s.(Shape.id) s.(Shape.x) s.(Shape.y) s.(Shape.angle)
                               s.(Shape.velocity) now color)
                        player.(Player.shapes))
                     player.(Player.disconnected) player.(Player.lastActivity))).
Proof.
  intros room client color now playerId player Hres Hget Hshapes result.
  subst result. unfold PhysicsRoom.handleChangeBlockColor. split.
  - intros Hbad. rewrite Hbad. now rewrite orb_true_r.
  - intros Hgood. rewrite Hgood, (isHexColor_truthy color Hgood), Hres, Hget.
    cbn [negb orb].
    destruct player.(Player.shapes) as [|s rest] eqn:Hs; [contradiction|].
    cbn [length Nat.ltb Nat.leb fst snd]. split; [reflexivity|].
    unfold PhysicsState.getPlayer. cbn. apply get_set_same.
Qed.

Lemma change_block_color_recolours_the_senders_shapes_witness :
  snd (PhysicsRoom.handleChangeBlockColor Sample.room2 Sample.s1 (Some "#eb9947") 4000)
  = [block_color_changed "alice" "#eb9947"].
Proof.
  refine (proj1 (proj2 (change_block_color_recolours_the_senders_shapes Sample.room2
                          Sample.s1 "#eb9947" 4000 "alice"
                          (Player.mk "alice"
                             [Shape.mk "alice_2000_500" (2500 # 4) 1750 0 (Vector.mk 0 0)
                                2000 "#aabbcc"] false 2000)
                          eq_refl eq_refl _) eq_refl)).
  discriminate.
Defined.
